(** * EC2 details extractor: lookup-and-enrichment pipeline

    A shallow embedding of [get-ec2-details-json.py]: the values botocore
    hands to the script, the two remote calls as functions of an
    environment, and the script's four functions ([get_volume_details],
    [get_ec2_details], [format_ec2_details], [main]) in a small monad that
    records what the run prints, calls and writes. *)

From Stdlib Require Import List String Ascii ZArith Lia Bool Arith DecimalString.
Import ListNotations.
Open Scope string_scope.

Set Warnings "-register-all".

(** ** Python values *)

(** The values found in a botocore response and in the objects the script
    builds from it.  A [dict] keeps its keys in insertion order, as Python's
    does (the order is what [json.dump] writes), so it is an association
    list; every dict in a response and every dict the script builds is keyed
    by [str].  A [datetime] is carried by the text [str()] gives for it.
    A [str] is a sequence of code points below 256. *)
Inductive pyval : Type :=
| PNone
| PBool (b : bool)
| PInt (z : Z)
| PStr (s : string)
| PDatetime (text : string)
| PList (l : list pyval)
| PDict (d : list (string * pyval)).

Definition dict := list (string * pyval).

Module Dict.

(** [k in d] *)
Fixpoint mem (d : dict) (k : string) : bool :=
  match d with
  | [] => false
  | (k', _) :: r => if String.eqb k k' then true else mem r k
  end.

(** [d.get(k)], [None] standing for an absent key *)
Fixpoint get (d : dict) (k : string) : option pyval :=
  match d with
  | [] => None
  | (k', v) :: r => if String.eqb k k' then Some v else get r k
  end.

(** [d[k] = v]: an existing key keeps its place, a new key goes last *)
Fixpoint set (d : dict) (k : string) (v : pyval) : dict :=
  match d with
  | [] => [(k, v)]
  | (k', v') :: r =>
      if String.eqb k k' then (k, v) :: r else (k', v') :: set r k v
  end.

Definition keys (d : dict) : list string := map fst d.

End Dict.

(** ** Exceptions *)

(** All of these derive from [Exception].  [RemoteError] stands for what
    boto3 and botocore raise (ClientError, NoCredentialsError,
    EndpointConnectionError, ParamValidationError, ...), with the text
    [str(e)] gives. *)
Inductive exn : Type :=
| KeyError (key : string)
| TypeError (msg : string)
| AttributeError (msg : string)
| RemoteError (msg : string)
| OSError (msg : string).

(** [str(e)]; for a [KeyError] it is the repr of the key, here always one of
    the script's plain literals. *)
Definition str_exn (e : exn) : string :=
  match e with
  | KeyError k => "'" ++ k ++ "'"
  | TypeError m | AttributeError m | RemoteError m | OSError m => m
  end.

Inductive res (A : Type) : Type :=
| Ok (a : A)
| Raise (e : exn).
Arguments Ok {A} a.
Arguments Raise {A} e.

Definition res_bind {A B} (r : res A) (f : A -> res B) : res B :=
  match r with
  | Ok a => f a
  | Raise e => Raise e
  end.

(** ** Dynamic operations on values *)

Definition type_name (v : pyval) : string :=
  match v with
  | PNone => "NoneType"
  | PBool _ => "bool"
  | PInt _ => "int"
  | PStr _ => "str"
  | PDatetime _ => "datetime.datetime"
  | PList _ => "list"
  | PDict _ => "dict"
  end.

(** [bool(v)] *)
Definition truthy (v : pyval) : bool :=
  match v with
  | PNone => false
  | PBool b => b
  | PInt z => negb (Z.eqb z 0)
  | PStr s => negb (String.eqb s "")
  | PDatetime _ => true
  | PList l => match l with [] => false | _ => true end
  | PDict d => match d with [] => false | _ => true end
  end.

(** [v[k]] for a [str] key: only a dict can answer; the [TypeError] has
    the text CPython gives for the type of [v]. *)
Definition subscript (v : pyval) (k : string) : res pyval :=
  match v with
  | PDict d =>
      match Dict.get d k with
      | Some x => Ok x
      | None => Raise (KeyError k)
      end
  | PStr _ => Raise (TypeError "string indices must be integers, not 'str'")
  | PList _ => Raise (TypeError "list indices must be integers or slices, not str")
  | _ => Raise (TypeError ("'" ++ type_name v ++ "' object is not subscriptable"))
  end.

(** [v.get(k, default)] *)
Definition py_get (v : pyval) (k : string) (default : pyval) : res pyval :=
  match v with
  | PDict d =>
      match Dict.get d k with
      | Some x => Ok x
      | None => Ok default
      end
  | _ => Raise (AttributeError ("'" ++ type_name v ++ "' object has no attribute 'get'"))
  end.

(** [s in t] for two strings: [s] occurs in [t] *)
Fixpoint is_substring (s t : string) : bool :=
  if String.prefix s t then true
  else match t with
       | EmptyString => false
       | String _ t' => is_substring s t'
       end.

Definition is_str (k : string) (v : pyval) : bool :=
  match v with
  | PStr s => String.eqb k s
  | _ => false
  end.

(** [k in v] for a [str] [k]: key of a dict, element of a list, substring
    of a str *)
Definition contains (k : string) (v : pyval) : res bool :=
  match v with
  | PDict d => Ok (Dict.mem d k)
  | PList l => Ok (existsb (is_str k) l)
  | PStr s => Ok (is_substring k s)
  | _ => Raise (TypeError ("argument of type '" ++ type_name v ++ "' is not iterable"))
  end.

Fixpoint chars (s : string) : list pyval :=
  match s with
  | EmptyString => []
  | String c r => PStr (String c EmptyString) :: chars r
  end.

(** What [for x in v] runs over: the elements of a list, the keys of a
    dict, the characters of a str *)
Definition py_iter (v : pyval) : res (list pyval) :=
  match v with
  | PList l => Ok l
  | PDict d => Ok (map PStr (Dict.keys d))
  | PStr s => Ok (chars s)
  | _ => Raise (TypeError ("'" ++ type_name v ++ "' object is not iterable"))
  end.

(** [v[k] = x] for a [str] key *)
Definition set_item (v : pyval) (k : string) (x : pyval) : res pyval :=
  match v with
  | PDict d => Ok (PDict (Dict.set d k x))
  | PList _ => Raise (TypeError "list indices must be integers or slices, not str")
  | _ => Raise (TypeError ("'" ++ type_name v ++ "' object does not support item assignment"))
  end.

(** A value used as a key of [volume_details] or [VolumeDetails].  A [str]
    is the key; a list or a dict is unhashable and Python raises the
    [TypeError] given here.  The dicts of this development have [str] keys,
    as botocore's shapes give identifiers: for another scalar ([None], a
    bool, an int, a datetime) Python would store under that value, which
    these dicts cannot hold, and the last case stops instead.  It is a limit
    of the model, not the script's behaviour; a statement that reads a
    raise of [volume_entry] as the script's is made for [str] identifiers. *)
Definition as_key (v : pyval) : res string :=
  match v with
  | PStr s => Ok s
  | PList _ | PDict _ => Raise (TypeError ("unhashable type: '" ++ type_name v ++ "'"))
  | _ => Raise (TypeError ("key of type '" ++ type_name v ++ "' in a str-keyed dict"))
  end.

(** [v in d] for a str-keyed dict [d]: a list or a dict cannot be hashed,
    another scalar is not a key of [d] *)
Definition key_in (v : pyval) (d : dict) : res bool :=
  match v with
  | PStr s => Ok (Dict.mem d s)
  | PList _ | PDict _ => Raise (TypeError ("unhashable type: '" ++ type_name v ++ "'"))
  | _ => Ok false
  end.

(** ** Text of values *)

Definition nl : string := String "010"%char EmptyString.
Definition dquote : string := String "034"%char EmptyString.

Definition str_of_nat (n : nat) : string := NilZero.string_of_uint (Nat.to_uint n).
Definition str_of_Z (z : Z) : string := NilZero.string_of_int (Z.to_int z).

(** [s * n] *)
Fixpoint repeat_str (s : string) (n : nat) : string :=
  match n with
  | O => ""
  | S n' => s ++ repeat_str s n'
  end.

(** [s.replace(a, b)] for one-character [a] and [b] *)
Fixpoint replace_char (a b : ascii) (s : string) : string :=
  match s with
  | EmptyString => EmptyString
  | String c r => String (if Ascii.eqb c a then b else c) (replace_char a b r)
  end.

Section Str.

(** Python's [repr] of a list or a dict, which [str] falls back on for
    those two; a parameter of the rendering, since no line the script
    prints from a botocore-shaped record interpolates one. *)
Variable repr_container : pyval -> string.

(** [str(v)], which an f-string applies to each interpolated value *)
Definition py_str (v : pyval) : string :=
  match v with
  | PNone => "None"
  | PBool true => "True"
  | PBool false => "False"
  | PInt z => str_of_Z z
  | PStr s => s
  | PDatetime text => text
  | PList _ | PDict _ => repr_container v
  end.

End Str.

Module Json.

Definition hex_digit (n : nat) : ascii :=
  match n with
  | 0 => "0" | 1 => "1" | 2 => "2" | 3 => "3" | 4 => "4" | 5 => "5"
  | 6 => "6" | 7 => "7" | 8 => "8" | 9 => "9" | 10 => "a" | 11 => "b"
  | 12 => "c" | 13 => "d" | 14 => "e" | _ => "f"
  end%char.

(** One character of a JSON string under [ensure_ascii]: the quote and
    the backslash are escaped, the five short escapes are used, and
    anything else outside space..~ is written as [\u00xx]. *)
Definition escape_char (c : ascii) : string :=
  let n := nat_of_ascii c in
  if Nat.eqb n 34 then "\" ++ dquote
  else if Nat.eqb n 92 then "\\"
  else if Nat.eqb n 10 then "\n"
  else if Nat.eqb n 13 then "\r"
  else if Nat.eqb n 9 then "\t"
  else if Nat.eqb n 8 then "\b"
  else if Nat.eqb n 12 then "\f"
  else if (Nat.leb 32 n && Nat.leb n 126)%bool then String c EmptyString
  else "\u00" ++ String (hex_digit (n / 16)) (String (hex_digit (n mod 16)) EmptyString).

Fixpoint escape (s : string) : string :=
  match s with
  | EmptyString => EmptyString
  | String c r => escape_char c ++ escape r
  end.

Definition encode_str (s : string) : string := dquote ++ escape s ++ dquote.

Fixpoint join (sep : string) (l : list string) : string :=
  match l with
  | [] => ""
  | [x] => x
  | x :: r => x ++ sep ++ join sep r
  end.

(** [json.dumps(v, default=str)]: a datetime is not serialisable, so
    [default] turns it into its [str()] text, which is then encoded as a
    JSON string. *)
Fixpoint dumps (v : pyval) : string :=
  match v with
  | PNone => "null"
  | PBool true => "true"
  | PBool false => "false"
  | PInt z => str_of_Z z
  | PStr s => encode_str s
  | PDatetime text => encode_str text
  | PList l => "[" ++ join ", " (map dumps l) ++ "]"
  | PDict d =>
      "{" ++ join ", " (map (fun kv => encode_str (fst kv) ++ ": " ++ dumps (snd kv)) d) ++ "}"
  end.

End Json.

(** ** Runs: what a call prints, asks the remote service and writes *)

Inductive event : Type :=
| EvPrint (line : string)
| EvDescribeInstances (filters : list pyval)
| EvDescribeVolumes (volume_ids : list pyval)
| EvWriteJson (path : string) (data : pyval).

(** A computation yields the events it produced, in order, and either a
    value or the exception it ended with. *)
Definition M (A : Type) : Type := (list event * res A)%type.

Definition ret {A} (a : A) : M A := ([], Ok a).
Definition emit (ev : event) : M unit := ([ev], Ok tt).
Definition print (line : string) : M unit := emit (EvPrint line).
Definition lift {A} (r : res A) : M A := ([], r).

Definition bind {A B} (m : M A) (f : A -> M B) : M B :=
  match m with
  | (t, Ok a) => let (t', r) := f a in ((t ++ t')%list, r)
  | (t, Raise e) => (t, Raise e)
  end.

(** [try: m  except Exception as e: handler e] *)
Definition try_except {A} (m : M A) (handler : exn -> M A) : M A :=
  match m with
  | (t, Raise e) => let (t', r) := handler e in ((t ++ t')%list, r)
  | done => done
  end.

Declare Scope py_scope.
Delimit Scope py_scope with py.
Notation "x <- m ;; k" := (bind m (fun x => k))
  (at level 61, m at next level, right associativity) : py_scope.
Notation "m ;; k" := (bind m (fun _ => k))
  (at level 61, right associativity) : py_scope.
Notation "x <-! r ;; k" := (bind (lift r) (fun x => k))
  (at level 61, r at next level, right associativity) : py_scope.
Notation "x <-? r ;; k" := (res_bind r (fun x => k))
  (at level 61, r at next level, right associativity) : py_scope.
Open Scope py_scope.

Definition trace {A} (m : M A) : list event := fst m.
Definition outcome {A} (m : M A) : res A := snd m.

(** [for x in l: body x] *)
Fixpoint for_each {A} (l : list A) (body : A -> M unit) : M unit :=
  match l with
  | [] => ret tt
  | x :: r => body x ;; for_each r body
  end.

(** A loop without effects that carries a local variable from one round to
    the next and stops at the first exception *)
Fixpoint fold_res {A S} (l : list A) (s : S) (body : S -> A -> res S) : res S :=
  match l with
  | [] => Ok s
  | x :: r => s' <-? body s x ;; fold_res r s' body
  end.

(** ** The environment of a run *)

(** An EC2 client: the two calls the script makes, as functions of their
    arguments. *)
Record ec2_client : Type := {
  describe_instances : list pyval -> res pyval;
  describe_volumes : list pyval -> res pyval
}.

Record env : Type := {
  (** [boto3.client('ec2', region_name=...)] *)
  boto3_client : string -> res ec2_client;
  (** [open(path, 'w')] *)
  open_w : string -> res unit
}.

(** ** [get_volume_details] *)

(** The record built for one element of [response['Volumes']], with the
    key it is stored under.  The dict display is evaluated first, the key
    after it. *)
Definition volume_entry (volume : pyval) : res (string * pyval) :=
  size <-? subscript volume "Size" ;;
  volume_type <-? subscript volume "VolumeType" ;;
  state <-? subscript volume "State" ;;
  encrypted <-? subscript volume "Encrypted" ;;
  iops <-? py_get volume "Iops" (PStr "N/A") ;;
  throughput <-? py_get volume "Throughput" (PStr "N/A") ;;
  snapshot_id <-? py_get volume "SnapshotId" (PStr "N/A") ;;
  availability_zone <-? subscript volume "AvailabilityZone" ;;
  create_time <-? subscript volume "CreateTime" ;;
  volume_id <-? subscript volume "VolumeId" ;;
  key <-? as_key volume_id ;;
  Ok (key, PDict [("Size", size); ("VolumeType", volume_type); ("State", state);
                  ("Encrypted", encrypted); ("Iops", iops);
                  ("Throughput", throughput); ("SnapshotId", snapshot_id);
                  ("AvailabilityZone", availability_zone);
                  ("CreateTime", create_time)]).

(** The loop over [response['Volumes']]: [volume_details] as it stands when
    the loop ends, and the exception that ended it, if one did. *)
Fixpoint add_volumes (volumes : list pyval) (volume_details : dict)
  : dict * option exn :=
  match volumes with
  | [] => (volume_details, None)
  | volume :: rest =>
      match volume_entry volume with
      | Ok (key, record) => add_volumes rest (Dict.set volume_details key record)
      | Raise e => (volume_details, Some e)
      end
  end.

Definition volume_warning (e : exn) : event :=
  EvPrint ("Warning: Could not retrieve volume details: " ++ str_exn e).

Definition get_volume_details (ec2 : ec2_client) (volume_ids : list pyval) : M dict :=
  match volume_ids with
  | [] => ret []
  | _ =>
      emit (EvDescribeVolumes volume_ids) ;;
      match (response <-? describe_volumes ec2 volume_ids ;;
             volumes <-? subscript response "Volumes" ;;
             py_iter volumes) with
      | Raise e => emit (volume_warning e) ;; ret []
      | Ok volumes =>
          match add_volumes volumes [] with
          | (volume_details, None) => ret volume_details
          | (volume_details, Some e) => emit (volume_warning e) ;; ret volume_details
          end
      end
  end.

(** ** [get_ec2_details] *)

Definition default_region : string := "ap-southeast-2".

(** [region] when it is given and not empty, the default otherwise *)
Definition effective_region (region : option string) : string :=
  match region with
  | Some r => if String.eqb r "" then default_region else r
  | None => default_region
  end.

Definition live_states : list string :=
  ["running"; "stopped"; "stopping"; "pending"; "shutting-down"].

Definition query_filters (server_name : string) : list pyval :=
  [ PDict [("Name", PStr "tag:Name"); ("Values", PList [PStr server_name])];
    PDict [("Name", PStr "instance-state-name"); ("Values", PList (map PStr live_states))] ].

(** The inner loop over [reservation['Instances']], for one reservation *)
Definition add_reservation (instances : list pyval) (reservation : pyval)
  : res (list pyval) :=
  group_v <-? subscript reservation "Instances" ;;
  group <-? py_iter group_v ;;
  Ok (instances ++ group)%list.

(** The two nested loops over [response['Reservations']] *)
Definition flatten_reservations (response : pyval) : res (list pyval) :=
  reservations_v <-? subscript response "Reservations" ;;
  reservations <-? py_iter reservations_v ;;
  fold_res reservations [] add_reservation.

(** [instance.get('BlockDeviceMappings', [])], as the loops run over it *)
Definition block_device_mappings (instance : pyval) : res (list pyval) :=
  bdms_v <-? py_get instance "BlockDeviceMappings" (PList []) ;;
  py_iter bdms_v.

(** [bdm['Ebs']['VolumeId']] *)
Definition ebs_volume_id (bdm : pyval) : res pyval :=
  ebs <-? subscript bdm "Ebs" ;;
  subscript ebs "VolumeId".

(** The body of the loop that fills [all_volume_ids], for one mapping *)
Definition collect_bdm (all_volume_ids : list pyval) (bdm : pyval) : res (list pyval) :=
  has_ebs <-? contains "Ebs" bdm ;;
  if has_ebs then
    volume_id <-? ebs_volume_id bdm ;;
    Ok (all_volume_ids ++ [volume_id])%list
  else Ok all_volume_ids.

(** The identifiers one instance adds to [all_volume_ids] *)
Definition instance_volume_ids (all_volume_ids : list pyval) (instance : pyval)
  : res (list pyval) :=
  bdms <-? block_device_mappings instance ;;
  fold_res bdms all_volume_ids collect_bdm.

Definition collect_volume_ids (instances : list pyval) : res (list pyval) :=
  fold_res instances [] instance_volume_ids.

(** The body of the loop that fills [instance['VolumeDetails']], for one
    mapping; the instance dict is updated in place, so it is handed on. *)
Definition attach_volume (volume_details : dict) (instance bdm : pyval) : res pyval :=
  has_ebs <-? contains "Ebs" bdm ;;
  if has_ebs then
    volume_id <-? ebs_volume_id bdm ;;
    known <-? key_in volume_id volume_details ;;
    if known then
      key <-? as_key volume_id ;;
      record <-? subscript (PDict volume_details) key ;;
      details <-? subscript instance "VolumeDetails" ;;
      details <-? set_item details key record ;;
      set_item instance "VolumeDetails" details
    else Ok instance
  else Ok instance.

(** One round of the last loop: an instance gets its [VolumeDetails] *)
Definition add_volume_details (volume_details : dict) (instance : pyval) : res pyval :=
  instance <-? set_item instance "VolumeDetails" (PDict []) ;;
  bdms <-? block_device_mappings instance ;;
  fold_res bdms instance (attach_volume volume_details).

Fixpoint merge (volume_details : dict) (instances : list pyval) : res (list pyval) :=
  match instances with
  | [] => Ok []
  | instance :: rest =>
      instance' <-? add_volume_details volume_details instance ;;
      rest' <-? merge volume_details rest ;;
      Ok (instance' :: rest')
  end.

Definition get_ec2_details (w : env) (server_name : string) (region : option string)
  : M (option (list pyval)) :=
  ec2 <-! boto3_client w (effective_region region) ;;
  try_except
    (emit (EvDescribeInstances (query_filters server_name)) ;;
     response <-! describe_instances ec2 (query_filters server_name) ;;
     instances <-! flatten_reservations response ;;
     match instances with
     | [] =>
         print ("No EC2 instances found with name: " ++ server_name) ;;
         ret None
     | _ =>
         (if Nat.ltb 1 (List.length instances) then
            print ("Found " ++ str_of_nat (List.length instances)
                   ++ " instances with name: " ++ server_name) ;;
            print "Showing details for all instances:"
          else ret tt) ;;
         all_volume_ids <-! collect_volume_ids instances ;;
         volume_details <- get_volume_details ec2 all_volume_ids ;;
         instances <-! merge volume_details instances ;;
         ret (Some instances)
     end)
    (fun e =>
       print ("Error retrieving EC2 details: " ++ str_exn e) ;;
       ret None).

(** ** [format_ec2_details] and [main] *)

(** [d.get(k, default)] where the key is itself a value *)
Definition get_by_value (d k default : pyval) : res pyval :=
  match d with
  | PDict entries =>
      match k with
      | PStr s =>
          match Dict.get entries s with
          | Some x => Ok x
          | None => Ok default
          end
      | PList _ | PDict _ => Raise (TypeError ("unhashable type: '" ++ type_name k ++ "'"))
      | _ => Ok default
      end
  | _ => Raise (AttributeError ("'" ++ type_name d ++ "' object has no attribute 'get'"))
  end.

Record args : Type := {
  server_name : string;
  region : option string;
  output : option string;
  human : bool
}.

Section Report.

Variable repr_container : pyval -> string.

Let str := py_str repr_container.

(** The lines of one block device mapping in the storage section *)
Definition format_bdm (instance bdm : pyval) : M unit :=
  has_ebs <-! contains "Ebs" bdm ;;
  if has_ebs then
    device <-! subscript bdm "DeviceName" ;;
    ebs <-! subscript bdm "Ebs" ;;
    volume_id <-! subscript ebs "VolumeId" ;;
    details <-! py_get instance "VolumeDetails" (PDict []) ;;
    volume_info <-! get_by_value details volume_id (PDict []) ;;
    if truthy volume_info then
      size <-! py_get volume_info "Size" (PStr "Unknown") ;;
      vol_type <-! py_get volume_info "VolumeType" (PStr "Unknown") ;;
      encrypted <-! py_get volume_info "Encrypted" (PBool false) ;;
      iops <-! py_get volume_info "Iops" (PStr "N/A") ;;
      throughput <-! py_get volume_info "Throughput" (PStr "N/A") ;;
      state <-! py_get volume_info "State" (PStr "Unknown") ;;
      print ("  " ++ str device ++ ": " ++ str volume_id) ;;
      print ("    Size: " ++ str size ++ " GB") ;;
      print ("    Type: " ++ str vol_type) ;;
      print ("    State: " ++ str state) ;;
      print ("    Encrypted: " ++ str encrypted) ;;
      (if negb (is_str "N/A" iops) then print ("    IOPS: " ++ str iops) else ret tt) ;;
      (if negb (is_str "N/A" throughput)
       then print ("    Throughput: " ++ str throughput ++ " MB/s") else ret tt)
    else
      print ("  " ++ str device ++ ": " ++ str volume_id ++ " (details unavailable)")
  else
    device <-! subscript bdm "DeviceName" ;;
    print ("  " ++ str device ++ ": Instance store volume").

(** The lines that open the block of one instance: the numbered header
    when there are several instances, then the basic information *)
Definition format_basic (total i : nat) (instance : pyval) : M unit :=
  (if Nat.ltb 1 total then
     print (nl ++ repeat_str "=" 50) ;;
     print ("INSTANCE " ++ str_of_nat i ++ " of " ++ str_of_nat total) ;;
     print (repeat_str "=" 50)
   else ret tt) ;;
  instance_id <-! subscript instance "InstanceId" ;;
  print ("Instance ID: " ++ str instance_id) ;;
  instance_type <-! subscript instance "InstanceType" ;;
  print ("Instance Type: " ++ str instance_type) ;;
  state <-! subscript instance "State" ;;
  state_name <-! subscript state "Name" ;;
  print ("State: " ++ str state_name) ;;
  launch_time <-! subscript instance "LaunchTime" ;;
  print ("Launch Time: " ++ str launch_time) ;;
  architecture <-! subscript instance "Architecture" ;;
  print ("Architecture: " ++ str architecture) ;;
  platform <-! py_get instance "Platform" (PStr "Linux/Unix") ;;
  print ("Platform: " ++ str platform).

Definition format_network (instance : pyval) : M unit :=
  print (nl ++ "Network Details:") ;;
  vpc_id <-! subscript instance "VpcId" ;;
  print ("  VPC ID: " ++ str vpc_id) ;;
  subnet_id <-! subscript instance "SubnetId" ;;
  print ("  Subnet ID: " ++ str subnet_id) ;;
  private_ip <-! subscript instance "PrivateIpAddress" ;;
  print ("  Private IP: " ++ str private_ip) ;;
  public_ip <-! py_get instance "PublicIpAddress" PNone ;;
  (if truthy public_ip then
     public_ip <-! subscript instance "PublicIpAddress" ;;
     print ("  Public IP: " ++ str public_ip)
   else ret tt) ;;
  private_dns <-! subscript instance "PrivateDnsName" ;;
  print ("  Private DNS: " ++ str private_dns) ;;
  public_dns <-! py_get instance "PublicDnsName" PNone ;;
  (if truthy public_dns then
     public_dns <-! subscript instance "PublicDnsName" ;;
     print ("  Public DNS: " ++ str public_dns)
   else ret tt).

Definition format_security_groups (instance : pyval) : M unit :=
  print (nl ++ "Security Groups:") ;;
  groups_v <-! subscript instance "SecurityGroups" ;;
  groups <-! py_iter groups_v ;;
  for_each groups (fun sg =>
    group_name <-! subscript sg "GroupName" ;;
    group_id <-! subscript sg "GroupId" ;;
    print ("  - " ++ str group_name ++ " (" ++ str group_id ++ ")")).

Definition format_tags (instance : pyval) : M unit :=
  print (nl ++ "Tags:") ;;
  has_tags <-! contains "Tags" instance ;;
  if has_tags then
    tags_v <-! subscript instance "Tags" ;;
    tags <-! py_iter tags_v ;;
    for_each tags (fun tag =>
      key <-! subscript tag "Key" ;;
      value <-! subscript tag "Value" ;;
      print ("  " ++ str key ++ ": " ++ str value))
  else
    print "  No tags found".

Definition format_storage (instance : pyval) : M unit :=
  print (nl ++ "Storage:") ;;
  bdms_v <-! py_get instance "BlockDeviceMappings" (PList []) ;;
  bdms <-! py_iter bdms_v ;;
  for_each bdms (format_bdm instance).

Definition format_placement (instance : pyval) : M unit :=
  placement <-! subscript instance "Placement" ;;
  zone <-! subscript placement "AvailabilityZone" ;;
  print (nl ++ "Availability Zone: " ++ str zone) ;;
  key_name <-! py_get instance "KeyName" PNone ;;
  if truthy key_name then
    key_name <-! subscript instance "KeyName" ;;
    print ("Key Pair: " ++ str key_name)
  else ret tt.

(** The body of the loop of [format_ec2_details], for the [i]-th of
    [total] instances *)
Definition format_instance (total i : nat) (instance : pyval) : M unit :=
  format_basic total i instance ;;
  format_network instance ;;
  format_security_groups instance ;;
  format_tags instance ;;
  format_storage instance ;;
  format_placement instance.

(** [for i, instance in enumerate(instances, i): ...] *)
Fixpoint format_from (total i : nat) (instances : list pyval) : M unit :=
  match instances with
  | [] => ret tt
  | instance :: rest =>
      format_instance total i instance ;;
      format_from total (S i) rest
  end.

Definition format_ec2_details (instances : list pyval) : M unit :=
  format_from (List.length instances) 1 instances.

(** *** [main] *)

Definition default_output (name : string) : string :=
  "output/" ++ replace_char "\" "_" (replace_char "/" "_" name) ++ "_details.json".

(** The object [main] hands to [json.dump] *)
Definition output_data (a : args) (instances : list pyval) : res pyval :=
  timestamp <-? match instances with
                | first :: _ =>
                    launch_time <-? subscript first "LaunchTime" ;;
                    Ok (PStr (Json.dumps launch_time))
                | [] => Ok PNone
                end ;;
  Ok (PDict [("search_query", PStr (server_name a));
             ("region", PStr (effective_region (region a)));
             ("timestamp", timestamp);
             ("instance_count", PInt (Z.of_nat (List.length instances)));
             ("instances", PList instances)]).

(** [for i, instance in enumerate(instances, i)] of the summary *)
Fixpoint summary_from (i : nat) (instances : list pyval) : M unit :=
  match instances with
  | [] => ret tt
  | instance :: rest =>
      instance_id <-! subscript instance "InstanceId" ;;
      state <-! subscript instance "State" ;;
      state_name <-! subscript state "Name" ;;
      print ("  Instance " ++ str_of_nat i ++ ": " ++ str instance_id
             ++ " (" ++ str state_name ++ ")") ;;
      summary_from (S i) rest
  end.

(** [args.output] once the default has been filled in *)
Definition output_path (a : args) : string :=
  match output a with
  | Some (String c r) => String c r
  | _ => default_output (server_name a)
  end.

(** What [main] does with the answer of [get_ec2_details] *)
Definition report (w : env) (a : args) (found : option (list pyval)) : M unit :=
  match found with
  | None | Some [] => ret tt
  | Some instances =>
      if human a then format_ec2_details instances
      else
        data <-! output_data a instances ;;
        lift (open_w w (output_path a)) ;;
        emit (EvWriteJson (output_path a) data) ;;
        print ("EC2 details written to: " ++ output_path a) ;;
        print ("Found " ++ str_of_nat (List.length instances) ++ " instance(s)") ;;
        summary_from 1 instances
  end.

Definition main (w : env) (a : args) : M unit :=
  print ("Searching for EC2 instance: " ++ server_name a) ;;
  match region a with
  | Some (String c r) => print ("Region: " ++ String c r)
  | _ => print "Region: ap-southeast-2 (default)"
  end ;;
  found <- get_ec2_details w (server_name a) (region a) ;;
  report w a found.

End Report.

(** ** Reading a run *)

(** The attachment [bdm] is remote-backed and names the volume [vid] *)
Definition refers (vid : string) (bdm : pyval) : bool :=
  match contains "Ebs" bdm, ebs_volume_id bdm with
  | Ok true, Ok volume_id => is_str vid volume_id
  | _, _ => false
  end.

(** How many attachments of [instance] name the volume [vid] *)
Definition attachments_to (vid : string) (instance : pyval) : nat :=
  match block_device_mappings instance with
  | Ok bdms => List.length (filter (refers vid) bdms)
  | Raise _ => 0
  end.

Definition total_attachments_to (vid : string) (instances : list pyval) : nat :=
  list_sum (map (attachments_to vid) instances).

(** How often [vid] occurs in a list of identifiers *)
Definition count_id (vid : string) (ids : list pyval) : nat :=
  List.length (filter (is_str vid) ids).

(** The identifier lists of the volume queries of a run, in order *)
Definition volume_fetches (t : list event) : list (list pyval) :=
  flat_map (fun ev => match ev with EvDescribeVolumes ids => [ids] | _ => [] end) t.

(** The filter lists of the instance queries of a run, in order *)
Definition instance_queries (t : list event) : list (list pyval) :=
  flat_map (fun ev => match ev with EvDescribeInstances filters => [filters] | _ => [] end) t.

(** The files a run wrote, with the object written to each *)
Definition artifacts (t : list event) : list (string * pyval) :=
  flat_map (fun ev => match ev with EvWriteJson path data => [(path, data)] | _ => [] end) t.

(** The lines a run printed *)
Definition printed (t : list event) : list string :=
  flat_map (fun ev => match ev with EvPrint line => [line] | _ => [] end) t.

Definition has_line (line : string) (t : list event) : bool :=
  existsb (String.eqb line) (printed t).

(** [instance['VolumeDetails'].get(vid)] of a merged record *)
Definition volume_detail (instance : pyval) (vid : string) : option pyval :=
  match subscript instance "VolumeDetails" with
  | Ok (PDict details) => Dict.get details vid
  | _ => None
  end.

(** The identifiers the remote-backed mappings of a list name, in order *)
Definition ebs_ids (bdms : list pyval) : list pyval :=
  flat_map (fun bdm => match contains "Ebs" bdm, ebs_volume_id bdm with
                       | Ok true, Ok volume_id => [volume_id]
                       | _, _ => []
                       end) bdms.

Definition instance_ebs_ids (instance : pyval) : list pyval :=
  match block_device_mappings instance with
  | Ok bdms => ebs_ids bdms
  | Raise _ => []
  end.

Definition is_string (v : pyval) : bool :=
  match v with
  | PStr _ => true
  | _ => false
  end.

(** A mapping the first loop went through without raising *)
Definition readable (bdm : pyval) : Prop :=
  contains "Ebs" bdm = Ok false
  \/ contains "Ebs" bdm = Ok true /\ exists v, ebs_volume_id bdm = Ok v.

(** An instance the first loop went through without raising *)
Definition collectable (instance : pyval) : Prop :=
  exists bdms, block_device_mappings instance = Ok bdms /\ Forall readable bdms.

(** The two lines [get_ec2_details] prints when it found several instances *)
Definition found_banner (server_name : string) (n : nat) : list event :=
  if Nat.ltb 1 n then
    [EvPrint ("Found " ++ str_of_nat n ++ " instances with name: " ++ server_name);
     EvPrint "Showing details for all instances:"]
  else [].

(** The numbered header [format_ec2_details] prints before the [i]-th of
    several instances *)
Definition instance_header (total i : nat) : list event :=
  if Nat.ltb 1 total then
    [EvPrint (nl ++ repeat_str "=" 50);
     EvPrint ("INSTANCE " ++ str_of_nat i ++ " of " ++ str_of_nat total);
     EvPrint (repeat_str "=" 50)]
  else [].

(** The two lines [main] starts with *)
Definition main_banner (a : args) : list event :=
  [EvPrint ("Searching for EC2 instance: " ++ server_name a);
   EvPrint (match region a with
            | Some (String c r) => "Region: " ++ String c r
            | _ => "Region: ap-southeast-2 (default)"
            end)].

(** ** The remote service's reading of a filter *)

(** What DescribeInstances promises for the two filters the script sends:
    [tag:Name] keeps an instance that carries a tag [Name] with one of the
    values, [instance-state-name] one whose state name is one of the
    values.  Values are compared literally; the wildcard characters the
    service knows are not modelled.  The service is not part of the script;
    this reading of its contract is used only as a hypothesis on its
    answers. *)
Definition state_name (instance : pyval) : option string :=
  match (state <-? subscript instance "State" ;; subscript state "Name") with
  | Ok (PStr s) => Some s
  | _ => None
  end.

Definition is_name_tag (values : list pyval) (tag : pyval) : bool :=
  match subscript tag "Key", subscript tag "Value" with
  | Ok (PStr "Name"), Ok (PStr v) => existsb (is_str v) values
  | _, _ => false
  end.

Definition passes (instance filter : pyval) : bool :=
  match subscript filter "Name", subscript filter "Values" with
  | Ok (PStr "tag:Name"), Ok (PList values) =>
      match subscript instance "Tags" with
      | Ok (PList tags) => existsb (is_name_tag values) tags
      | _ => false
      end
  | Ok (PStr "instance-state-name"), Ok (PList values) =>
      match state_name instance with
      | Some s => existsb (is_str s) values
      | None => false
      end
  | _, _ => false
  end.

Definition honours (filters : list pyval) (instances : list pyval) : bool :=
  forallb (fun instance => forallb (passes instance) filters) instances.

(** ** Reading a report *)

Definition is_print (ev : event) : bool :=
  match ev with
  | EvPrint _ => true
  | _ => false
  end.

(** The run did nothing but print *)
Definition prints_only (t : list event) : bool := forallb is_print t.

(** The line [get_ec2_details] prints for an exception it caught *)
Definition error_line (e : exn) : event :=
  EvPrint ("Error retrieving EC2 details: " ++ str_exn e).

(** The fields of a record built by [get_volume_details], in order *)
Definition record_keys : list string :=
  ["Size"; "VolumeType"; "State"; "Encrypted"; "Iops"; "Throughput";
   "SnapshotId"; "AvailabilityZone"; "CreateTime"].

(** A volume of the response that [get_volume_details] can read *)
Definition well_formed_volume (volume : pyval) : Prop :=
  exists entry, volume_entry volume = Ok entry.

(** The key a readable volume is stored under *)
Definition volume_key (volume : pyval) : option string :=
  match volume_entry volume with
  | Ok (key, _) => Some key
  | Raise _ => None
  end.

Fixpoint has_char (c : ascii) (s : string) : bool :=
  match s with
  | EmptyString => false
  | String c' r => if Ascii.eqb c' c then true else has_char c r
  end.

(** A character between space and tilde *)
Definition printable (c : ascii) : bool :=
  (Nat.leb 32 (nat_of_ascii c) && Nat.leb (nat_of_ascii c) 126)%bool.

Fixpoint all_printable (s : string) : bool :=
  match s with
  | EmptyString => true
  | String c r => (printable c && all_printable r)%bool
  end.

(** The line of the closing summary of [main] for the [i]-th instance *)
Definition summary_line (repr : pyval -> string) (i : nat) (fields : pyval * pyval)
  : event :=
  EvPrint ("  Instance " ++ str_of_nat i ++ ": " ++ py_str repr (fst fields)
           ++ " (" ++ py_str repr (snd fields) ++ ")").

Fixpoint summary_lines (repr : pyval -> string) (i : nat) (fields : list (pyval * pyval))
  : list event :=
  match fields with
  | [] => []
  | f :: rest => summary_line repr i f :: summary_lines repr (S i) rest
  end.

(** [instance['InstanceId']] and [instance['State']['Name']] are [fields] *)
Definition has_summary_fields (instance : pyval) (fields : pyval * pyval) : Prop :=
  subscript instance "InstanceId" = Ok (fst fields) /\
  exists state, subscript instance "State" = Ok state /\
                subscript state "Name" = Ok (snd fields).

(** [x[k1]] and [x[k2]] are the two [fields] *)
Definition has_fields (k1 k2 : string) (x : pyval) (fields : pyval * pyval) : Prop :=
  subscript x k1 = Ok (fst fields) /\ subscript x k2 = Ok (snd fields).

(** The line of the report for a security group, given its name and id *)
Definition group_line (repr : pyval -> string) (fields : pyval * pyval) : event :=
  EvPrint ("  - " ++ py_str repr (fst fields) ++ " (" ++ py_str repr (snd fields) ++ ")").

(** The line of the report for a tag, given its key and value *)
Definition tag_line (repr : pyval -> string) (fields : pyval * pyval) : event :=
  EvPrint ("  " ++ py_str repr (fst fields) ++ ": " ++ py_str repr (snd fields)).

(** The lines of the six sections of one instance, one section after the
    other *)
Definition instance_block (repr : pyval -> string) (total i : nat) (instance : pyval)
  : list event :=
  (trace (format_basic repr total i instance)
     ++ trace (format_network repr instance)
     ++ trace (format_security_groups repr instance)
     ++ trace (format_tags repr instance)
     ++ trace (format_storage repr instance)
     ++ trace (format_placement repr instance))%list.

Fixpoint instance_blocks (repr : pyval -> string) (total i : nat) (instances : list pyval)
  : list event :=
  match instances with
  | [] => []
  | instance :: rest =>
      (instance_block repr total i instance ++ instance_blocks repr total (S i) rest)%list
  end.

(** What [main] does to one character of the name *)
Definition clean_char (c : ascii) : ascii :=
  if Ascii.eqb c "/" then "_"%char else if Ascii.eqb c "\" then "_"%char else c.

(** ** Sample records and services *)

Module Sample.

Definition ebs_mapping (device vid : string) : pyval :=
  PDict [("DeviceName", PStr device); ("Ebs", PDict [("VolumeId", PStr vid)])].

Definition ephemeral_mapping (device : string) : pyval :=
  PDict [("DeviceName", PStr device); ("VirtualName", PStr "ephemeral0")].

Definition launch : pyval := PDatetime "2024-01-01 12:00:00+00:00".

(** A record without the optional fields [Platform] and [Tags] *)
Definition bare (id : string) (bdms : list pyval) : dict :=
  [("InstanceId", PStr id); ("InstanceType", PStr "t3.micro");
   ("State", PDict [("Name", PStr "running")]);
   ("LaunchTime", launch); ("Architecture", PStr "x86_64");
   ("VpcId", PStr "vpc-1"); ("SubnetId", PStr "subnet-1");
   ("PrivateIpAddress", PStr "10.0.0.1");
   ("PrivateDnsName", PStr "ip-10-0-0-1.internal");
   ("SecurityGroups", PList [PDict [("GroupName", PStr "default"); ("GroupId", PStr "sg-1")]]);
   ("BlockDeviceMappings", PList bdms);
   ("Placement", PDict [("AvailabilityZone", PStr "ap-southeast-2a")])].

Definition untagged (id : string) (bdms : list pyval) : pyval := PDict (bare id bdms).

Definition instance (id : string) (bdms : list pyval) : pyval :=
  PDict (Dict.set (bare id bdms) "Tags"
           (PList [PDict [("Key", PStr "Name"); ("Value", PStr "web-01")]])).

(** A record whose [Tags] field is there and empty *)
Definition empty_tags (id : string) : pyval :=
  PDict (Dict.set (bare id []) "Tags" (PList [])).

Definition volume (vid : string) : pyval :=
  PDict [("VolumeId", PStr vid); ("Size", PInt 8); ("VolumeType", PStr "gp3");
         ("State", PStr "in-use"); ("Encrypted", PBool true); ("Iops", PInt 3000);
         ("AvailabilityZone", PStr "ap-southeast-2a");
         ("CreateTime", PDatetime "2024-01-01 11:00:00+00:00")].

(** Two instances in two reservations, both attached to [vol-A] *)
Definition shared_instances : list pyval :=
  [instance "i-1" [ebs_mapping "/dev/xvda" "vol-A"; ephemeral_mapping "/dev/sdb"];
   instance "i-2" [ebs_mapping "/dev/xvda" "vol-A"]].

Definition shared_response : pyval :=
  PDict [("Reservations",
          PList [PDict [("Instances", PList (firstn 1 shared_instances))];
                 PDict [("Instances", PList (skipn 1 shared_instances))]])].

Definition volumes_response : pyval := PDict [("Volumes", PList [volume "vol-A"])].

Definition world_of (client : ec2_client) : env :=
  {| boto3_client := fun _ => Ok client; open_w := fun _ => Ok tt |}.

Definition shared_client : ec2_client :=
  {| describe_instances := fun _ => Ok shared_response;
     describe_volumes := fun _ => Ok volumes_response |}.

(** The volume query fails as a whole *)
Definition no_volumes_client : ec2_client :=
  {| describe_instances := fun _ => Ok shared_response;
     describe_volumes := fun _ => Raise (RemoteError "Could not connect to the endpoint URL") |}.

(** One instance, one volume *)
Definition single_client : ec2_client :=
  {| describe_instances := fun _ =>
       Ok (PDict [("Reservations",
                   PList [PDict [("Instances", PList [instance "i-1" [ebs_mapping "/dev/xvda" "vol-A"]])]])]);
     describe_volumes := fun _ => Ok volumes_response |}.

(** Nothing carries the name *)
Definition empty_client : ec2_client :=
  {| describe_instances := fun _ => Ok (PDict [("Reservations", PList [])]);
     describe_volumes := fun _ => Ok (PDict [("Volumes", PList [])]) |}.

(** The instance query fails *)
Definition failing_client : ec2_client :=
  {| describe_instances := fun _ => Raise (RemoteError "Unable to locate credentials");
     describe_volumes := fun _ => Ok (PDict [("Volumes", PList [])]) |}.


(** No client can be built *)
Definition no_client_world : env :=
  {| boto3_client := fun _ => Raise (RemoteError "You must specify a region.");
     open_w := fun _ => Ok tt |}.

(** The answer to the volume query has a second volume without [Size] *)
Definition truncated_client : ec2_client :=
  {| describe_instances := fun _ => Ok shared_response;
     describe_volumes := fun _ =>
       Ok (PDict [("Volumes", PList [volume "vol-A";
                                     PDict [("VolumeId", PStr "vol-B")];
                                     volume "vol-C"])]) |}.

(** An instance with an instance-local attachment only *)
Definition local_only : pyval := instance "i-3" [ephemeral_mapping "/dev/sdb"].

Definition local_only_client : ec2_client :=
  {| describe_instances := fun _ =>
       Ok (PDict [("Reservations", PList [PDict [("Instances", PList [local_only])]])]);
     describe_volumes := fun _ => Ok volumes_response |}.

(** An instance whose [Ebs] entry has no [VolumeId] *)
Definition broken_attachment : pyval :=
  instance "i-4" [PDict [("DeviceName", PStr "/dev/xvda"); ("Ebs", PDict [])]].

Definition broken_attachment_client : ec2_client :=
  {| describe_instances := fun _ =>
       Ok (PDict [("Reservations",
                   PList [PDict [("Instances", PList [broken_attachment])]])]);
     describe_volumes := fun _ => Ok volumes_response |}.

(** The [output] directory does not exist *)
Definition no_directory_world : env :=
  {| boto3_client := fun _ => Ok single_client;
     open_w := fun path =>
       Raise (OSError ("No such file or directory: '" ++ path ++ "'")) |}.

Definition human_args : args :=
  {| server_name := "web-01"; region := None; output := None; human := true |}.

(** A Windows instance with a public address, an empty public DNS name
    and a key pair *)
Definition windows : pyval :=
  PDict (Dict.set (Dict.set (Dict.set (Dict.set
           (bare "i-5" [ebs_mapping "/dev/sda1" "vol-A"])
           "Platform" (PStr "windows"))
           "PublicIpAddress" (PStr "203.0.113.7"))
           "PublicDnsName" (PStr ""))
           "KeyName" (PStr "ops-key")).

(** An instance with two security groups *)
Definition two_groups : pyval :=
  PDict (Dict.set (bare "i-6" []) "SecurityGroups"
           (PList [PDict [("GroupName", PStr "web"); ("GroupId", PStr "sg-1")];
                   PDict [("GroupName", PStr "ssh"); ("GroupId", PStr "sg-2")]])).

(** An instance with two tags *)
Definition two_tags : pyval :=
  PDict (Dict.set (bare "i-7" []) "Tags"
           (PList [PDict [("Key", PStr "Name"); ("Value", PStr "web-01")];
                   PDict [("Key", PStr "env"); ("Value", PStr "prod")]])).

(** An instance that is shutting down: the service no longer reports its
    network fields *)
Definition shutting_down : pyval :=
  PDict [("InstanceId", PStr "i-8"); ("InstanceType", PStr "t3.micro");
         ("State", PDict [("Name", PStr "shutting-down")]);
         ("LaunchTime", launch); ("Architecture", PStr "x86_64");
         ("SecurityGroups", PList []);
         ("Tags", PList [PDict [("Key", PStr "Name"); ("Value", PStr "web-01")]]);
         ("BlockDeviceMappings", PList []);
         ("Placement", PDict [("AvailabilityZone", PStr "ap-southeast-2a")])].

Definition shutting_down_merged : pyval :=
  match shutting_down with
  | PDict d => PDict (Dict.set d "VolumeDetails" (PDict []))
  | other => other
  end.

Definition shutting_down_client : ec2_client :=
  {| describe_instances := fun _ =>
       Ok (PDict [("Reservations", PList [PDict [("Instances", PList [shutting_down])]])]);
     describe_volumes := fun _ => Ok volumes_response |}.

(** The mapping fetched for the sample volume, an instance attached to
    that volume, and the same instance after the merge *)
Definition volume_map : dict :=
  Eval vm_compute in fst (add_volumes [volume "vol-A"] []).

Definition volume_record : pyval :=
  Eval vm_compute in
    match Dict.get volume_map "vol-A" with Some r => r | None => PNone end.

Definition attached : pyval := instance "i-1" [ebs_mapping "/dev/xvda" "vol-A"].

Definition attached_merged : pyval :=
  Eval vm_compute in
    match add_volume_details volume_map attached with Ok x => x | Raise _ => PNone end.

(** A launch time whose text has a double quote and a tab in it *)
Definition odd_text : string := "2024" ++ dquote ++ String "009"%char "01".

Definition odd_launch : pyval := PDict [("LaunchTime", PDatetime odd_text)].

(** The two shared instances after the merge with the sample mapping *)
Definition merged_shared : list pyval :=
  Eval vm_compute in
    match merge (fst (add_volumes [volume "vol-A"] [])) shared_instances with
    | Ok out => out
    | Raise _ => []
    end.

Definition json_args : args :=
  {| server_name := "web-01"; region := None; output := None; human := false |}.

Definition no_repr : pyval -> string := fun _ => "".

End Sample.

(** * Properties *)

(** ** Dicts *)

Lemma get_set_eq (d : dict) (k : string) (v : pyval) :
  Dict.get (Dict.set d k v) k = Some v.
Proof.
  induction d as [|[k' v'] r IH]; simpl.
  - now rewrite String.eqb_refl.
  - destruct (String.eqb k k') eqn:E; simpl.
    + now rewrite String.eqb_refl.
    + now rewrite E.
Qed.

Lemma get_set_ne (d : dict) (k k' : string) (v : pyval) :
  k <> k' -> Dict.get (Dict.set d k v) k' = Dict.get d k'.
Proof.
  intros Hne.
  assert (Hkk : String.eqb k' k = false) by (apply String.eqb_neq; congruence).
  induction d as [|[k0 v0] r IH]; simpl.
  - now rewrite Hkk.
  - destruct (String.eqb k k0) eqn:E; simpl.
    + apply String.eqb_eq in E. subst k0. now rewrite Hkk.
    + now rewrite IH.
Qed.

Lemma set_set (d : dict) (k : string) (v v' : pyval) :
  Dict.set (Dict.set d k v) k v' = Dict.set d k v'.
Proof.
  induction d as [|[k0 v0] r IH]; simpl.
  - now rewrite String.eqb_refl.
  - destruct (String.eqb k k0) eqn:E; simpl.
    + now rewrite String.eqb_refl.
    + now rewrite E, IH.
Qed.

Lemma mem_get (d : dict) (k : string) :
  Dict.mem d k = match Dict.get d k with Some _ => true | None => false end.
Proof.
  induction d as [|[k0 v0] r IH]; simpl; auto.
  now destruct (String.eqb k k0).
Qed.

Lemma is_str_eq (k : string) (v : pyval) : is_str k v = true <-> v = PStr k.
Proof.
  destruct v; simpl; split; try discriminate.
  - intros H. apply String.eqb_eq in H. now subst.
  - intros H. injection H as ->. apply String.eqb_refl.
Qed.

(** ** Loops *)

(** What a successful loop establishes: an invariant on the local variable
    and the part of the list seen so far, kept by every successful round. *)
Lemma fold_res_invariant {A S} (body : S -> A -> res S)
      (Inv : list A -> S -> Prop) (l : list A) :
  forall (seen : list A) (s s' : S),
    Inv seen s ->
    (forall seen s x s', Inv seen s -> body s x = Ok s' -> Inv (seen ++ [x])%list s') ->
    fold_res l s body = Ok s' ->
    Inv (seen ++ l)%list s'.
Proof.
  induction l as [|x r IH]; intros seen s s' Hinv Hstep Hrun; simpl in Hrun.
  - injection Hrun as <-. now rewrite app_nil_r.
  - destruct (body s x) as [s1|e] eqn:E; simpl in Hrun; try discriminate.
    replace (seen ++ x :: r)%list with ((seen ++ [x]) ++ r)%list
      by (rewrite <- app_assoc; reflexivity).
    eapply IH; eauto.
Qed.

(** ** The merge *)

Lemma refers_true (vid : string) (bdm : pyval) :
  refers vid bdm = true <->
  contains "Ebs" bdm = Ok true /\ ebs_volume_id bdm = Ok (PStr vid).
Proof.
  unfold refers. split.
  - destruct (contains "Ebs" bdm) as [[|]|]; try discriminate.
    destruct (ebs_volume_id bdm) as [v|]; try discriminate.
    intros H. apply is_str_eq in H. now subst.
  - intros [-> ->]. simpl. apply String.eqb_refl.
Qed.

Lemma block_device_mappings_set (d : dict) (v : pyval) :
  block_device_mappings (PDict (Dict.set d "VolumeDetails" v))
  = block_device_mappings (PDict d).
Proof.
  unfold block_device_mappings, py_get.
  rewrite get_set_ne by discriminate. reflexivity.
Qed.

(** One round of the inner loop either adds the fetched record of the
    volume the mapping names, or leaves the record alone because the
    mapping is instance-local or its volume was not fetched. *)
Lemma attach_volume_step (vd d details : dict) (bdm x : pyval) :
  attach_volume vd (PDict (Dict.set d "VolumeDetails" (PDict details))) bdm = Ok x ->
  exists details',
    x = PDict (Dict.set d "VolumeDetails" (PDict details')) /\
    ((exists vid r, refers vid bdm = true /\ Dict.get vd vid = Some r
                    /\ details' = Dict.set details vid r)
     \/ (details' = details /\ forall vid, refers vid bdm = true -> Dict.get vd vid = None)).
Proof.
  unfold attach_volume. intros H.
  destruct (contains "Ebs" bdm) as [[|]|] eqn:Hc; simpl in H; try discriminate.
  - destruct (ebs_volume_id bdm) as [v|] eqn:Hv; simpl in H; try discriminate.
    destruct (key_in v vd) as [[|]|] eqn:Hk; simpl in H; try discriminate.
    + destruct v; simpl in Hk; try discriminate.
      simpl in H. rewrite mem_get in Hk.
      destruct (Dict.get vd s) as [r|] eqn:Hr; try discriminate.
      simpl in H. rewrite get_set_eq in H. simpl in H. rewrite set_set in H.
      injection H as <-. eexists. split; [reflexivity|]. left.
      exists s, r. repeat split; auto.
      apply refers_true. auto.
    + injection H as <-. exists details. split; [reflexivity|]. right.
      split; [reflexivity|]. intros vid Hvid.
      apply refers_true in Hvid. destruct Hvid as [_ Hvid].
      rewrite Hvid in Hv. injection Hv as <-. simpl in Hk.
      rewrite mem_get in Hk. destruct (Dict.get vd vid); congruence.
  - injection H as <-. exists details. split; [reflexivity|]. right.
    split; [reflexivity|]. intros vid Hvid.
    apply refers_true in Hvid. destruct Hvid as [Hvid _]. congruence.
Qed.

(** What the merge leaves in one record: the record itself with
    [VolumeDetails] set, an entry for every remote-backed mapping whose
    volume was fetched, and no other entry. *)
Lemma add_volume_details_spec (vd : dict) (instance instance' : pyval) :
  add_volume_details vd instance = Ok instance' ->
  exists d bdms details,
    instance = PDict d /\
    block_device_mappings instance = Ok bdms /\
    instance' = PDict (Dict.set d "VolumeDetails" (PDict details)) /\
    (forall k r, Dict.get details k = Some r ->
                 Dict.get vd k = Some r /\ exists bdm, In bdm bdms /\ refers k bdm = true) /\
    (forall bdm vid, In bdm bdms -> refers vid bdm = true ->
                     Dict.get details vid = Dict.get vd vid).
Proof.
  unfold add_volume_details. intros H.
  destruct instance as [| | | | | |d]; simpl in H; try discriminate.
  change (res_bind (block_device_mappings (PDict (Dict.set d "VolumeDetails" (PDict []))))
            (fun bdms => fold_res bdms (PDict (Dict.set d "VolumeDetails" (PDict [])))
                           (attach_volume vd)) = Ok instance') in H.
  rewrite block_device_mappings_set in H.
  destruct (block_device_mappings (PDict d)) as [bdms|] eqn:Hb; simpl in H; try discriminate.
  pose (Inv := fun (seen : list pyval) (x : pyval) =>
    exists details,
      x = PDict (Dict.set d "VolumeDetails" (PDict details)) /\
      (forall k r, Dict.get details k = Some r ->
                   Dict.get vd k = Some r /\ exists bdm, In bdm seen /\ refers k bdm = true) /\
      (forall bdm vid, In bdm seen -> refers vid bdm = true ->
                       Dict.get details vid = Dict.get vd vid)).
  assert (Hfinal : Inv ([] ++ bdms)%list instance').
  { eapply fold_res_invariant with (Inv := Inv); [| |exact H].
    - exists []. split; [reflexivity|]. split.
      + intros k r Hk. discriminate.
      + intros bdm vid [].
    - clear. intros seen s x s' (details & -> & Honly & Hall) Hstep.
      apply attach_volume_step in Hstep.
      destruct Hstep as (details' & -> & [(vid & r & Hvid & Hr & ->)|(-> & Hnone)]).
      + exists (Dict.set details vid r). split; [reflexivity|]. split.
        * intros k r' Hk.
          destruct (string_dec vid k) as [->|Hne].
          -- rewrite get_set_eq in Hk. injection Hk as <-. split; auto.
             exists x. split; auto. apply in_or_app. right. now left.
          -- rewrite get_set_ne in Hk by auto.
             destruct (Honly _ _ Hk) as (Hv & bdm & Hin & Href). split; auto.
             exists bdm. split; auto. apply in_or_app. now left.
        * intros bdm k Hin Href.
          destruct (string_dec vid k) as [->|Hne].
          -- rewrite get_set_eq. congruence.
          -- rewrite get_set_ne by auto.
             apply in_app_or in Hin.
             destruct Hin as [Hin|[<-|[]]]; [eapply Hall; eassumption|].
             apply refers_true in Hvid. apply refers_true in Href.
             destruct Hvid as [_ H1]. destruct Href as [_ H2]. congruence.
      + exists details. split; [reflexivity|]. split.
        * intros k r Hk. destruct (Honly _ _ Hk) as (Hv & bdm & Hin & Href).
          split; auto. exists bdm. split; auto. apply in_or_app. now left.
        * intros bdm k Hin Href.
          apply in_app_or in Hin.
          destruct Hin as [Hin|[<-|[]]]; [eapply Hall; eassumption|].
          rewrite (Hnone _ Href).
          destruct (Dict.get details k) as [r|] eqn:Hk; auto.
          destruct (Honly _ _ Hk) as (Hv & _). rewrite (Hnone _ Href) in Hv. discriminate. }
  destruct Hfinal as (details & -> & Honly & Hall).
  simpl in Honly, Hall.
  exists d, bdms, details.
  split; [reflexivity|]. split; [reflexivity|]. split; [reflexivity|]. split; assumption.
Qed.

Lemma merge_Forall2 (vd : dict) (instances out : list pyval) :
  merge vd instances = Ok out ->
  Forall2 (fun instance instance' => add_volume_details vd instance = Ok instance')
          instances out.
Proof.
  revert out. induction instances as [|x r IH]; intros out H; simpl in H.
  - injection H as <-. constructor.
  - destruct (add_volume_details vd x) as [x'|] eqn:Hx; simpl in H; try discriminate.
    destruct (merge vd r) as [r'|] eqn:Hr; simpl in H; try discriminate.
    injection H as <-. constructor; auto.
Qed.

(** ** Collecting the identifiers *)

Lemma collect_bdm_spec (acc ids : list pyval) (bdm : pyval) :
  collect_bdm acc bdm = Ok ids ->
  ids = (acc ++ ebs_ids [bdm])%list /\ readable bdm.
Proof.
  unfold collect_bdm, ebs_ids, readable. simpl. intros H.
  destruct (contains "Ebs" bdm) as [[|]|]; simpl in H; try discriminate.
  - destruct (ebs_volume_id bdm) as [v|]; simpl in H; try discriminate.
    injection H as <-. split; [reflexivity|]. right. eauto.
  - injection H as <-. rewrite app_nil_r. auto.
Qed.

Lemma ebs_ids_app (l1 l2 : list pyval) :
  ebs_ids (l1 ++ l2) = (ebs_ids l1 ++ ebs_ids l2)%list.
Proof. unfold ebs_ids. apply flat_map_app. Qed.

Lemma collect_bdms_spec (bdms acc ids : list pyval) :
  fold_res bdms acc collect_bdm = Ok ids ->
  ids = (acc ++ ebs_ids bdms)%list /\ Forall readable bdms.
Proof.
  intros H.
  pose (Inv := fun (seen : list pyval) (s : list pyval) =>
                 s = (acc ++ ebs_ids seen)%list /\ Forall readable seen).
  assert (Hfinal : Inv ([] ++ bdms)%list ids).
  { eapply fold_res_invariant with (Inv := Inv); [| |exact H].
    - split; [simpl; now rewrite app_nil_r | constructor].
    - clear. intros seen s x s' [-> Hall] Hstep.
      apply collect_bdm_spec in Hstep. destruct Hstep as [-> Hx]. split.
      + now rewrite ebs_ids_app, app_assoc.
      + apply Forall_app. split; auto. }
  exact Hfinal.
Qed.

Lemma instance_volume_ids_spec (acc ids : list pyval) (instance : pyval) :
  instance_volume_ids acc instance = Ok ids ->
  ids = (acc ++ instance_ebs_ids instance)%list /\
  exists bdms, block_device_mappings instance = Ok bdms /\ Forall readable bdms.
Proof.
  unfold instance_volume_ids, instance_ebs_ids. intros H.
  destruct (block_device_mappings instance) as [bdms|]; simpl in H; try discriminate.
  apply collect_bdms_spec in H. destruct H as [-> Hall]. eauto.
Qed.

Lemma collect_volume_ids_spec (instances ids : list pyval) :
  collect_volume_ids instances = Ok ids ->
  ids = flat_map instance_ebs_ids instances /\ Forall collectable instances.
Proof.
  unfold collect_volume_ids. intros H.
  pose (Inv := fun (seen : list pyval) (s : list pyval) =>
                 s = flat_map instance_ebs_ids seen /\ Forall collectable seen).
  assert (Hfinal : Inv ([] ++ instances)%list ids).
  { eapply fold_res_invariant with (Inv := Inv); [| |exact H].
    - split; [reflexivity | constructor].
    - clear. intros seen s x s' [-> Hall] Hstep.
      apply instance_volume_ids_spec in Hstep. destruct Hstep as [-> Hx]. split.
      + rewrite flat_map_app. simpl. now rewrite app_nil_r.
      + apply Forall_app. split; auto. }
  exact Hfinal.
Qed.

Lemma count_id_app (vid : string) (l1 l2 : list pyval) :
  count_id vid (l1 ++ l2) = count_id vid l1 + count_id vid l2.
Proof. unfold count_id. now rewrite filter_app, length_app. Qed.

Lemma count_ebs_ids (vid : string) (bdms : list pyval) :
  count_id vid (ebs_ids bdms) = List.length (filter (refers vid) bdms).
Proof.
  induction bdms as [|bdm r IH]; auto.
  change (bdm :: r) with ([bdm] ++ r)%list.
  rewrite ebs_ids_app, count_id_app, IH. unfold ebs_ids, refers, count_id. simpl.
  destruct (contains "Ebs" bdm) as [[|]|]; simpl; auto.
  destruct (ebs_volume_id bdm) as [v|]; simpl; auto.
  destruct (is_str vid v); reflexivity.
Qed.

Lemma count_instance_ebs_ids (vid : string) (instance : pyval) :
  count_id vid (instance_ebs_ids instance) = attachments_to vid instance.
Proof.
  unfold instance_ebs_ids, attachments_to.
  destruct (block_device_mappings instance); [apply count_ebs_ids | reflexivity].
Qed.

Lemma count_collected (vid : string) (instances : list pyval) :
  count_id vid (flat_map instance_ebs_ids instances) = total_attachments_to vid instances.
Proof.
  unfold total_attachments_to.
  induction instances as [|x r IH]; auto.
  simpl. now rewrite count_id_app, IH, count_instance_ebs_ids.
Qed.

Lemma in_ebs_ids (id : pyval) (bdms : list pyval) :
  In id (ebs_ids bdms) ->
  exists bdm, In bdm bdms /\ contains "Ebs" bdm = Ok true /\ ebs_volume_id bdm = Ok id.
Proof.
  unfold ebs_ids. rewrite in_flat_map. intros (bdm & Hin & Hid).
  exists bdm. split; auto.
  destruct (contains "Ebs" bdm) as [[|]|]; try contradiction.
  destruct (ebs_volume_id bdm) as [v|]; try contradiction.
  destruct Hid as [->|[]]. auto.
Qed.

(** ** Stepping through a computation *)

(** Unfolds the plumbing of [M] and nothing of the script's functions. *)
Ltac run :=
  cbv beta iota zeta delta [bind lift ret emit print try_except].
Ltac run_in H :=
  cbv beta iota zeta delta [bind lift ret emit print try_except] in H.

(** ** The volume query *)

(** [get_volume_details] never raises, and asks the service at most once. *)
Lemma get_volume_details_returns (ec2 : ec2_client) (ids : list pyval) :
  exists t vd,
    get_volume_details ec2 ids = (t, Ok vd) /\
    volume_fetches t = match ids with [] => [] | _ => [ids] end.
Proof.
  unfold get_volume_details. destruct ids as [|id ids]; [now exists [], []|].
  set (q := id :: ids).
  destruct (describe_volumes ec2 q) as [response|e]; simpl.
  - destruct (subscript response "Volumes") as [volumes|e]; simpl.
    + destruct (py_iter volumes) as [l|e]; simpl.
      * destruct (add_volumes l []) as [vd [e|]]; simpl; eauto.
      * eauto.
    + eauto.
  - eauto.
Qed.

Lemma get_volume_details_failed (ec2 : ec2_client) (ids : list pyval) (e : exn) :
  ids <> [] ->
  describe_volumes ec2 ids = Raise e ->
  get_volume_details ec2 ids = ([EvDescribeVolumes ids; volume_warning e], Ok []).
Proof.
  intros Hne He. unfold get_volume_details.
  destruct ids as [|id ids]; [contradiction|].
  rewrite He. reflexivity.
Qed.

(** ** The shape of a run of [get_ec2_details] *)

Lemma get_ec2_details_merged (w : env) (name : string) (region : option string)
      (ec2 : ec2_client) (response : pyval) (instances ids out : list pyval)
      (tv : list event) (vd : dict) :
  boto3_client w (effective_region region) = Ok ec2 ->
  describe_instances ec2 (query_filters name) = Ok response ->
  flatten_reservations response = Ok instances ->
  instances <> [] ->
  collect_volume_ids instances = Ok ids ->
  get_volume_details ec2 ids = (tv, Ok vd) ->
  merge vd instances = Ok out ->
  get_ec2_details w name region
  = ((EvDescribeInstances (query_filters name)
        :: found_banner name (List.length instances) ++ tv)%list,
     Ok (Some out)).
Proof.
  intros Hc Hd Hf Hne Hi Hv Hm. unfold get_ec2_details.
  rewrite Hc. run. rewrite Hd. run. rewrite Hf. run.
  destruct instances as [|x r]; [contradiction|]. run.
  unfold found_banner.
  destruct (Nat.ltb 1 (List.length (x :: r))); run;
    rewrite Hi; run; rewrite Hv; run; rewrite Hm; run;
    rewrite ?app_nil_r; reflexivity.
Qed.

(** A run that returns instances went through every step of the pipeline. *)
Lemma get_ec2_details_inv (w : env) (name : string) (region : option string)
      (t : list event) (out : list pyval) :
  get_ec2_details w name region = (t, Ok (Some out)) ->
  exists ec2 response instances ids tv vd,
    boto3_client w (effective_region region) = Ok ec2 /\
    describe_instances ec2 (query_filters name) = Ok response /\
    flatten_reservations response = Ok instances /\
    instances <> [] /\
    collect_volume_ids instances = Ok ids /\
    get_volume_details ec2 ids = (tv, Ok vd) /\
    merge vd instances = Ok out /\
    t = (EvDescribeInstances (query_filters name)
           :: found_banner name (List.length instances) ++ tv)%list.
Proof.
  intros H.
  destruct (boto3_client w (effective_region region)) as [ec2|e] eqn:Hc;
    [|unfold get_ec2_details in H; rewrite Hc in H; discriminate].
  destruct (describe_instances ec2 (query_filters name)) as [response|e] eqn:Hd;
    [|unfold get_ec2_details in H; rewrite Hc in H; run_in H; rewrite Hd in H;
      discriminate].
  destruct (flatten_reservations response) as [instances|e] eqn:Hf;
    [|unfold get_ec2_details in H; rewrite Hc in H; run_in H; rewrite Hd in H;
      run_in H; rewrite Hf in H; discriminate].
  destruct instances as [|x r] eqn:Hinst;
    [unfold get_ec2_details in H; rewrite Hc in H; run_in H; rewrite Hd in H;
     run_in H; rewrite Hf in H; discriminate|].
  assert (Hne : x :: r <> []) by discriminate.
  destruct (collect_volume_ids (x :: r)) as [ids|e] eqn:Hi.
  - destruct (get_volume_details_returns ec2 ids) as (tv & vd & Hv & _).
    destruct (merge vd (x :: r)) as [out'|e] eqn:Hm.
    + rewrite (get_ec2_details_merged _ _ _ _ _ _ _ _ _ _ Hc Hd Hf Hne Hi Hv Hm) in H.
      injection H as <- <-. exists ec2, response, (x :: r), ids, tv, vd. auto 10.
    + exfalso. unfold get_ec2_details in H.
      rewrite Hc in H. run_in H. rewrite Hd in H. run_in H. rewrite Hf in H. run_in H.
      destruct (Nat.ltb 1 (List.length (x :: r))); run_in H;
        rewrite Hi in H; run_in H; rewrite Hv in H; run_in H;
        rewrite Hm in H; discriminate.
  - exfalso. unfold get_ec2_details in H.
    rewrite Hc in H. run_in H. rewrite Hd in H. run_in H. rewrite Hf in H. run_in H.
    destruct (Nat.ltb 1 (List.length (x :: r))); run_in H;
      rewrite Hi in H; discriminate.
Qed.

(** ** Claims on the merge *)

Lemma subscript_set_ne (d : dict) (k k' : string) (v : pyval) :
  k <> k' -> subscript (PDict (Dict.set d k v)) k' = subscript (PDict d) k'.
Proof. intros H. unfold subscript. now rewrite get_set_ne. Qed.

Lemma collected_from_ebs (instances ids : list pyval) (id : pyval) :
  collect_volume_ids instances = Ok ids ->
  In id ids ->
  exists instance bdms bdm,
    In instance instances /\ block_device_mappings instance = Ok bdms /\
    In bdm bdms /\ contains "Ebs" bdm = Ok true /\ ebs_volume_id bdm = Ok id.
Proof.
  intros Hc Hin. apply collect_volume_ids_spec in Hc. destruct Hc as [-> _].
  apply in_flat_map in Hin. destruct Hin as (instance & Hi & Hid).
  unfold instance_ebs_ids in Hid.
  destruct (block_device_mappings instance) as [bdms|] eqn:Hb; [|contradiction].
  apply in_ebs_ids in Hid. destruct Hid as (bdm & Hbdm & Hc & Hv).
  exists instance, bdms, bdm. auto.
Qed.

(** C6: in every record the merge returns, a remote-backed attachment whose
    volume identifier is in the fetched mapping has that record under the
    identifier in [VolumeDetails], one whose identifier is not in the
    mapping has no entry, and [VolumeDetails] holds nothing else: every
    entry is the fetched record of a remote-backed attachment of the
    instance.  The attachments themselves, instance-local ones included,
    are handed on as they came, and only identifiers of remote-backed
    attachments are ever put into the volume query. *)
Theorem merge_attaches_resolved_volumes
        (volume_details : dict) (instances ids out : list pyval) :
  collect_volume_ids instances = Ok ids ->
  merge volume_details instances = Ok out ->
  (forall id, In id ids ->
     exists instance bdms bdm,
       In instance instances /\ block_device_mappings instance = Ok bdms /\
       In bdm bdms /\ contains "Ebs" bdm = Ok true /\ ebs_volume_id bdm = Ok id)
  /\
  Forall2
    (fun instance instance' =>
       exists bdms details,
         block_device_mappings instance = Ok bdms /\
         block_device_mappings instance' = Ok bdms /\
         (forall k, k <> "VolumeDetails" ->
                    subscript instance' k = subscript instance k) /\
         subscript instance' "VolumeDetails" = Ok (PDict details) /\
         (forall bdm vid, In bdm bdms -> refers vid bdm = true ->
                          Dict.get details vid = Dict.get volume_details vid) /\
         (forall vid record, Dict.get details vid = Some record ->
                             Dict.get volume_details vid = Some record /\
                             exists bdm, In bdm bdms /\ refers vid bdm = true))
    instances out.
Proof.
  intros Hc Hm. split.
  - intros id Hin. eapply collected_from_ebs; eauto.
  - apply merge_Forall2 in Hm.
    eapply Forall2_impl; [|exact Hm].
    intros instance instance' H.
    apply add_volume_details_spec in H.
    destruct H as (d & bdms & details & -> & Hb & -> & Honly & Hall).
    exists bdms, details.
    split; [exact Hb|].
    split; [now rewrite block_device_mappings_set|].
    split; [intros k Hk; apply subscript_set_ne; congruence|].
    split; [unfold subscript; now rewrite get_set_eq|].
    split; assumption.
Qed.

(** The theorem at the two sample instances that share [vol-A], one of
    them with an instance-local attachment as well. *)
Lemma merge_attaches_resolved_volumes_witness :
  exists vd ids out,
    add_volumes [Sample.volume "vol-A"] [] = (vd, None) /\
    collect_volume_ids Sample.shared_instances = Ok ids /\
    merge vd Sample.shared_instances = Ok out /\
    Forall2
      (fun instance instance' =>
         exists bdms details,
           block_device_mappings instance = Ok bdms /\
           block_device_mappings instance' = Ok bdms /\
           (forall k, k <> "VolumeDetails" ->
                      subscript instance' k = subscript instance k) /\
           subscript instance' "VolumeDetails" = Ok (PDict details) /\
           (forall bdm vid, In bdm bdms -> refers vid bdm = true ->
                            Dict.get details vid = Dict.get vd vid) /\
           (forall vid record, Dict.get details vid = Some record ->
                               Dict.get vd vid = Some record /\
                               exists bdm, In bdm bdms /\ refers vid bdm = true))
      Sample.shared_instances out.
Proof.
  eexists. eexists. eexists.
  split; [vm_compute; reflexivity|].
  split; [vm_compute; reflexivity|].
  split; [vm_compute; reflexivity|].
  eapply (merge_attaches_resolved_volumes _ Sample.shared_instances);
    vm_compute; reflexivity.
Defined.

(** ** Claims on flattening and order *)

Lemma add_reservations_concat (reservations : list pyval) (groups : list (list pyval)) :
  Forall2 (fun reservation group => subscript reservation "Instances" = Ok (PList group))
          reservations groups ->
  forall acc, fold_res reservations acc add_reservation = Ok (acc ++ List.concat groups)%list.
Proof.
  induction 1 as [|reservation group rs gs Hg _ IH]; intros acc; simpl.
  - now rewrite app_nil_r.
  - unfold add_reservation at 1. rewrite Hg. simpl.
    rewrite IH. now rewrite <- app_assoc.
Qed.

(** However the response groups the instances into reservations, the
    resolver's list is the groups laid end to end. *)
Lemma flatten_reservations_concat
      (response : pyval) (reservations : list pyval) (groups : list (list pyval)) :
  subscript response "Reservations" = Ok (PList reservations) ->
  Forall2 (fun reservation group => subscript reservation "Instances" = Ok (PList group))
          reservations groups ->
  flatten_reservations response = Ok (List.concat groups).
Proof.
  intros Hr Hg. unfold flatten_reservations. rewrite Hr. simpl.
  now rewrite (add_reservations_concat _ _ Hg).
Qed.

Lemma merge_keeps_order (vd : dict) (instances out : list pyval) :
  merge vd instances = Ok out ->
  Forall2 (fun instance instance' =>
             exists d details,
               instance = PDict d /\
               instance' = PDict (Dict.set d "VolumeDetails" (PDict details)))
          instances out.
Proof.
  intros Hm. apply merge_Forall2 in Hm.
  eapply Forall2_impl; [|exact Hm].
  intros instance instance' H. apply add_volume_details_spec in H.
  destruct H as (d & bdms & details & -> & _ & -> & _). eauto.
Qed.

Lemma output_data_instances (a : args) (instances : list pyval) (data : pyval) :
  output_data a instances = Ok data ->
  subscript data "instances" = Ok (PList instances) /\
  subscript data "instance_count" = Ok (PInt (Z.of_nat (List.length instances))).
Proof.
  unfold output_data. intros H.
  destruct instances as [|first rest]; simpl in H.
  - injection H as <-. split; reflexivity.
  - destruct (subscript first "LaunchTime"); simpl in H; try discriminate.
    injection H as <-. split; reflexivity.
Qed.

(** Once the first loop has read the attachments and the identifiers are
    [str], the merge goes through for any fetched mapping. *)
Lemma attach_volumes_ok (vd d : dict) (bdms : list pyval) :
  Forall readable bdms ->
  forallb is_string (ebs_ids bdms) = true ->
  forall details, exists details',
    fold_res bdms (PDict (Dict.set d "VolumeDetails" (PDict details))) (attach_volume vd)
    = Ok (PDict (Dict.set d "VolumeDetails" (PDict details'))).
Proof.
  induction 1 as [|bdm r Hbdm _ IH]; intros Hstr details; [now exists details|].
  change (bdm :: r) with ([bdm] ++ r)%list in Hstr.
  rewrite ebs_ids_app, forallb_app in Hstr.
  apply andb_true_iff in Hstr. destruct Hstr as [H1 H2].
  cbn [fold_res]. unfold attach_volume at 1. unfold ebs_ids in H1. simpl in H1.
  destruct Hbdm as [Hc|[Hc [v Hv]]]; rewrite Hc in *; simpl.
  - now apply IH.
  - rewrite Hv in *. simpl in *.
    destruct v; simpl in H1; try discriminate. simpl.
    rewrite mem_get. destruct (Dict.get vd s) as [record|]; simpl.
    + rewrite get_set_eq. simpl. rewrite set_set. now apply IH.
    + now apply IH.
Qed.

Lemma merge_ok (vd : dict) (instances : list pyval) :
  Forall collectable instances ->
  forallb is_string (flat_map instance_ebs_ids instances) = true ->
  exists out, merge vd instances = Ok out.
Proof.
  induction 1 as [|x r Hx _ IH]; intros Hstr; [now exists []|].
  simpl in Hstr. rewrite forallb_app in Hstr.
  apply andb_true_iff in Hstr. destruct Hstr as [H1 H2].
  destruct (IH H2) as (out & Hout).
  destruct Hx as (bdms & Hb & Hall).
  unfold instance_ebs_ids in H1. rewrite Hb in H1.
  destruct x as [| | | | | |d]; try discriminate.
  destruct (attach_volumes_ok vd d bdms Hall H1 []) as (details & Hd).
  exists (PDict (Dict.set d "VolumeDetails" (PDict details)) :: out).
  simpl merge. unfold add_volume_details. simpl set_item. cbn [res_bind].
  rewrite block_device_mappings_set, Hb. cbn [res_bind].
  rewrite Hd. cbn [res_bind]. rewrite Hout. reflexivity.
Qed.

(** ** Claims on the volume query *)

Lemma volume_fetches_app (t1 t2 : list event) :
  volume_fetches (t1 ++ t2) = (volume_fetches t1 ++ volume_fetches t2)%list.
Proof. unfold volume_fetches. apply flat_map_app. Qed.

Lemma volume_fetches_banner (name : string) (n : nat) :
  volume_fetches (found_banner name n) = [].
Proof. unfold found_banner. now destruct (Nat.ltb 1 n). Qed.

Lemma Forall2_nth_right {A B} (R : A -> B -> Prop) (l : list A) (l' : list B) :
  Forall2 R l l' ->
  forall i y, nth_error l' i = Some y -> exists x, nth_error l i = Some x /\ R x y.
Proof.
  induction 1 as [|x y l l' Hxy _ IH]; intros i z Hi.
  - destruct i; discriminate.
  - destruct i as [|i]; simpl in Hi.
    + injection Hi as <-. exists x. auto.
    + apply IH in Hi. exact Hi.
Qed.

Lemma attachments_to_merged (vd : dict) (vid : string) (instance instance' : pyval) :
  add_volume_details vd instance = Ok instance' ->
  attachments_to vid instance' = attachments_to vid instance.
Proof.
  intros H. apply add_volume_details_spec in H.
  destruct H as (d & bdms & details & -> & _ & -> & _).
  unfold attachments_to. now rewrite block_device_mappings_set.
Qed.

Lemma total_attachments_merged (vd : dict) (vid : string) (instances out : list pyval) :
  merge vd instances = Ok out ->
  total_attachments_to vid out = total_attachments_to vid instances.
Proof.
  intros H. apply merge_Forall2 in H. unfold total_attachments_to.
  induction H as [|x y l l' Hxy _ IH]; simpl; auto.
  now rewrite IH, (attachments_to_merged _ _ _ _ Hxy).
Qed.

Lemma sum_covers_one (f : pyval -> nat) (l : list pyval) (i : nat) (a : pyval) :
  nth_error l i = Some a -> f a <= list_sum (map f l).
Proof.
  revert i. induction l as [|x r IH]; intros i Hi.
  - destruct i; discriminate.
  - destruct i as [|i]; simpl in *.
    + injection Hi as <-. lia.
    + apply IH in Hi. lia.
Qed.

Lemma sum_covers_two (f : pyval -> nat) (l : list pyval) (i j : nat) (a b : pyval) :
  i < j -> nth_error l i = Some a -> nth_error l j = Some b ->
  f a + f b <= list_sum (map f l).
Proof.
  revert i j. induction l as [|x r IH]; intros i j Hij Hi Hj.
  - destruct i; discriminate.
  - destruct j as [|j]; [lia|]. destruct i as [|i]; simpl in *.
    + injection Hi as <-. apply (sum_covers_one f) in Hj. lia.
    + assert (Hlt : i < j) by lia. specialize (IH i j Hlt Hi Hj). lia.
Qed.

(** A merged record that has an attachment to [vid] holds for it just what
    the fetched mapping holds. *)
Lemma volume_detail_merged (vd : dict) (vid : string) (instance instance' : pyval) :
  add_volume_details vd instance = Ok instance' ->
  0 < attachments_to vid instance' ->
  volume_detail instance' vid = Dict.get vd vid.
Proof.
  intros H Hpos. rewrite (attachments_to_merged _ _ _ _ H) in Hpos.
  apply add_volume_details_spec in H.
  destruct H as (d & bdms & details & -> & Hb & -> & _ & Hall).
  unfold attachments_to in Hpos. rewrite Hb in Hpos.
  unfold volume_detail, subscript. rewrite get_set_eq.
  destruct (filter (refers vid) bdms) as [|bdm rest] eqn:Hf; [simpl in Hpos; lia|].
  assert (Hin : In bdm (filter (refers vid) bdms)) by (rewrite Hf; now left).
  apply filter_In in Hin. destruct Hin as [Hin Href].
  eapply Hall; eauto.
Qed.

(** C1, as the code has it: when two matched instances are attached to the
    same volume, the run makes exactly one volume query, and the list it
    sends names that volume once for every attachment to it (so at least
    twice: the list is not deduplicated).  Each of the two merged records
    holds under that identifier exactly what that one query's mapping holds
    for it: the same record in both when the volume was fetched, no entry
    in either when it was not. *)
Theorem shared_volume_in_one_query
        (w : env) (name : string) (region : option string)
        (t : list event) (out : list pyval)
        (vid : string) (i j : nat) (a b : pyval) :
  get_ec2_details w name region = (t, Ok (Some out)) ->
  i <> j ->
  nth_error out i = Some a ->
  nth_error out j = Some b ->
  0 < attachments_to vid a ->
  0 < attachments_to vid b ->
  exists ec2 ids tv volume_details,
    boto3_client w (effective_region region) = Ok ec2 /\
    get_volume_details ec2 ids = (tv, Ok volume_details) /\
    volume_fetches t = [ids] /\
    count_id vid ids = total_attachments_to vid out /\
    2 <= count_id vid ids /\
    volume_detail a vid = Dict.get volume_details vid /\
    volume_detail b vid = Dict.get volume_details vid /\
    volume_detail a vid = volume_detail b vid.
Proof.
  intros H Hij Ha Hb Hpa Hpb. apply get_ec2_details_inv in H.
  destruct H as (ec2 & response & instances & ids & tv & vd
                 & Hc & Hd & Hf & Hne & Hi & Hv & Hm & ->).
  assert (Hcount : count_id vid ids = total_attachments_to vid out).
  { apply collect_volume_ids_spec in Hi. destruct Hi as [-> _].
    now rewrite count_collected, (total_attachments_merged _ _ _ _ Hm). }
  assert (Htwo : 2 <= count_id vid ids).
  { rewrite Hcount. unfold total_attachments_to.
    destruct (Nat.lt_total i j) as [Hlt|[Heq|Hgt]]; [|contradiction|].
    - pose proof (sum_covers_two (attachments_to vid) out i j a b Hlt Ha Hb). lia.
    - pose proof (sum_covers_two (attachments_to vid) out j i b a Hgt Hb Ha). lia. }
  pose proof (merge_Forall2 _ _ _ Hm) as Hall.
  destruct (Forall2_nth_right _ _ _ Hall i a Ha) as (a0 & _ & Ha0).
  destruct (Forall2_nth_right _ _ _ Hall j b Hb) as (b0 & _ & Hb0).
  pose proof (volume_detail_merged _ _ _ _ Ha0 Hpa) as Hda.
  pose proof (volume_detail_merged _ _ _ _ Hb0 Hpb) as Hdb.
  exists ec2, ids, tv, vd.
  split; [exact Hc|]. split; [exact Hv|].
  split; [|split; [exact Hcount|split; [exact Htwo|]]].
  - destruct (get_volume_details_returns ec2 ids) as (tv' & vd' & Hv' & Hfetch).
    rewrite Hv in Hv'. injection Hv' as <- <-.
    change (volume_fetches ([EvDescribeInstances (query_filters name)]
                              ++ found_banner name (List.length instances) ++ tv) = [ids]).
    rewrite !volume_fetches_app, volume_fetches_banner, Hfetch. simpl.
    destruct ids; [unfold count_id in Htwo; simpl in Htwo; lia | reflexivity].
  - split; [exact Hda|]. split; [exact Hdb|]. now rewrite Hda, Hdb.
Qed.

(** The theorem at the two sample instances attached to [vol-A]: both
    merged records hold the fetched record of [vol-A], of size 8. *)
Lemma shared_volume_in_one_query_witness :
  exists t out a b,
    get_ec2_details (Sample.world_of Sample.shared_client) "web-01" None
    = (t, Ok (Some out)) /\
    nth_error out 0 = Some a /\ nth_error out 1 = Some b /\
    (exists ec2 ids tv volume_details,
        boto3_client (Sample.world_of Sample.shared_client) (effective_region None)
        = Ok ec2 /\
        get_volume_details ec2 ids = (tv, Ok volume_details) /\
        volume_fetches t = [ids] /\
        count_id "vol-A" ids = total_attachments_to "vol-A" out /\
        2 <= count_id "vol-A" ids /\
        volume_detail a "vol-A" = Dict.get volume_details "vol-A" /\
        volume_detail b "vol-A" = Dict.get volume_details "vol-A" /\
        volume_detail a "vol-A" = volume_detail b "vol-A") /\
    exists record,
      volume_detail a "vol-A" = Some record /\
      volume_detail b "vol-A" = Some record /\
      subscript record "Size" = Ok (PInt 8).
Proof.
  eexists. eexists. eexists. eexists.
  split; [vm_compute; reflexivity|].
  split; [reflexivity|]. split; [reflexivity|]. split.
  - eapply (shared_volume_in_one_query
              (Sample.world_of Sample.shared_client) "web-01" None _ _ "vol-A" 0 1).
    + vm_compute. reflexivity.
    + discriminate.
    + reflexivity.
    + reflexivity.
    + vm_compute. lia.
    + vm_compute. lia.
  - eexists. split; [vm_compute; reflexivity|].
    split; [vm_compute; reflexivity|]. reflexivity.
Defined.

(** C1 as stated fails: the sample run, whose two instances are both
    attached to [vol-A], sends one query whose list names [vol-A] twice. *)
Lemma shared_volume_listed_twice :
  let run := get_ec2_details (Sample.world_of Sample.shared_client) "web-01" None in
  exists out,
    outcome run = Ok (Some out) /\
    map (attachments_to "vol-A") out = [1; 1] /\
    volume_fetches (trace run) = [[PStr "vol-A"; PStr "vol-A"]] /\
    count_id "vol-A" [PStr "vol-A"; PStr "vol-A"] <> 1.
Proof.
  eexists. split; [vm_compute; reflexivity|].
  split; [vm_compute; reflexivity|].
  split; [vm_compute; reflexivity|].
  vm_compute. discriminate.
Qed.

(** ** Claims on a failed volume query *)

Lemma attach_nothing (x : pyval) (bdms : list pyval) :
  Forall readable bdms ->
  forallb is_string (ebs_ids bdms) = true ->
  fold_res bdms x (attach_volume []) = Ok x.
Proof.
  induction 1 as [|bdm r Hbdm _ IH]; intros Hstr; auto.
  change (bdm :: r) with ([bdm] ++ r)%list in Hstr.
  rewrite ebs_ids_app, forallb_app in Hstr.
  apply andb_true_iff in Hstr. destruct Hstr as [H1 H2].
  simpl. unfold attach_volume at 1. unfold ebs_ids in H1. simpl in H1.
  destruct Hbdm as [Hc|[Hc [v Hv]]]; rewrite Hc in *; simpl.
  - now apply IH.
  - rewrite Hv in *. simpl in *.
    destruct v; simpl in H1; try discriminate. simpl. now apply IH.
Qed.

Lemma add_no_details (instance : pyval) :
  collectable instance ->
  forallb is_string (instance_ebs_ids instance) = true ->
  exists d, instance = PDict d /\
            add_volume_details [] instance
            = Ok (PDict (Dict.set d "VolumeDetails" (PDict []))).
Proof.
  intros (bdms & Hb & Hall) Hstr.
  unfold instance_ebs_ids in Hstr. rewrite Hb in Hstr.
  destruct instance as [| | | | | |d]; try discriminate.
  exists d. split; [reflexivity|].
  unfold add_volume_details. simpl.
  change (res_bind (block_device_mappings (PDict (Dict.set d "VolumeDetails" (PDict []))))
            (fun bdms => fold_res bdms (PDict (Dict.set d "VolumeDetails" (PDict [])))
                           (attach_volume []))
          = Ok (PDict (Dict.set d "VolumeDetails" (PDict [])))).
  rewrite block_device_mappings_set, Hb. simpl.
  now apply attach_nothing.
Qed.

Lemma merge_no_details (instances : list pyval) :
  Forall collectable instances ->
  forallb is_string (flat_map instance_ebs_ids instances) = true ->
  exists out,
    merge [] instances = Ok out /\
    Forall2 (fun instance instance' =>
               exists d, instance = PDict d /\
                         instance' = PDict (Dict.set d "VolumeDetails" (PDict [])))
            instances out.
Proof.
  induction 1 as [|x r Hx _ IH]; intros Hstr.
  - exists []. split; [reflexivity | constructor].
  - simpl in Hstr. rewrite forallb_app in Hstr.
    apply andb_true_iff in Hstr. destruct Hstr as [H1 H2].
    destruct (add_no_details x Hx H1) as (d & -> & Hadd).
    destruct (IH H2) as (out & Hm & Hall).
    exists (PDict (Dict.set d "VolumeDetails" (PDict [])) :: out). split.
    + simpl merge. rewrite Hadd. simpl. rewrite Hm. reflexivity.
    + constructor; eauto.
Qed.

(** C3: when the batched volume query fails as a whole,
    [get_volume_details] prints a warning and returns an empty mapping
    instead of raising; the run goes on, and [get_ec2_details] returns one
    record for each matched instance, in order, each with an empty
    [VolumeDetails], and no exception.  The identifiers are [str], as
    botocore delivers them. *)
Theorem failed_volume_query_is_absorbed
        (w : env) (name : string) (region : option string) (ec2 : ec2_client)
        (response : pyval) (instances ids : list pyval) (e : exn) :
  boto3_client w (effective_region region) = Ok ec2 ->
  describe_instances ec2 (query_filters name) = Ok response ->
  flatten_reservations response = Ok instances ->
  collect_volume_ids instances = Ok ids ->
  ids <> [] ->
  forallb is_string ids = true ->
  describe_volumes ec2 ids = Raise e ->
  get_volume_details ec2 ids = ([EvDescribeVolumes ids; volume_warning e], Ok []) /\
  exists out,
    get_ec2_details w name region
    = ((EvDescribeInstances (query_filters name)
          :: found_banner name (List.length instances)
          ++ [EvDescribeVolumes ids; volume_warning e])%list,
       Ok (Some out)) /\
    List.length out = List.length instances /\
    Forall2 (fun instance instance' =>
               exists d, instance = PDict d /\
                         instance' = PDict (Dict.set d "VolumeDetails" (PDict [])))
            instances out.
Proof.
  intros Hc Hd Hf Hi Hne Hstr He.
  pose proof (get_volume_details_failed ec2 ids e Hne He) as Hv.
  split; [exact Hv|].
  pose proof (collect_volume_ids_spec _ _ Hi) as [Hids Hall].
  rewrite Hids in Hstr.
  destruct (merge_no_details instances Hall Hstr) as (out & Hm & Hout).
  assert (Hinst : instances <> []).
  { intros ->. apply Hne. now rewrite Hids. }
  exists out. split; [|split].
  - exact (get_ec2_details_merged _ _ _ _ _ _ _ _ _ _ Hc Hd Hf Hinst Hi Hv Hm).
  - symmetry. eapply Forall2_length; eauto.
  - exact Hout.
Qed.

(** The theorem at the sample service whose volume query cannot connect. *)
Lemma failed_volume_query_is_absorbed_witness :
  exists ids out,
    collect_volume_ids Sample.shared_instances = Ok ids /\
    get_volume_details Sample.no_volumes_client ids
    = ([EvDescribeVolumes ids;
        volume_warning (RemoteError "Could not connect to the endpoint URL")], Ok []) /\
    get_ec2_details (Sample.world_of Sample.no_volumes_client) "web-01" None
    = ((EvDescribeInstances (query_filters "web-01")
          :: found_banner "web-01" (List.length Sample.shared_instances)
          ++ [EvDescribeVolumes ids;
              volume_warning (RemoteError "Could not connect to the endpoint URL")])%list,
       Ok (Some out)) /\
    List.length out = List.length Sample.shared_instances /\
    Forall2 (fun instance instance' =>
               exists d, instance = PDict d /\
                         instance' = PDict (Dict.set d "VolumeDetails" (PDict [])))
            Sample.shared_instances out.
Proof.
  assert (H := failed_volume_query_is_absorbed
                 (Sample.world_of Sample.no_volumes_client) "web-01" None
                 Sample.no_volumes_client Sample.shared_response
                 Sample.shared_instances [PStr "vol-A"; PStr "vol-A"]
                 (RemoteError "Could not connect to the endpoint URL")
                 eq_refl eq_refl eq_refl eq_refl
                 (fun H => match H with eq_refl => I end) eq_refl eq_refl).
  destruct H as [Hv (out & Hrun & Hlen & Hall)].
  exists [PStr "vol-A"; PStr "vol-A"], out.
  split; [reflexivity|]. split; [exact Hv|]. split; [exact Hrun|].
  split; [exact Hlen | exact Hall].
Defined.

(** ** Claims on runs that find nothing or fail *)

Lemma main_unfold (repr : pyval -> string) (w : env) (a : args) :
  main repr w a
  = ((main_banner a
        ++ trace (found <- get_ec2_details w (server_name a) (region a) ;;
                  report repr w a found))%list,
     outcome (found <- get_ec2_details w (server_name a) (region a) ;;
              report repr w a found)).
Proof.
  unfold main, main_banner.
  destruct (found <- get_ec2_details w (server_name a) (region a) ;;
            report repr w a found) as [t r].
  destruct (region a) as [[|c s]|]; reflexivity.
Qed.

Lemma get_ec2_details_not_found
      (w : env) (name : string) (region : option string)
      (ec2 : ec2_client) (response : pyval) :
  boto3_client w (effective_region region) = Ok ec2 ->
  describe_instances ec2 (query_filters name) = Ok response ->
  flatten_reservations response = Ok [] ->
  get_ec2_details w name region
  = ([EvDescribeInstances (query_filters name);
      EvPrint ("No EC2 instances found with name: " ++ name)], Ok None).
Proof.
  intros Hc Hd Hf. unfold get_ec2_details.
  rewrite Hc. run. rewrite Hd. run. rewrite Hf. reflexivity.
Qed.

Lemma get_ec2_details_failed
      (w : env) (name : string) (region : option string)
      (ec2 : ec2_client) (e : exn) :
  boto3_client w (effective_region region) = Ok ec2 ->
  describe_instances ec2 (query_filters name) = Raise e ->
  get_ec2_details w name region
  = ([EvDescribeInstances (query_filters name);
      EvPrint ("Error retrieving EC2 details: " ++ str_exn e)], Ok None).
Proof.
  intros Hc Hd. unfold get_ec2_details.
  rewrite Hc. run. rewrite Hd. reflexivity.
Qed.

Lemma artifacts_app (t1 t2 : list event) :
  artifacts (t1 ++ t2) = (artifacts t1 ++ artifacts t2)%list.
Proof. unfold artifacts. apply flat_map_app. Qed.

Lemma artifacts_main_banner (a : args) : artifacts (main_banner a) = [].
Proof. reflexivity. Qed.

(** C4: when the resolve step matches no instance, [get_ec2_details] says
    so in one line and returns no list, and [main] returns at once without
    raising: after its two opening lines the run consists of the instance
    query and the not-found line, so there is no volume query, no merge
    output, no report and no file written. *)
Theorem no_match_short_circuits
        (repr : pyval -> string) (w : env) (a : args)
        (ec2 : ec2_client) (response : pyval) :
  boto3_client w (effective_region (region a)) = Ok ec2 ->
  describe_instances ec2 (query_filters (server_name a)) = Ok response ->
  flatten_reservations response = Ok [] ->
  get_ec2_details w (server_name a) (region a)
  = ([EvDescribeInstances (query_filters (server_name a));
      EvPrint ("No EC2 instances found with name: " ++ server_name a)], Ok None) /\
  main repr w a
  = ((main_banner a
        ++ [EvDescribeInstances (query_filters (server_name a));
            EvPrint ("No EC2 instances found with name: " ++ server_name a)])%list,
     Ok tt) /\
  volume_fetches (trace (main repr w a)) = [] /\
  artifacts (trace (main repr w a)) = [].
Proof.
  intros Hc Hd Hf.
  pose proof (get_ec2_details_not_found _ _ _ _ _ Hc Hd Hf) as Hrun.
  assert (Hmain : main repr w a
                  = ((main_banner a
                        ++ [EvDescribeInstances (query_filters (server_name a));
                            EvPrint ("No EC2 instances found with name: "
                                       ++ server_name a)])%list, Ok tt)).
  { rewrite main_unfold, Hrun. reflexivity. }
  split; [exact Hrun|]. split; [exact Hmain|].
  rewrite Hmain. split; reflexivity.
Qed.

(** The theorem at the sample service that knows no such name. *)
Lemma no_match_short_circuits_witness :
  main Sample.no_repr (Sample.world_of Sample.empty_client) Sample.json_args
  = ((main_banner Sample.json_args
        ++ [EvDescribeInstances (query_filters "web-01");
            EvPrint "No EC2 instances found with name: web-01"])%list,
     Ok tt).
Proof.
  apply (no_match_short_circuits Sample.no_repr (Sample.world_of Sample.empty_client)
           Sample.json_args Sample.empty_client (PDict [("Reservations", PList [])]));
    reflexivity.
Defined.

(** C5, as the code has it.  A failure of the instance query itself is
    caught inside [get_ec2_details], which reports it in one line and
    returns no instance list; [main] then returns at once and without
    raising.  A failure to build the client, which happens in
    [get_ec2_details] before the [try], is not caught: it leaves
    [get_ec2_details] and [main] as an exception, after the two opening
    lines of [main].  Either way the run makes no volume query and writes
    no file. *)
Theorem resolve_failure_is_reported_and_ends_run
        (repr : pyval -> string) (w : env) (a : args) :
  (forall ec2 e,
      boto3_client w (effective_region (region a)) = Ok ec2 ->
      describe_instances ec2 (query_filters (server_name a)) = Raise e ->
      get_ec2_details w (server_name a) (region a)
      = ([EvDescribeInstances (query_filters (server_name a));
          EvPrint ("Error retrieving EC2 details: " ++ str_exn e)], Ok None) /\
      main repr w a
      = ((main_banner a
            ++ [EvDescribeInstances (query_filters (server_name a));
                EvPrint ("Error retrieving EC2 details: " ++ str_exn e)])%list,
         Ok tt) /\
      volume_fetches (trace (main repr w a)) = [] /\
      artifacts (trace (main repr w a)) = []) /\
  (forall e,
      boto3_client w (effective_region (region a)) = Raise e ->
      get_ec2_details w (server_name a) (region a) = ([], Raise e) /\
      main repr w a = (main_banner a, Raise e) /\
      instance_queries (trace (main repr w a)) = [] /\
      volume_fetches (trace (main repr w a)) = [] /\
      artifacts (trace (main repr w a)) = []).
Proof.
  split.
  - intros ec2 e Hc Hd.
    pose proof (get_ec2_details_failed _ _ _ _ _ Hc Hd) as Hrun.
    assert (Hmain : main repr w a
                    = ((main_banner a
                          ++ [EvDescribeInstances (query_filters (server_name a));
                              EvPrint ("Error retrieving EC2 details: "
                                         ++ str_exn e)])%list,
                       Ok tt)).
    { rewrite main_unfold, Hrun. reflexivity. }
    split; [exact Hrun|]. split; [exact Hmain|].
    rewrite Hmain. split; reflexivity.
  - intros e Hc.
    assert (Hrun : get_ec2_details w (server_name a) (region a) = ([], Raise e)).
    { unfold get_ec2_details. rewrite Hc. reflexivity. }
    assert (Hmain : main repr w a = (main_banner a, Raise e)).
    { rewrite main_unfold, Hrun. unfold trace, outcome, bind. cbn [fst snd].
      now rewrite app_nil_r. }
    split; [exact Hrun|]. split; [exact Hmain|].
    rewrite Hmain. repeat split; reflexivity.
Qed.

(** The theorem at the sample service that finds no credentials, and at
    the sample environment that cannot build a client. *)
Lemma resolve_failure_is_reported_and_ends_run_witness :
  main Sample.no_repr (Sample.world_of Sample.failing_client) Sample.json_args
  = ((main_banner Sample.json_args
        ++ [EvDescribeInstances (query_filters "web-01");
            EvPrint "Error retrieving EC2 details: Unable to locate credentials"])%list,
     Ok tt) /\
  main Sample.no_repr Sample.no_client_world Sample.json_args
  = (main_banner Sample.json_args, Raise (RemoteError "You must specify a region.")).
Proof.
  split.
  - apply (proj1 (resolve_failure_is_reported_and_ends_run
                    Sample.no_repr (Sample.world_of Sample.failing_client)
                    Sample.json_args)
             Sample.failing_client (RemoteError "Unable to locate credentials"));
      reflexivity.
  - apply (proj2 (resolve_failure_is_reported_and_ends_run
                    Sample.no_repr Sample.no_client_world Sample.json_args)
             (RemoteError "You must specify a region.")).
    reflexivity.
Defined.

(** C5 as stated fails: with the instance query raising, nothing reaches
    the top of the run as an error; [main] returns as it does when nothing
    is found. *)
Lemma resolve_failure_does_not_propagate :
  let run := main Sample.no_repr (Sample.world_of Sample.failing_client) Sample.json_args in
  describe_instances Sample.failing_client (query_filters "web-01")
  = Raise (RemoteError "Unable to locate credentials") /\
  outcome run = Ok tt /\
  forall e, outcome run <> Raise e.
Proof.
  split; [reflexivity|]. split; [reflexivity|]. intros e H. discriminate H.
Qed.

(** ** Claims on the structured output *)

Lemma get_volume_details_writes_nothing (ec2 : ec2_client) (ids : list pyval) :
  artifacts (trace (get_volume_details ec2 ids)) = [].
Proof.
  unfold get_volume_details. destruct ids as [|id ids]; [reflexivity|].
  set (q := id :: ids).
  destruct (describe_volumes ec2 q) as [response|e]; simpl; [|reflexivity].
  destruct (subscript response "Volumes") as [volumes|e]; simpl; [|reflexivity].
  destruct (py_iter volumes) as [l|e]; simpl; [|reflexivity].
  destruct (add_volumes l []) as [vd [e|]]; reflexivity.
Qed.

Lemma get_ec2_details_writes_nothing
      (w : env) (name : string) (region : option string)
      (t : list event) (out : list pyval) :
  get_ec2_details w name region = (t, Ok (Some out)) ->
  artifacts t = [].
Proof.
  intros H. apply get_ec2_details_inv in H.
  destruct H as (ec2 & response & instances & ids & tv & vd
                 & _ & _ & _ & _ & _ & Hv & _ & ->).
  change (artifacts ([EvDescribeInstances (query_filters name)]
                       ++ found_banner name (List.length instances) ++ tv) = []).
  rewrite !artifacts_app.
  pose proof (get_volume_details_writes_nothing ec2 ids) as Hw.
  rewrite Hv in Hw. simpl in Hw. rewrite Hw.
  unfold found_banner. now destruct (Nat.ltb 1 (List.length instances)).
Qed.

Lemma summary_writes_nothing (repr : pyval -> string) (instances : list pyval) :
  forall i, artifacts (trace (summary_from repr i instances)) = [].
Proof.
  induction instances as [|x r IH]; intros i; [reflexivity|].
  simpl. run.
  destruct (subscript x "InstanceId") as [id|]; [|reflexivity].
  destruct (subscript x "State") as [st|]; [|reflexivity].
  destruct (subscript st "Name") as [nm|]; [|reflexivity].
  specialize (IH (S i)).
  destruct (summary_from repr (S i) r) as [ts rs]. exact IH.
Qed.

(** C2, as the code has it: for a non-empty list of matched instances the
    object written in structured mode has [instance_count] equal to their
    number and [instances] equal to the enriched list (for a single
    instance: 1 and a one-element list); its [timestamp] is the JSON text
    of the first instance's launch time, which for a datetime is its
    [str()] text enclosed in double quotes.  This object is the one thing
    the run writes. *)
Theorem structured_output_fields
        (repr : pyval -> string) (w : env) (a : args) (t : list event)
        (first : pyval) (rest : list pyval) (launch_time : pyval) :
  get_ec2_details w (server_name a) (region a) = (t, Ok (Some (first :: rest))) ->
  subscript first "LaunchTime" = Ok launch_time ->
  human a = false ->
  open_w w (output_path a) = Ok tt ->
  output_data a (first :: rest)
  = Ok (PDict [("search_query", PStr (server_name a));
               ("region", PStr (effective_region (region a)));
               ("timestamp", PStr (Json.dumps launch_time));
               ("instance_count", PInt (Z.of_nat (List.length (first :: rest))));
               ("instances", PList (first :: rest))]) /\
  (forall text, launch_time = PDatetime text ->
                Json.dumps launch_time = dquote ++ Json.escape text ++ dquote) /\
  (rest = [] -> Z.of_nat (List.length (first :: rest)) = 1%Z) /\
  artifacts (trace (main repr w a))
  = [(output_path a,
      PDict [("search_query", PStr (server_name a));
             ("region", PStr (effective_region (region a)));
             ("timestamp", PStr (Json.dumps launch_time));
             ("instance_count", PInt (Z.of_nat (List.length (first :: rest))));
             ("instances", PList (first :: rest))])].
Proof.
  intros Hrun Hlaunch Hhuman Hopen.
  assert (Hdata : output_data a (first :: rest)
                  = Ok (PDict [("search_query", PStr (server_name a));
                               ("region", PStr (effective_region (region a)));
                               ("timestamp", PStr (Json.dumps launch_time));
                               ("instance_count",
                                PInt (Z.of_nat (List.length (first :: rest))));
                               ("instances", PList (first :: rest))])).
  { unfold output_data. rewrite Hlaunch. reflexivity. }
  split; [exact Hdata|]. split; [|split].
  - intros text ->. reflexivity.
  - intros ->. reflexivity.
  - rewrite main_unfold. unfold trace at 1. cbn [fst].
    rewrite artifacts_app, artifacts_main_banner. cbn [app].
    rewrite Hrun. unfold report. rewrite Hhuman. run.
    rewrite Hdata. run. rewrite Hopen. run.
    pose proof (summary_writes_nothing repr (first :: rest) 1) as Hs.
    destruct (summary_from repr 1 (first :: rest)) as [ts rs].
    unfold trace in *. cbn [fst] in *.
    rewrite artifacts_app, (get_ec2_details_writes_nothing _ _ _ _ _ Hrun).
    cbn [app]. unfold artifacts at 1. cbn [flat_map app].
    fold (artifacts ts). rewrite Hs. reflexivity.
Qed.

(** The theorem at the sample service with a single instance. *)
Lemma structured_output_fields_witness :
  exists t first launch_time,
    get_ec2_details (Sample.world_of Sample.single_client) "web-01" None
    = (t, Ok (Some [first])) /\
    subscript first "LaunchTime" = Ok launch_time /\
    artifacts (trace (main Sample.no_repr (Sample.world_of Sample.single_client)
                           Sample.json_args))
    = [("output/web-01_details.json",
        PDict [("search_query", PStr "web-01");
               ("region", PStr "ap-southeast-2");
               ("timestamp", PStr (Json.dumps launch_time));
               ("instance_count", PInt 1);
               ("instances", PList [first])])].
Proof.
  eexists. eexists. eexists.
  split; [vm_compute; reflexivity|].
  split; [vm_compute; reflexivity|].
  refine (proj2 (proj2 (proj2
           (structured_output_fields
              Sample.no_repr (Sample.world_of Sample.single_client) Sample.json_args
              _ _ [] _ _ _ _ _)))).
  - vm_compute. reflexivity.
  - vm_compute. reflexivity.
  - reflexivity.
  - reflexivity.
Defined.

(** C2 as stated fails: for the single sample instance the [timestamp] of
    the output object is a string that starts and ends with a double quote;
    it is neither the launch time nor the text of the launch time. *)
Lemma timestamp_is_quoted_text :
  let first := Sample.instance "i-1" [] in
  exists data timestamp,
    output_data Sample.json_args [first] = Ok data /\
    subscript data "instance_count" = Ok (PInt 1) /\
    subscript first "LaunchTime" = Ok (PDatetime "2024-01-01 12:00:00+00:00") /\
    subscript data "timestamp" = Ok timestamp /\
    timestamp = PStr (dquote ++ "2024-01-01 12:00:00+00:00" ++ dquote) /\
    timestamp <> PDatetime "2024-01-01 12:00:00+00:00" /\
    timestamp <> PStr "2024-01-01 12:00:00+00:00".
Proof.
  eexists. eexists.
  split; [vm_compute; reflexivity|].
  split; [reflexivity|]. split; [reflexivity|]. split; [reflexivity|].
  split; [reflexivity|]. split; discriminate.
Qed.

(** ** Claims on the query *)

(** Whatever the run meets, it asks for instances once, with the filters
    of [query_filters]. *)
Lemma get_ec2_details_queries
      (w : env) (name : string) (region : option string) (ec2 : ec2_client) :
  boto3_client w (effective_region region) = Ok ec2 ->
  instance_queries (trace (get_ec2_details w name region)) = [query_filters name].
Proof.
  intros Hc. unfold get_ec2_details. rewrite Hc. run.
  destruct (describe_instances ec2 (query_filters name)) as [response|e];
    [|reflexivity]. run.
  destruct (flatten_reservations response) as [instances|e]; [|reflexivity]. run.
  destruct instances as [|x r]; [reflexivity|]. run.
  remember (x :: r) as instances eqn:Hinst. clear Hinst.
  assert (Hv : forall ids, exists tv vd,
               get_volume_details ec2 ids = (tv, Ok vd) /\ instance_queries tv = []).
  { intros ids. unfold get_volume_details. destruct ids as [|id ids]; [now exists [], []|].
    remember (id :: ids) as q eqn:Hq. clear Hq. run.
    destruct (describe_volumes ec2 q) as [response'|e]; cbn [res_bind]; [|eauto].
    destruct (subscript response' "Volumes") as [volumes|e]; cbn [res_bind]; [|eauto].
    destruct (py_iter volumes) as [l|e]; [|eauto].
    destruct (add_volumes l []) as [vd [e|]]; eauto. }
  destruct (Nat.ltb 1 (List.length instances)); run;
    (destruct (collect_volume_ids instances) as [ids|e]; [|reflexivity]);
    destruct (Hv ids) as (tv & vd & -> & Hq); run;
    (destruct (merge vd instances) as [out|e]);
    unfold trace; cbn [fst]; unfold instance_queries in *;
    cbn [flat_map app]; rewrite ?app_nil_r, ?flat_map_app, ?Hq; reflexivity.
Qed.

Lemma state_name_merged (d : dict) (v : pyval) :
  state_name (PDict (Dict.set d "VolumeDetails" v)) = state_name (PDict d).
Proof. unfold state_name. now rewrite subscript_set_ne by discriminate. Qed.

Lemma passes_merged (d : dict) (v filter : pyval) :
  passes (PDict (Dict.set d "VolumeDetails" v)) filter = passes (PDict d) filter.
Proof.
  unfold passes. rewrite state_name_merged.
  now rewrite (subscript_set_ne d "VolumeDetails" "Tags" v) by discriminate.
Qed.

Lemma passes_all_merged (d : dict) (v : pyval) (filters : list pyval) :
  forallb (passes (PDict (Dict.set d "VolumeDetails" v))) filters
  = forallb (passes (PDict d)) filters.
Proof.
  induction filters as [|f fs IH]; [reflexivity|].
  cbn [forallb]. now rewrite passes_merged, IH.
Qed.

Lemma in_live_states (s : string) :
  existsb (is_str s) (map PStr live_states) = true ->
  In s live_states /\ s <> "terminated".
Proof.
  intros H. apply existsb_exists in H. destruct H as (v & Hin & Hv).
  apply is_str_eq in Hv. subst v. apply in_map_iff in Hin.
  destruct Hin as (s' & Heq & Hin). injection Heq as ->. split; [exact Hin|].
  intros ->. simpl in Hin. intuition discriminate.
Qed.

(** C8: every run asks the service for instances once, with two filters:
    the tag [Name] equal to the given name, and the state name one of
    running, stopped, stopping, pending, shutting-down.  When the service
    answers within its filters, every record the run returns still passes
    them; its state is one of the five and is not [terminated]. *)
Theorem query_excludes_terminated
        (w : env) (name : string) (region : option string) (ec2 : ec2_client)
        (response : pyval) (instances out : list pyval) :
  boto3_client w (effective_region region) = Ok ec2 ->
  describe_instances ec2 (query_filters name) = Ok response ->
  flatten_reservations response = Ok instances ->
  honours (query_filters name) instances = true ->
  outcome (get_ec2_details w name region) = Ok (Some out) ->
  instance_queries (trace (get_ec2_details w name region))
  = [[PDict [("Name", PStr "tag:Name"); ("Values", PList [PStr name])];
      PDict [("Name", PStr "instance-state-name");
             ("Values", PList [PStr "running"; PStr "stopped"; PStr "stopping";
                               PStr "pending"; PStr "shutting-down"])]]] /\
  Forall (fun instance' =>
            forallb (passes instance') (query_filters name) = true /\
            exists s, state_name instance' = Some s /\
                      In s live_states /\ s <> "terminated")
         out.
Proof.
  intros Hc Hd Hf Hh Hout. split.
  - exact (get_ec2_details_queries w name region ec2 Hc).
  - destruct (get_ec2_details w name region) as [t r] eqn:Hrun.
    unfold outcome in Hout. cbn [snd] in Hout. subst r.
    apply get_ec2_details_inv in Hrun.
    destruct Hrun as (ec2' & response' & instances' & ids & tv & vd
                      & Hc' & Hd' & Hf' & _ & _ & _ & Hm & _).
    rewrite Hc in Hc'. injection Hc' as <-.
    rewrite Hd in Hd'. injection Hd' as <-.
    rewrite Hf in Hf'. injection Hf' as <-.
    apply merge_keeps_order in Hm.
    unfold honours in Hh. rewrite forallb_forall in Hh.
    clear Hf. revert Hh.
    induction Hm as [|x y l l' Hxy _ IH]; intros Hh; constructor.
    + destruct Hxy as (d & details & -> & ->).
      assert (Hx : forallb (passes (PDict d)) (query_filters name) = true)
        by (apply Hh; now left).
      split.
      * rewrite passes_all_merged. exact Hx.
      * rewrite state_name_merged.
        unfold query_filters in Hx. cbn [forallb] in Hx.
        apply andb_true_iff in Hx. destruct Hx as [_ Hx].
        apply andb_true_iff in Hx. destruct Hx as [Hx _].
        unfold passes in Hx. simpl subscript in Hx. cbv iota in Hx.
        destruct (state_name (PDict d)) as [s|]; [|discriminate].
        exists s. split; [reflexivity|]. now apply in_live_states.
    + apply IH. intros z Hz. apply Hh. now right.
Qed.

(** The theorem at the sample service, whose two instances are running and
    carry the name. *)
Lemma query_excludes_terminated_witness :
  exists out,
    outcome (get_ec2_details (Sample.world_of Sample.shared_client) "web-01" None)
    = Ok (Some out) /\
    Forall (fun instance' =>
              forallb (passes instance') (query_filters "web-01") = true /\
              exists s, state_name instance' = Some s /\
                        In s live_states /\ s <> "terminated")
           out.
Proof.
  eexists. split; [vm_compute; reflexivity|].
  refine (proj2 (query_excludes_terminated
                   (Sample.world_of Sample.shared_client) "web-01" None
                   Sample.shared_client Sample.shared_response Sample.shared_instances
                   _ _ _ _ _ _)).
  - reflexivity.
  - reflexivity.
  - reflexivity.
  - vm_compute. reflexivity.
  - vm_compute. reflexivity.
Defined.

(** ** Claims on the textual report *)

Lemma bind_ok {A B} (m : M A) (f : A -> M B) (b : B) :
  outcome (bind m f) = Ok b ->
  exists a, outcome m = Ok a /\ outcome (f a) = Ok b /\
            trace (bind m f) = (trace m ++ trace (f a))%list.
Proof.
  destruct m as [t [a|e]]; unfold bind, outcome, trace; simpl.
  - destruct (f a) as [t' r] eqn:Hf. simpl. intros ->. exists a.
    rewrite Hf. auto.
  - discriminate.
Qed.

Lemma trace_bind_ok {A B} (m : M A) (f : A -> M B) (a : A) :
  outcome m = Ok a -> trace (bind m f) = (trace m ++ trace (f a))%list.
Proof.
  destruct m as [t r]. unfold outcome, trace, bind. simpl. intros ->.
  now destruct (f a).
Qed.

(** In a report that completes, the lines of the [i]-th instance follow
    the lines of the instances before it. *)
Lemma format_from_nth (repr : pyval -> string) (total : nat) (instances : list pyval) :
  forall (i0 i : nat) (instance : pyval),
    nth_error instances i = Some instance ->
    outcome (format_from repr total i0 instances) = Ok tt ->
    outcome (format_instance repr total (i0 + i) instance) = Ok tt /\
    exists post,
      trace (format_from repr total i0 instances)
      = (trace (format_from repr total i0 (firstn i instances))
           ++ trace (format_instance repr total (i0 + i) instance) ++ post)%list.
Proof.
  induction instances as [|x r IH]; intros i0 i instance Hi Hok.
  - destruct i; discriminate.
  - cbn [format_from] in Hok. apply bind_ok in Hok.
    destruct Hok as ([] & Hx & Hr & Ht).
    destruct i as [|i]; cbn [nth_error] in Hi.
    + injection Hi as <-. rewrite Nat.add_0_r. split; [exact Hx|].
      exists (trace (format_from repr total (S i0) r)).
      cbn [format_from firstn]. rewrite Ht. reflexivity.
    + destruct (IH (S i0) i instance Hi Hr) as (Hinst & post & Hpost).
      rewrite Nat.add_succ_r. split; [exact Hinst|].
      exists post. cbn [format_from firstn].
      rewrite Ht, (trace_bind_ok _ _ tt Hx), Hpost.
      now rewrite <- app_assoc.
Qed.

(** The sections of one instance, when its block completes *)
Lemma format_instance_sections (repr : pyval -> string) (total i : nat) (instance : pyval) :
  outcome (format_instance repr total i instance) = Ok tt ->
  outcome (format_basic repr total i instance) = Ok tt /\
  exists post,
    trace (format_instance repr total i instance)
    = (trace (format_basic repr total i instance)
         ++ trace (format_network repr instance)
         ++ trace (format_security_groups repr instance)
         ++ trace (format_tags repr instance) ++ post)%list.
Proof.
  unfold format_instance. intros H.
  apply bind_ok in H. destruct H as ([] & Hb & H & ->). split; [exact Hb|].
  apply bind_ok in H. destruct H as ([] & Hn & H & ->).
  apply bind_ok in H. destruct H as ([] & Hs & H & ->).
  apply bind_ok in H. destruct H as ([] & Ht & H & ->).
  eexists. reflexivity.
Qed.

Lemma format_tags_absent (repr : pyval -> string) (instance : pyval) :
  contains "Tags" instance = Ok false ->
  format_tags repr instance
  = ([EvPrint (nl ++ "Tags:"); EvPrint "  No tags found"], Ok tt).
Proof. intros H. unfold format_tags. run. rewrite H. reflexivity. Qed.

Lemma py_get_absent (instance : pyval) (k0 k : string) (x default : pyval) :
  subscript instance k0 = Ok x ->
  contains k instance = Ok false ->
  py_get instance k default = Ok default.
Proof.
  intros Hx Hk. destruct instance as [| | | | | |d]; try discriminate Hx.
  simpl in Hk. injection Hk as Hk. rewrite mem_get in Hk.
  unfold py_get. destruct (Dict.get d k); [discriminate|reflexivity].
Qed.

Lemma format_basic_default_platform
      (repr : pyval -> string) (total i : nat) (instance : pyval) :
  outcome (format_basic repr total i instance) = Ok tt ->
  contains "Platform" instance = Ok false ->
  exists instance_id instance_type state name launch_time architecture,
    subscript instance "InstanceId" = Ok instance_id /\
    subscript instance "InstanceType" = Ok instance_type /\
    subscript instance "State" = Ok state /\
    subscript state "Name" = Ok name /\
    subscript instance "LaunchTime" = Ok launch_time /\
    subscript instance "Architecture" = Ok architecture /\
    trace (format_basic repr total i instance)
    = (instance_header total i
         ++ [EvPrint ("Instance ID: " ++ py_str repr instance_id);
             EvPrint ("Instance Type: " ++ py_str repr instance_type);
             EvPrint ("State: " ++ py_str repr name);
             EvPrint ("Launch Time: " ++ py_str repr launch_time);
             EvPrint ("Architecture: " ++ py_str repr architecture);
             EvPrint "Platform: Linux/Unix"])%list.
Proof.
  intros Hok Hp.
  unfold format_basic, instance_header, outcome, trace in *.
  destruct (Nat.ltb 1 total); run_in Hok; run;
    (destruct (subscript instance "InstanceId") as [id|] eqn:E1;
       [|discriminate Hok]);
    (destruct (subscript instance "InstanceType") as [ty|] eqn:E2;
       [|discriminate Hok]);
    (destruct (subscript instance "State") as [st|] eqn:E3;
       [|discriminate Hok]);
    (destruct (subscript st "Name") as [nm|] eqn:E4;
       [|discriminate Hok]);
    (destruct (subscript instance "LaunchTime") as [lt|] eqn:E5;
       [|discriminate Hok]);
    (destruct (subscript instance "Architecture") as [arch|] eqn:E6;
       [|discriminate Hok]);
    rewrite (py_get_absent instance "InstanceId" "Platform" id _ E1 Hp);
    exists id, ty, st, nm, lt, arch;
    repeat (split; [reflexivity || assumption|]); reflexivity.
Qed.

(** C10: in a report that completes, an instance without a [Platform]
    field gets its platform line all the same, with the value
    [Linux/Unix]: after the lines of the instances before it and its own
    header, the report has its five lines of basic information followed by
    [Platform: Linux/Unix]. *)
Theorem platform_defaults_to_linux
        (repr : pyval -> string) (instances : list pyval) (i : nat) (instance : pyval) :
  nth_error instances i = Some instance ->
  contains "Platform" instance = Ok false ->
  outcome (format_ec2_details repr instances) = Ok tt ->
  exists instance_id instance_type state name launch_time architecture post,
    subscript instance "InstanceId" = Ok instance_id /\
    subscript instance "InstanceType" = Ok instance_type /\
    subscript instance "State" = Ok state /\
    subscript state "Name" = Ok name /\
    subscript instance "LaunchTime" = Ok launch_time /\
    subscript instance "Architecture" = Ok architecture /\
    trace (format_ec2_details repr instances)
    = (trace (format_from repr (List.length instances) 1 (firstn i instances))
         ++ instance_header (List.length instances) (S i)
         ++ [EvPrint ("Instance ID: " ++ py_str repr instance_id);
             EvPrint ("Instance Type: " ++ py_str repr instance_type);
             EvPrint ("State: " ++ py_str repr name);
             EvPrint ("Launch Time: " ++ py_str repr launch_time);
             EvPrint ("Architecture: " ++ py_str repr architecture);
             EvPrint "Platform: Linux/Unix"]
         ++ post)%list.
Proof.
  intros Hi Hp Hok. unfold format_ec2_details in *.
  destruct (format_from_nth repr (List.length instances) instances 1 i instance Hi Hok)
    as (Hinst & post & Hpost).
  change (1 + i) with (S i) in *.
  destruct (format_instance_sections repr _ _ _ Hinst) as (Hbasic & post' & Hsec).
  destruct (format_basic_default_platform repr _ _ _ Hbasic Hp)
    as (id & ty & st & nm & lt & arch & E1 & E2 & E3 & E4 & E5 & E6 & Ht).
  exists id, ty, st, nm, lt, arch.
  eexists. repeat (split; [eassumption|]).
  rewrite Hpost, Hsec, Ht. rewrite <- !app_assoc. reflexivity.
Qed.

(** The theorem at a sample record that has no [Platform] field. *)
Lemma platform_defaults_to_linux_witness :
  exists post,
    trace (format_ec2_details Sample.no_repr [Sample.instance "i-1" []])
    = ([EvPrint "Instance ID: i-1";
        EvPrint "Instance Type: t3.micro";
        EvPrint "State: running";
        EvPrint "Launch Time: 2024-01-01 12:00:00+00:00";
        EvPrint "Architecture: x86_64";
        EvPrint "Platform: Linux/Unix"] ++ post)%list.
Proof.
  destruct (platform_defaults_to_linux Sample.no_repr [Sample.instance "i-1" []] 0
              (Sample.instance "i-1" []) eq_refl eq_refl eq_refl)
    as (id & ty & st & nm & lt & arch & post & E1 & E2 & E3 & E4 & E5 & E6 & Ht).
  exists post. rewrite Ht.
  vm_compute in E1, E2, E3, E5, E6.
  injection E1 as <-. injection E2 as <-. injection E3 as <-.
  injection E5 as <-. injection E6 as <-.
  vm_compute in E4. injection E4 as <-. reflexivity.
Defined.

(** C9, as the code has it: in a report that completes, an instance whose
    record has no [Tags] field gets the line [No tags found] right under
    the heading of its tags section. *)
Theorem missing_tags_field_is_reported
        (repr : pyval -> string) (instances : list pyval) (i : nat) (instance : pyval) :
  nth_error instances i = Some instance ->
  contains "Tags" instance = Ok false ->
  outcome (format_ec2_details repr instances) = Ok tt ->
  exists post,
    trace (format_ec2_details repr instances)
    = (trace (format_from repr (List.length instances) 1 (firstn i instances))
         ++ trace (format_basic repr (List.length instances) (S i) instance)
         ++ trace (format_network repr instance)
         ++ trace (format_security_groups repr instance)
         ++ [EvPrint (nl ++ "Tags:"); EvPrint "  No tags found"]
         ++ post)%list.
Proof.
  intros Hi Hp Hok. unfold format_ec2_details in *.
  destruct (format_from_nth repr (List.length instances) instances 1 i instance Hi Hok)
    as (Hinst & post & Hpost).
  change (1 + i) with (S i) in *.
  destruct (format_instance_sections repr _ _ _ Hinst) as (_ & post' & Hsec).
  rewrite (format_tags_absent repr instance Hp) in Hsec.
  exists (post' ++ post)%list.
  rewrite Hpost, Hsec. unfold trace at 6. cbn [fst].
  rewrite <- !app_assoc. reflexivity.
Qed.

(** The theorem at a sample record that has no [Tags] field. *)
Lemma missing_tags_field_is_reported_witness :
  exists post,
    trace (format_ec2_details Sample.no_repr [Sample.untagged "i-1" []])
    = (trace (format_from Sample.no_repr 1 1 [])
         ++ trace (format_basic Sample.no_repr 1 1 (Sample.untagged "i-1" []))
         ++ trace (format_network Sample.no_repr (Sample.untagged "i-1" []))
         ++ trace (format_security_groups Sample.no_repr (Sample.untagged "i-1" []))
         ++ [EvPrint (nl ++ "Tags:"); EvPrint "  No tags found"]
         ++ post)%list.
Proof.
  apply (missing_tags_field_is_reported
           Sample.no_repr [Sample.untagged "i-1" []] 0 (Sample.untagged "i-1" []));
    reflexivity.
Defined.

(** C9 as stated fails: a record whose [Tags] field is there and empty has
    an empty tag set, and its report completes without the line
    [No tags found]; the heading of the tags section is followed at once by
    the heading of the storage section. *)
Lemma empty_tags_field_gets_no_line :
  let instance := Sample.empty_tags "i-1" in
  let run := format_ec2_details Sample.no_repr [instance] in
  subscript instance "Tags" = Ok (PList []) /\
  outcome run = Ok tt /\
  has_line "  No tags found" (trace run) = false /\
  exists before after,
    printed (trace run)
    = (before ++ [(nl ++ "Tags:")%string; (nl ++ "Storage:")%string] ++ after)%list.
Proof.
  split; [reflexivity|]. split; [vm_compute; reflexivity|].
  split; [vm_compute; reflexivity|].
  exists (firstn 13 (printed (trace (format_ec2_details Sample.no_repr
                                       [Sample.empty_tags "i-1"])))),
         (skipn 15 (printed (trace (format_ec2_details Sample.no_repr
                                      [Sample.empty_tags "i-1"])))).
  vm_compute. reflexivity.
Qed.

(** ** Order through flattening, merge and assembly *)

Lemma format_instance_trace (repr : pyval -> string) (total i : nat) (instance : pyval) :
  outcome (format_instance repr total i instance) = Ok tt ->
  trace (format_instance repr total i instance) = instance_block repr total i instance.
Proof.
  unfold format_instance, instance_block. intros H.
  apply bind_ok in H. destruct H as ([] & _ & H & ->).
  apply bind_ok in H. destruct H as ([] & _ & H & ->).
  apply bind_ok in H. destruct H as ([] & _ & H & ->).
  apply bind_ok in H. destruct H as ([] & _ & H & ->).
  apply bind_ok in H. destruct H as ([] & _ & H & ->).
  reflexivity.
Qed.

Lemma format_from_trace (repr : pyval -> string) (total : nat) (instances : list pyval) :
  forall i,
    outcome (format_from repr total i instances) = Ok tt ->
    trace (format_from repr total i instances) = instance_blocks repr total i instances.
Proof.
  induction instances as [|x r IH]; intros i H; [reflexivity|].
  cbn [format_from instance_blocks] in *.
  apply bind_ok in H. destruct H as ([] & Hx & Hr & ->).
  now rewrite (format_instance_trace _ _ _ _ Hx), (IH _ Hr).
Qed.

Lemma output_data_assembles
      (a : args) (first : pyval) (rest : list pyval) (launch_time : pyval) :
  subscript first "LaunchTime" = Ok launch_time ->
  exists data,
    output_data a (first :: rest) = Ok data /\
    subscript data "instances" = Ok (PList (first :: rest)) /\
    subscript data "instance_count"
    = Ok (PInt (Z.of_nat (List.length (first :: rest)))).
Proof.
  intros H. unfold output_data. rewrite H. cbn [res_bind].
  eexists. split; [reflexivity|]. split; reflexivity.
Qed.

(** C7: the resolve step presents one flat list whatever the grouping of
    the response: for a response whose reservations hold the groups
    [groups], the list is [concat groups].  The run then returns a list in
    the same order: its i-th record is the i-th instance of the flat list
    with [VolumeDetails] set.  Assembly keeps that order: when the first
    instance has a launch time, the output object is assembled and carries
    exactly that list under [instances], with its length as the count; and
    a textual report that completes consists of the instances' blocks in
    the order of the list.  The attachments are readable and the
    identifiers are [str], as botocore delivers them. *)
Theorem order_preserved_through_pipeline
        (w : env) (name : string) (region : option string) (a : args)
        (ec2 : ec2_client) (response : pyval)
        (reservations : list pyval) (groups : list (list pyval)) (ids : list pyval) :
  boto3_client w (effective_region region) = Ok ec2 ->
  describe_instances ec2 (query_filters name) = Ok response ->
  subscript response "Reservations" = Ok (PList reservations) ->
  Forall2 (fun reservation group => subscript reservation "Instances" = Ok (PList group))
          reservations groups ->
  List.concat groups <> [] ->
  collect_volume_ids (List.concat groups) = Ok ids ->
  forallb is_string ids = true ->
  flatten_reservations response = Ok (List.concat groups) /\
  exists out,
    outcome (get_ec2_details w name region) = Ok (Some out) /\
    Forall2 (fun instance instance' =>
               exists d details,
                 instance = PDict d /\
                 instance' = PDict (Dict.set d "VolumeDetails" (PDict details)))
            (List.concat groups) out /\
    (forall data, output_data a out = Ok data ->
                  subscript data "instances" = Ok (PList out)) /\
    (forall first rest launch_time,
        List.concat groups = first :: rest ->
        subscript first "LaunchTime" = Ok launch_time ->
        exists data,
          output_data a out = Ok data /\
          subscript data "instances" = Ok (PList out) /\
          subscript data "instance_count"
          = Ok (PInt (Z.of_nat (List.length (List.concat groups))))) /\
    (forall repr,
        outcome (format_ec2_details repr out) = Ok tt ->
        trace (format_ec2_details repr out)
        = instance_blocks repr (List.length out) 1 out).
Proof.
  intros Hc Hd Hr Hg Hne Hi Hstr.
  pose proof (flatten_reservations_concat _ _ _ Hr Hg) as Hf.
  split; [exact Hf|].
  pose proof (collect_volume_ids_spec _ _ Hi) as [Hids Hall].
  rewrite Hids in Hstr.
  destruct (get_volume_details_returns ec2 ids) as (tv & vd & Hv & _).
  destruct (merge_ok vd _ Hall Hstr) as (out & Hm).
  pose proof (merge_keeps_order _ _ _ Hm) as Hord.
  exists out. split; [|split; [exact Hord|split; [|split]]].
  - now rewrite (get_ec2_details_merged _ _ _ _ _ _ _ _ _ _ Hc Hd Hf Hne Hi Hv Hm).
  - intros data Hdata. now apply output_data_instances in Hdata.
  - intros first rest launch_time Hfirst Hlaunch.
    rewrite Hfirst in Hord. inversion Hord as [|x y l l' Hxy Hrest]; subst.
    destruct Hxy as (d & details & -> & ->).
    rewrite <- (subscript_set_ne d "VolumeDetails" "LaunchTime" (PDict details))
      in Hlaunch by discriminate.
    destruct (output_data_assembles a _ l' _ Hlaunch) as (data & Hdata & Hinst & Hcount).
    exists data. split; [exact Hdata|]. split; [exact Hinst|].
    rewrite Hcount, Hfirst. cbn [List.length].
    now rewrite (Forall2_length Hrest).
  - intros repr Hok. unfold format_ec2_details in *.
    now apply format_from_trace.
Qed.

(** The theorem at the sample run, two reservations of one instance each:
    the output object is assembled and the textual report completes, both
    in the order of the flat list. *)
Lemma order_preserved_through_pipeline_witness :
  flatten_reservations Sample.shared_response = Ok Sample.shared_instances /\
  exists out,
    outcome (get_ec2_details (Sample.world_of Sample.shared_client) "web-01" None)
    = Ok (Some out) /\
    Forall2 (fun instance instance' =>
               exists d details,
                 instance = PDict d /\
                 instance' = PDict (Dict.set d "VolumeDetails" (PDict details)))
            Sample.shared_instances out /\
    (exists data,
        output_data Sample.json_args out = Ok data /\
        subscript data "instances" = Ok (PList out) /\
        subscript data "instance_count" = Ok (PInt 2)) /\
    outcome (format_ec2_details Sample.no_repr out) = Ok tt /\
    trace (format_ec2_details Sample.no_repr out)
    = instance_blocks Sample.no_repr 2 1 out.
Proof.
  pose proof (order_preserved_through_pipeline
                (Sample.world_of Sample.shared_client) "web-01" None Sample.json_args
                Sample.shared_client Sample.shared_response
                [PDict [("Instances", PList (firstn 1 Sample.shared_instances))];
                 PDict [("Instances", PList (skipn 1 Sample.shared_instances))]]
                [firstn 1 Sample.shared_instances; skipn 1 Sample.shared_instances]
                [PStr "vol-A"; PStr "vol-A"]
                eq_refl eq_refl eq_refl) as H.
  specialize (H ltac:(repeat constructor)).
  specialize (H ltac:(discriminate)).
  specialize (H eq_refl eq_refl).
  destruct H as (Hflat & out & Hrun & Hord & _ & Hjson & Htext).
  split; [exact Hflat|]. exists out.
  split; [exact Hrun|]. split; [exact Hord|].
  assert (Hout : Some out = Some Sample.merged_shared).
  { assert (E : outcome (get_ec2_details (Sample.world_of Sample.shared_client)
                                         "web-01" None)
                = Ok (Some Sample.merged_shared)) by (vm_compute; reflexivity).
    rewrite Hrun in E. congruence. }
  injection Hout as Hout.
  assert (Hok : outcome (format_ec2_details Sample.no_repr out) = Ok tt)
    by (rewrite Hout; vm_compute; reflexivity).
  split; [|split; [exact Hok|]].
  - destruct (Hjson _ _ Sample.launch eq_refl eq_refl) as (data & H1 & H2 & H3).
    exists data. split; [exact H1|]. split; [exact H2|exact H3].
  - rewrite (Htext Sample.no_repr Hok). now rewrite Hout.
Defined.

(** * Further properties *)

(** ** Runs that only print *)

Lemma prints_only_app (t1 t2 : list event) :
  prints_only (t1 ++ t2) = (prints_only t1 && prints_only t2)%bool.
Proof. unfold prints_only. apply forallb_app. Qed.

Lemma prints_only_bind {A B} (m : M A) (f : A -> M B) :
  prints_only (trace m) = true ->
  (forall a, prints_only (trace (f a)) = true) ->
  prints_only (trace (bind m f)) = true.
Proof.
  destruct m as [t [a|e]]; unfold bind, trace; simpl; intros Hm Hf; [|exact Hm].
  specialize (Hf a). destruct (f a) as [t' r]. simpl in *.
  rewrite prints_only_app, Hm, Hf. reflexivity.
Qed.

Lemma prints_only_for_each {A} (l : list A) (body : A -> M unit) :
  (forall x, prints_only (trace (body x)) = true) ->
  prints_only (trace (for_each l body)) = true.
Proof.
  intros Hb. induction l as [|x r IH]; [reflexivity|].
  cbn [for_each]. apply prints_only_bind; auto.
Qed.

Ltac prints :=
  repeat first
    [ reflexivity
    | apply prints_only_for_each; intros
    | apply prints_only_bind; [|intros]
    | match goal with
      | |- context [if ?b then _ else _] => destruct b
      end ].

Lemma format_bdm_prints (repr : pyval -> string) (instance bdm : pyval) :
  prints_only (trace (format_bdm repr instance bdm)) = true.
Proof. unfold format_bdm. prints. Qed.

Lemma format_instance_prints (repr : pyval -> string) (total i : nat) (instance : pyval) :
  prints_only (trace (format_instance repr total i instance)) = true.
Proof.
  unfold format_instance, format_basic, format_network, format_security_groups,
    format_tags, format_storage, format_placement.
  prints; apply format_bdm_prints.
Qed.

Lemma format_from_prints (repr : pyval -> string) (total : nat) (instances : list pyval) :
  forall i, prints_only (trace (format_from repr total i instances)) = true.
Proof.
  induction instances as [|x r IH]; intros i; [reflexivity|].
  cbn [format_from]. apply prints_only_bind; [apply format_instance_prints|auto].
Qed.

Lemma prints_only_no_artifacts (t : list event) :
  prints_only t = true ->
  artifacts t = [] /\ volume_fetches t = [] /\ instance_queries t = [].
Proof.
  induction t as [|ev r IH]; [now repeat split|].
  unfold prints_only. cbn [forallb]. intros H.
  apply andb_true_iff in H. destruct H as [Hev Hr].
  destruct (IH Hr) as (Ha & Hv & Hq).
  destruct ev; try discriminate Hev.
  unfold artifacts, volume_fetches, instance_queries in *. cbn [flat_map app].
  auto.
Qed.

(** ** Every way [get_ec2_details] can end *)

Lemma get_ec2_details_flatten_failed
      (w : env) (name : string) (region : option string)
      (ec2 : ec2_client) (response : pyval) (e : exn) :
  boto3_client w (effective_region region) = Ok ec2 ->
  describe_instances ec2 (query_filters name) = Ok response ->
  flatten_reservations response = Raise e ->
  get_ec2_details w name region
  = ([EvDescribeInstances (query_filters name); error_line e], Ok None).
Proof.
  intros Hc Hd Hf. unfold get_ec2_details.
  rewrite Hc. run. rewrite Hd. run. rewrite Hf. reflexivity.
Qed.

Lemma get_ec2_details_collect_failed
      (w : env) (name : string) (region : option string)
      (ec2 : ec2_client) (response : pyval) (instances : list pyval) (e : exn) :
  boto3_client w (effective_region region) = Ok ec2 ->
  describe_instances ec2 (query_filters name) = Ok response ->
  flatten_reservations response = Ok instances ->
  collect_volume_ids instances = Raise e ->
  get_ec2_details w name region
  = ((EvDescribeInstances (query_filters name)
        :: found_banner name (List.length instances) ++ [error_line e])%list,
     Ok None).
Proof.
  intros Hc Hd Hf Hi. unfold get_ec2_details.
  rewrite Hc. run. rewrite Hd. run. rewrite Hf. run.
  destruct instances as [|x r]; [discriminate Hi|]. run.
  unfold found_banner.
  destruct (Nat.ltb 1 (List.length (x :: r))); run; rewrite Hi; reflexivity.
Qed.

Lemma get_ec2_details_merge_failed
      (w : env) (name : string) (region : option string)
      (ec2 : ec2_client) (response : pyval) (instances ids : list pyval)
      (tv : list event) (vd : dict) (e : exn) :
  boto3_client w (effective_region region) = Ok ec2 ->
  describe_instances ec2 (query_filters name) = Ok response ->
  flatten_reservations response = Ok instances ->
  collect_volume_ids instances = Ok ids ->
  get_volume_details ec2 ids = (tv, Ok vd) ->
  merge vd instances = Raise e ->
  get_ec2_details w name region
  = ((EvDescribeInstances (query_filters name)
        :: found_banner name (List.length instances) ++ tv ++ [error_line e])%list,
     Ok None).
Proof.
  intros Hc Hd Hf Hi Hv Hm. unfold get_ec2_details.
  rewrite Hc. run. rewrite Hd. run. rewrite Hf. run.
  destruct instances as [|x r]; [discriminate Hm|]. run.
  unfold found_banner.
  destruct (Nat.ltb 1 (List.length (x :: r))); run;
    rewrite Hi; run; rewrite Hv; run; rewrite Hm; run;
    unfold error_line; rewrite <- ?app_assoc; reflexivity.
Qed.



(** An exception of [boto3.client] is raised before the [try] begins: it
    leaves [get_ec2_details] and [main] as it is, after the two opening
    lines and with nothing else printed, asked or written. *)
Theorem client_failure_is_not_caught
        (repr : pyval -> string) (w : env) (a : args) (e : exn) :
  boto3_client w (effective_region (region a)) = Raise e ->
  get_ec2_details w (server_name a) (region a) = ([], Raise e) /\
  main repr w a = (main_banner a, Raise e).
Proof.
  intros Hc.
  assert (Hrun : get_ec2_details w (server_name a) (region a) = ([], Raise e)).
  { unfold get_ec2_details. rewrite Hc. reflexivity. }
  split; [exact Hrun|].
  rewrite main_unfold, Hrun. unfold trace, outcome, bind. cbn [fst snd].
  now rewrite app_nil_r.
Qed.

(** The theorem at a sample environment that cannot build a client. *)
Lemma client_failure_is_not_caught_witness :
  main Sample.no_repr Sample.no_client_world Sample.json_args
  = (main_banner Sample.json_args, Raise (RemoteError "You must specify a region.")).
Proof.
  apply (client_failure_is_not_caught Sample.no_repr Sample.no_client_world
           Sample.json_args (RemoteError "You must specify a region.")).
  reflexivity.
Defined.

(** ** The volume mapping *)

(** [get_volume_details] never raises.  Without identifiers it does nothing
    and returns an empty mapping; with identifiers it sends one query and
    prints at most one warning. *)
Theorem volume_lookup_never_raises (ec2 : ec2_client) (ids : list pyval) :
  exists t vd,
    get_volume_details ec2 ids = (t, Ok vd) /\
    ((ids = [] /\ t = [] /\ vd = [])
     \/ (ids <> [] /\
         (t = [EvDescribeVolumes ids]
          \/ exists e, t = [EvDescribeVolumes ids; volume_warning e]))).
Proof.
  unfold get_volume_details. destruct ids as [|id ids].
  - exists [], []. split; [reflexivity|]. left. auto.
  - remember (id :: ids) as q eqn:Hq.
    assert (Hne : q <> []) by (rewrite Hq; discriminate). clear Hq. run.
    destruct (describe_volumes ec2 q) as [response|e]; cbn [res_bind].
    2:{ eexists. eexists. split; [reflexivity|]. right. split; [exact Hne|].
        right. now exists e. }
    destruct (subscript response "Volumes") as [volumes|e]; cbn [res_bind].
    2:{ eexists. eexists. split; [reflexivity|]. right. split; [exact Hne|].
        right. now exists e. }
    destruct (py_iter volumes) as [l|e].
    2:{ eexists. eexists. split; [reflexivity|]. right. split; [exact Hne|].
        right. now exists e. }
    destruct (add_volumes l []) as [vd [e|]].
    + eexists. eexists. split; [reflexivity|]. right. split; [exact Hne|].
      right. now exists e.
    + eexists. eexists. split; [reflexivity|]. right. split; [exact Hne|].
      now left.
Qed.

Lemma get_set_cases (d : dict) (key k : string) (v r : pyval) :
  Dict.get (Dict.set d key v) k = Some r ->
  (k = key /\ r = v) \/ (k <> key /\ Dict.get d k = Some r).
Proof.
  destruct (string_dec key k) as [->|Hne]; intros H.
  - rewrite get_set_eq in H. injection H as <-. now left.
  - rewrite get_set_ne in H by exact Hne. right. split; congruence.
Qed.

Lemma volume_entry_record (volume : pyval) (k : string) (r : pyval) :
  volume_entry volume = Ok (k, r) ->
  subscript volume "VolumeId" = Ok (PStr k) /\
  (exists d, r = PDict d /\ Dict.keys d = record_keys) /\
  subscript r "Size" = subscript volume "Size" /\
  subscript r "VolumeType" = subscript volume "VolumeType" /\
  subscript r "State" = subscript volume "State" /\
  subscript r "Encrypted" = subscript volume "Encrypted" /\
  subscript r "Iops" = py_get volume "Iops" (PStr "N/A") /\
  subscript r "Throughput" = py_get volume "Throughput" (PStr "N/A") /\
  subscript r "SnapshotId" = py_get volume "SnapshotId" (PStr "N/A") /\
  subscript r "AvailabilityZone" = subscript volume "AvailabilityZone" /\
  subscript r "CreateTime" = subscript volume "CreateTime".
Proof.
  unfold volume_entry. intros H.
  destruct (subscript volume "Size") as [size|]; cbn [res_bind] in H; [|discriminate].
  destruct (subscript volume "VolumeType") as [vt|]; cbn [res_bind] in H; [|discriminate].
  destruct (subscript volume "State") as [st|]; cbn [res_bind] in H; [|discriminate].
  destruct (subscript volume "Encrypted") as [enc|]; cbn [res_bind] in H; [|discriminate].
  destruct (py_get volume "Iops" (PStr "N/A")) as [iops|];
    cbn [res_bind] in H; [|discriminate].
  destruct (py_get volume "Throughput" (PStr "N/A")) as [thr|];
    cbn [res_bind] in H; [|discriminate].
  destruct (py_get volume "SnapshotId" (PStr "N/A")) as [snap|];
    cbn [res_bind] in H; [|discriminate].
  destruct (subscript volume "AvailabilityZone") as [az|];
    cbn [res_bind] in H; [|discriminate].
  destruct (subscript volume "CreateTime") as [ct|]; cbn [res_bind] in H; [|discriminate].
  destruct (subscript volume "VolumeId") as [vid|]; cbn [res_bind] in H; [|discriminate].
  destruct vid; simpl in H; try discriminate.
  injection H as <- <-.
  split; [reflexivity|]. split; [eexists; split; reflexivity|].
  repeat split; reflexivity.
Qed.

(** What the loop over the volumes keeps: every entry of the mapping is
    the record of a volume already seen, stored under that volume's
    identifier. *)
Lemma add_volumes_entries (volumes : list pyval) :
  forall (acc vd : dict) (oe : option exn),
    add_volumes volumes acc = (vd, oe) ->
    forall k r, Dict.get vd k = Some r ->
                Dict.get acc k = Some r
                \/ exists volume, In volume volumes /\ volume_entry volume = Ok (k, r).
Proof.
  induction volumes as [|volume rest IH]; intros acc vd oe H k r Hk; simpl in H.
  - injection H as <- <-. now left.
  - destruct (volume_entry volume) as [[key record]|e] eqn:He.
    + destruct (IH _ _ _ H k r Hk) as [Hacc|(v & Hin & Hv)].
      * apply get_set_cases in Hacc. destruct Hacc as [[-> ->]|[_ Hacc]].
        -- right. exists volume. split; [now left|exact He].
        -- now left.
      * right. exists v. split; [now right|exact Hv].
    + injection H as <- <-. now left.
Qed.

(** Every entry of the mapping [get_volume_details] returns was built from
    a volume of the service's answer and is stored under that volume's
    identifier; it has the nine fields of a record, in their fixed order,
    whether or not the volume had the optional ones. *)
Theorem volume_mapping_holds_records_of_the_answer
        (ec2 : ec2_client) (ids : list pyval) (t : list event) (vd : dict)
        (k : string) (r : pyval) :
  get_volume_details ec2 ids = (t, Ok vd) ->
  Dict.get vd k = Some r ->
  exists response volumes_v volumes volume,
    describe_volumes ec2 ids = Ok response /\
    subscript response "Volumes" = Ok volumes_v /\
    py_iter volumes_v = Ok volumes /\
    In volume volumes /\
    subscript volume "VolumeId" = Ok (PStr k) /\
    volume_entry volume = Ok (k, r) /\
    exists d, r = PDict d /\ Dict.keys d = record_keys.
Proof.
  unfold get_volume_details. intros H Hk.
  destruct ids as [|id ids]; [injection H as <- <-; discriminate Hk|].
  remember (id :: ids) as q eqn:Hq. clear Hq. run_in H.
  destruct (describe_volumes ec2 q) as [response|e]; cbn [res_bind] in H;
    [|injection H as <- <-; discriminate Hk].
  destruct (subscript response "Volumes") as [volumes_v|e] eqn:Hv; cbn [res_bind] in H;
    [|injection H as <- <-; discriminate Hk].
  destruct (py_iter volumes_v) as [volumes|e] eqn:Hi;
    [|injection H as <- <-; discriminate Hk].
  destruct (add_volumes volumes []) as [vd' oe] eqn:Ha.
  assert (Hvd : vd' = vd) by (destruct oe; now injection H).
  subst vd'.
  destruct (add_volumes_entries _ _ _ _ Ha k r Hk) as [Hnil|(volume & Hin & He)];
    [discriminate Hnil|].
  destruct (volume_entry_record _ _ _ He) as (Hid & Hshape & _).
  exists response, volumes_v, volumes, volume. auto 10.
Qed.

(** The theorem at the sample answer with one volume. *)
Lemma volume_mapping_holds_records_of_the_answer_witness :
  exists t vd r,
    get_volume_details Sample.shared_client [PStr "vol-A"] = (t, Ok vd) /\
    Dict.get vd "vol-A" = Some r /\
    exists response volumes_v volumes volume,
      describe_volumes Sample.shared_client [PStr "vol-A"] = Ok response /\
      subscript response "Volumes" = Ok volumes_v /\
      py_iter volumes_v = Ok volumes /\
      In volume volumes /\
      subscript volume "VolumeId" = Ok (PStr "vol-A") /\
      volume_entry volume = Ok ("vol-A", r) /\
      exists d, r = PDict d /\ Dict.keys d = record_keys.
Proof.
  eexists. eexists. eexists.
  split; [vm_compute; reflexivity|]. split; [vm_compute; reflexivity|].
  eapply (volume_mapping_holds_records_of_the_answer Sample.shared_client [PStr "vol-A"]);
    vm_compute; reflexivity.
Defined.

Lemma add_volumes_app (l1 l2 : list pyval) :
  forall acc,
    add_volumes (l1 ++ l2) acc
    = match add_volumes l1 acc with
      | (vd, None) => add_volumes l2 vd
      | (vd, Some e) => (vd, Some e)
      end.
Proof.
  induction l1 as [|v r IH]; intros acc; simpl; [reflexivity|].
  destruct (volume_entry v) as [[key record]|e]; [apply IH|reflexivity].
Qed.

Lemma add_volumes_readable (l : list pyval) :
  Forall well_formed_volume l ->
  forall acc, exists vd, add_volumes l acc = (vd, None).
Proof.
  induction 1 as [|v r [[key record] Hv] _ IH]; intros acc; simpl.
  - now exists acc.
  - rewrite Hv. apply IH.
Qed.

Lemma add_volumes_keeps (l : list pyval) (k : string) (r : pyval) :
  Forall well_formed_volume l ->
  Forall (fun v => volume_key v <> Some k) l ->
  forall acc, Dict.get acc k = Some r ->
              exists vd, add_volumes l acc = (vd, None) /\ Dict.get vd k = Some r.
Proof.
  induction 1 as [|v rest [[key record] Hv] _ IH]; intros Hk acc Hacc; simpl.
  - now exists acc.
  - inversion Hk as [|? ? Hv' Hrest]; subst. rewrite Hv.
    apply IH; [exact Hrest|].
    rewrite get_set_ne; [exact Hacc|].
    unfold volume_key in Hv'. rewrite Hv in Hv'. congruence.
Qed.

(** When one volume of the answer cannot be read, the loop stops there:
    the mapping keeps the records of the volumes before it, a warning is
    printed, and the volumes after it are not stored.  The identifier of
    the unreadable volume, when it has one, is a [str]: what stops the loop
    is a field that cannot be read, not the key. *)
Theorem unreadable_volume_truncates_mapping
        (ec2 : ec2_client) (ids : list pyval) (response : pyval)
        (good : list pyval) (bad : pyval) (rest : list pyval) (e : exn) :
  ids <> [] ->
  describe_volumes ec2 ids = Ok response ->
  subscript response "Volumes" = Ok (PList (good ++ bad :: rest)) ->
  Forall well_formed_volume good ->
  (forall volume_id, subscript bad "VolumeId" = Ok volume_id ->
                     is_string volume_id = true) ->
  volume_entry bad = Raise e ->
  exists vd,
    add_volumes good [] = (vd, None) /\
    get_volume_details ec2 ids = ([EvDescribeVolumes ids; volume_warning e], Ok vd) /\
    forall k r, Dict.get vd k = Some r ->
                exists volume, In volume good /\ volume_entry volume = Ok (k, r).
Proof.
  intros Hne Hd Hv Hgood _ Hbad.
  destruct (add_volumes_readable good Hgood []) as (vd & Hvd).
  exists vd. split; [exact Hvd|]. split.
  - unfold get_volume_details. destruct ids as [|id ids]; [contradiction|].
    rewrite Hd. cbn [res_bind]. rewrite Hv. cbn [res_bind py_iter].
    rewrite add_volumes_app, Hvd. simpl add_volumes. rewrite Hbad. reflexivity.
  - intros k r Hk.
    destruct (add_volumes_entries _ _ _ _ Hvd k r Hk) as [Hnil|H];
      [discriminate Hnil|exact H].
Qed.

(** The theorem at a sample answer whose second volume has no [Size]. *)
Lemma unreadable_volume_truncates_mapping_witness :
  exists vd,
    add_volumes [Sample.volume "vol-A"] [] = (vd, None) /\
    get_volume_details Sample.truncated_client [PStr "vol-A"; PStr "vol-B"; PStr "vol-C"]
    = ([EvDescribeVolumes [PStr "vol-A"; PStr "vol-B"; PStr "vol-C"];
        volume_warning (KeyError "Size")], Ok vd) /\
    forall k r, Dict.get vd k = Some r ->
                exists volume, In volume [Sample.volume "vol-A"]
                               /\ volume_entry volume = Ok (k, r).
Proof.
  apply (unreadable_volume_truncates_mapping
           Sample.truncated_client [PStr "vol-A"; PStr "vol-B"; PStr "vol-C"]
           (PDict [("Volumes", PList [Sample.volume "vol-A";
                                      PDict [("VolumeId", PStr "vol-B")];
                                      Sample.volume "vol-C"])])
           [Sample.volume "vol-A"] (PDict [("VolumeId", PStr "vol-B")])
           [Sample.volume "vol-C"] (KeyError "Size")).
  - discriminate.
  - reflexivity.
  - reflexivity.
  - repeat constructor. eexists. vm_compute. reflexivity.
  - intros volume_id H. vm_compute in H. now injection H as <-.
  - reflexivity.
Defined.

(** When every volume of the answer can be read, nothing is printed and
    each volume's record is in the mapping under its identifier, unless a
    later volume of the answer has the same identifier.  The record takes
    the volume's fields as they are and has [N/A] for an optional field
    the volume lacks. *)
Theorem readable_answer_is_stored
        (ec2 : ec2_client) (ids : list pyval) (response : pyval)
        (before : list pyval) (volume : pyval) (after : list pyval)
        (k : string) (r : pyval) :
  ids <> [] ->
  describe_volumes ec2 ids = Ok response ->
  subscript response "Volumes" = Ok (PList (before ++ volume :: after)) ->
  Forall well_formed_volume before ->
  Forall well_formed_volume after ->
  volume_entry volume = Ok (k, r) ->
  Forall (fun v => volume_key v <> Some k) after ->
  exists vd,
    get_volume_details ec2 ids = ([EvDescribeVolumes ids], Ok vd) /\
    Dict.get vd k = Some r /\
    subscript volume "VolumeId" = Ok (PStr k) /\
    subscript r "Size" = subscript volume "Size" /\
    subscript r "VolumeType" = subscript volume "VolumeType" /\
    subscript r "State" = subscript volume "State" /\
    subscript r "Encrypted" = subscript volume "Encrypted" /\
    subscript r "Iops" = py_get volume "Iops" (PStr "N/A") /\
    subscript r "Throughput" = py_get volume "Throughput" (PStr "N/A") /\
    subscript r "SnapshotId" = py_get volume "SnapshotId" (PStr "N/A") /\
    subscript r "AvailabilityZone" = subscript volume "AvailabilityZone" /\
    subscript r "CreateTime" = subscript volume "CreateTime".
Proof.
  intros Hne Hd Hv Hbefore Hafter He Hk.
  destruct (add_volumes_readable before Hbefore []) as (vd0 & Hvd0).
  destruct (add_volumes_keeps after k r Hafter Hk (Dict.set vd0 k r) (get_set_eq _ _ _))
    as (vd & Hvd & Hget).
  destruct (volume_entry_record _ _ _ He) as (Hid & _ & Hfields).
  exists vd. split; [|split; [exact Hget|split; [exact Hid|exact Hfields]]].
  unfold get_volume_details. destruct ids as [|id ids]; [contradiction|].
  rewrite Hd. cbn [res_bind]. rewrite Hv. cbn [res_bind py_iter].
  rewrite add_volumes_app, Hvd0. simpl add_volumes. rewrite He, Hvd. reflexivity.
Qed.

(** The theorem at the sample answer with one volume, which has no
    [Throughput] and no [SnapshotId]. *)
Lemma readable_answer_is_stored_witness :
  exists r vd,
    volume_entry (Sample.volume "vol-A") = Ok ("vol-A", r) /\
    get_volume_details Sample.shared_client [PStr "vol-A"]
    = ([EvDescribeVolumes [PStr "vol-A"]], Ok vd) /\
    Dict.get vd "vol-A" = Some r /\
    subscript r "Iops" = Ok (PInt 3000) /\
    subscript r "Throughput" = Ok (PStr "N/A") /\
    subscript r "SnapshotId" = Ok (PStr "N/A").
Proof.
  eexists. 
  destruct (readable_answer_is_stored
              Sample.shared_client [PStr "vol-A"] Sample.volumes_response
              [] (Sample.volume "vol-A") [] "vol-A" _
              (fun H => match H with eq_refl => I end) eq_refl eq_refl
              (Forall_nil _) (Forall_nil _) eq_refl (Forall_nil _))
    as (vd & Hrun & Hget & _ & _ & _ & _ & _ & Hiops & Hthr & Hsnap & _).
  exists vd. split; [reflexivity|]. split; [exact Hrun|]. split; [exact Hget|].
  split; [exact Hiops|]. split; [exact Hthr|exact Hsnap].
Defined.

(** ** More on the merge *)

Lemma add_volume_details_resets (vd d : dict) (x : pyval) :
  add_volume_details vd (PDict (Dict.set d "VolumeDetails" x))
  = add_volume_details vd (PDict d).
Proof.
  unfold add_volume_details. simpl set_item. now rewrite set_set.
Qed.

Lemma Forall2_merge (vd : dict) (instances out : list pyval) :
  Forall2 (fun instance instance' => add_volume_details vd instance = Ok instance')
          instances out ->
  merge vd instances = Ok out.
Proof.
  induction 1 as [|x y l l' Hxy _ IH]; [reflexivity|].
  simpl. now rewrite Hxy, IH.
Qed.

(** The merge starts every record from an empty [VolumeDetails]: what a
    record carried under that name before does not matter, and merging the
    merged records again with the same mapping changes nothing. *)
Theorem merge_is_idempotent (vd : dict) (instances out : list pyval) :
  merge vd instances = Ok out ->
  merge vd out = Ok out /\
  forall d x, add_volume_details vd (PDict (Dict.set d "VolumeDetails" x))
              = add_volume_details vd (PDict d).
Proof.
  intros Hm. apply merge_Forall2 in Hm. split.
  - apply Forall2_merge.
    induction Hm as [|x y l l' Hxy _ IH]; constructor; [|exact IH].
    pose proof Hxy as Hspec. apply add_volume_details_spec in Hspec.
    destruct Hspec as (d & bdms & details & -> & _ & -> & _).
    now rewrite add_volume_details_resets.
  - intros d x. apply add_volume_details_resets.
Qed.

(** The theorem at the two sample instances. *)
Lemma merge_is_idempotent_witness :
  exists vd out,
    add_volumes [Sample.volume "vol-A"] [] = (vd, None) /\
    merge vd Sample.shared_instances = Ok out /\
    merge vd out = Ok out.
Proof.
  eexists. eexists.
  split; [vm_compute; reflexivity|]. split; [vm_compute; reflexivity|].
  refine (proj1 (merge_is_idempotent _ Sample.shared_instances _ _)).
  vm_compute. reflexivity.
Defined.

(** When no matched instance has a remote-backed attachment, the run sends
    no volume query at all and returns every instance with an empty
    [VolumeDetails]. *)
Theorem no_remote_volumes_no_query
        (w : env) (name : string) (region : option string) (ec2 : ec2_client)
        (response : pyval) (instances : list pyval) :
  boto3_client w (effective_region region) = Ok ec2 ->
  describe_instances ec2 (query_filters name) = Ok response ->
  flatten_reservations response = Ok instances ->
  instances <> [] ->
  collect_volume_ids instances = Ok [] ->
  exists out,
    get_ec2_details w name region
    = ((EvDescribeInstances (query_filters name)
          :: found_banner name (List.length instances))%list,
       Ok (Some out)) /\
    volume_fetches (trace (get_ec2_details w name region)) = [] /\
    Forall2 (fun instance instance' =>
               exists d, instance = PDict d /\
                         instance' = PDict (Dict.set d "VolumeDetails" (PDict [])))
            instances out.
Proof.
  intros Hc Hd Hf Hne Hi.
  pose proof (collect_volume_ids_spec _ _ Hi) as [Hids Hall].
  assert (Hstr : forallb is_string (flat_map instance_ebs_ids instances) = true)
    by now rewrite <- Hids.
  destruct (merge_no_details instances Hall Hstr) as (out & Hm & Hout).
  assert (Hrun : get_ec2_details w name region
                 = ((EvDescribeInstances (query_filters name)
                       :: found_banner name (List.length instances))%list,
                    Ok (Some out))).
  { rewrite (get_ec2_details_merged w name region ec2 response instances [] out [] []
               Hc Hd Hf Hne Hi eq_refl Hm).
    now rewrite app_nil_r. }
  exists out. split; [exact Hrun|]. split; [|exact Hout].
  rewrite Hrun. unfold trace. cbn [fst].
  change (volume_fetches ([EvDescribeInstances (query_filters name)]
                            ++ found_banner name (List.length instances)) = []).
  now rewrite volume_fetches_app, volume_fetches_banner.
Qed.

(** The theorem at a sample instance with an instance-local attachment
    only. *)
Lemma no_remote_volumes_no_query_witness :
  exists out,
    get_ec2_details (Sample.world_of Sample.local_only_client) "web-01" None
    = ([EvDescribeInstances (query_filters "web-01")], Ok (Some out)) /\
    volume_fetches (trace (get_ec2_details (Sample.world_of Sample.local_only_client)
                                           "web-01" None)) = [] /\
    Forall2 (fun instance instance' =>
               exists d, instance = PDict d /\
                         instance' = PDict (Dict.set d "VolumeDetails" (PDict [])))
            [Sample.local_only] out.
Proof.
  apply (no_remote_volumes_no_query
           (Sample.world_of Sample.local_only_client) "web-01" None
           Sample.local_only_client
           (PDict [("Reservations", PList [PDict [("Instances", PList [Sample.local_only])]])])
           [Sample.local_only]).
  - reflexivity.
  - reflexivity.
  - reflexivity.
  - discriminate.
  - reflexivity.
Defined.

(** An attachment the first loop cannot read (say an [Ebs] entry without
    [VolumeId]) ends the lookup: the exception is reported, no volume
    query is sent, and none of the instances found is returned. *)
Theorem unreadable_attachment_loses_instances
        (w : env) (name : string) (region : option string) (ec2 : ec2_client)
        (response : pyval) (instances : list pyval) (e : exn) :
  boto3_client w (effective_region region) = Ok ec2 ->
  describe_instances ec2 (query_filters name) = Ok response ->
  flatten_reservations response = Ok instances ->
  collect_volume_ids instances = Raise e ->
  get_ec2_details w name region
  = ((EvDescribeInstances (query_filters name)
        :: found_banner name (List.length instances) ++ [error_line e])%list,
     Ok None) /\
  volume_fetches (trace (get_ec2_details w name region)) = [].
Proof.
  intros Hc Hd Hf Hi.
  pose proof (get_ec2_details_collect_failed _ _ _ _ _ _ _ Hc Hd Hf Hi) as Hrun.
  split; [exact Hrun|]. rewrite Hrun. unfold trace. cbn [fst].
  change (volume_fetches ([EvDescribeInstances (query_filters name)]
                            ++ found_banner name (List.length instances)
                            ++ [error_line e]) = []).
  now rewrite !volume_fetches_app, volume_fetches_banner.
Qed.

(** The theorem at a sample instance whose [Ebs] entry has no
    [VolumeId]. *)
Lemma unreadable_attachment_loses_instances_witness :
  get_ec2_details (Sample.world_of Sample.broken_attachment_client) "web-01" None
  = ([EvDescribeInstances (query_filters "web-01");
      EvPrint "Error retrieving EC2 details: 'VolumeId'"], Ok None).
Proof.
  apply (unreadable_attachment_loses_instances
           (Sample.world_of Sample.broken_attachment_client) "web-01" None
           Sample.broken_attachment_client
           (PDict [("Reservations",
                    PList [PDict [("Instances", PList [Sample.broken_attachment])]])])
           [Sample.broken_attachment] (KeyError "VolumeId"));
    reflexivity.
Defined.

(** ** More on [main] *)

Lemma get_ec2_details_never_writes (w : env) (name : string) (region : option string) :
  artifacts (trace (get_ec2_details w name region)) = [].
Proof.
  destruct (boto3_client w (effective_region region)) as [ec2|e] eqn:Hc.
  2:{ unfold get_ec2_details. rewrite Hc. reflexivity. }
  destruct (describe_instances ec2 (query_filters name)) as [response|e] eqn:Hd.
  2:{ now rewrite (get_ec2_details_failed _ _ _ _ _ Hc Hd). }
  destruct (flatten_reservations response) as [instances|e] eqn:Hf.
  2:{ now rewrite (get_ec2_details_flatten_failed _ _ _ _ _ _ Hc Hd Hf). }
  destruct instances as [|x r] eqn:Hinst.
  { now rewrite (get_ec2_details_not_found _ _ _ _ _ Hc Hd Hf). }
  rewrite <- Hinst in *.
  assert (Hne : instances <> []) by (rewrite Hinst; discriminate).
  assert (Hbanner : artifacts (found_banner name (List.length instances)) = []).
  { unfold found_banner. now destruct (Nat.ltb 1 (List.length instances)). }
  clear Hinst.
  destruct (collect_volume_ids instances) as [ids|e] eqn:Hi.
  2:{ rewrite (get_ec2_details_collect_failed _ _ _ _ _ _ _ Hc Hd Hf Hi).
      unfold trace. cbn [fst].
      change (artifacts ([EvDescribeInstances (query_filters name)]
                           ++ found_banner name (List.length instances)
                           ++ [error_line e]) = []).
      now rewrite !artifacts_app, Hbanner. }
  destruct (get_volume_details_returns ec2 ids) as (tv & vd & Hv & _).
  pose proof (get_volume_details_writes_nothing ec2 ids) as Hw.
  rewrite Hv in Hw. unfold trace in Hw. cbn [fst] in Hw.
  destruct (merge vd instances) as [out|e] eqn:Hm.
  - rewrite (get_ec2_details_merged _ _ _ _ _ _ _ _ _ _ Hc Hd Hf Hne Hi Hv Hm).
    unfold trace. cbn [fst].
    change (artifacts ([EvDescribeInstances (query_filters name)]
                         ++ found_banner name (List.length instances) ++ tv) = []).
    now rewrite !artifacts_app, Hbanner, Hw.
  - rewrite (get_ec2_details_merge_failed _ _ _ _ _ _ _ _ _ _ Hc Hd Hf Hi Hv Hm).
    unfold trace. cbn [fst].
    change (artifacts ([EvDescribeInstances (query_filters name)]
                         ++ found_banner name (List.length instances)
                         ++ tv ++ [error_line e]) = []).
    now rewrite !artifacts_app, Hbanner, Hw.
Qed.

Lemma trace_bind_cases {A B} (m : M A) (f : A -> M B) :
  trace (bind m f)
  = (trace m ++ match outcome m with
                | Ok a => trace (f a)
                | Raise _ => []
                end)%list.
Proof.
  destruct m as [t [a|e]]; unfold bind, trace, outcome; simpl.
  - now destruct (f a).
  - now rewrite app_nil_r.
Qed.

(** In textual mode [main] writes no file, whatever the service answers
    and whether or not the report completes; the report itself does
    nothing but print. *)
Theorem textual_mode_writes_nothing
        (repr : pyval -> string) (w : env) (a : args) :
  human a = true ->
  artifacts (trace (main repr w a)) = [] /\
  forall instances, prints_only (trace (format_ec2_details repr instances)) = true.
Proof.
  intros Hh.
  split; [|intros instances; unfold format_ec2_details; apply format_from_prints].
  rewrite main_unfold. unfold trace at 1. cbn [fst].
  rewrite artifacts_app, artifacts_main_banner. cbn [app].
  rewrite trace_bind_cases, artifacts_app, get_ec2_details_never_writes. cbn [app].
  destruct (outcome (get_ec2_details w (server_name a) (region a))) as [[[|x r]|]|e];
    [reflexivity| |reflexivity|reflexivity].
  unfold report. rewrite Hh. unfold format_ec2_details.
  apply prints_only_no_artifacts. apply format_from_prints.
Qed.

(** The theorem at the sample service with two instances. *)
Lemma textual_mode_writes_nothing_witness :
  artifacts (trace (main Sample.no_repr (Sample.world_of Sample.shared_client)
                         Sample.human_args)) = [].
Proof.
  apply (textual_mode_writes_nothing Sample.no_repr (Sample.world_of Sample.shared_client)
           Sample.human_args).
  reflexivity.
Defined.

(** When the output file cannot be opened, [main] ends with that exception
    after the lookup has been made; nothing is written and nothing more is
    printed. *)
Theorem unwritable_output_raises
        (repr : pyval -> string) (w : env) (a : args) (t : list event)
        (first : pyval) (rest : list pyval) (data : pyval) (e : exn) :
  get_ec2_details w (server_name a) (region a) = (t, Ok (Some (first :: rest))) ->
  human a = false ->
  output_data a (first :: rest) = Ok data ->
  open_w w (output_path a) = Raise e ->
  main repr w a = ((main_banner a ++ t)%list, Raise e) /\
  artifacts (trace (main repr w a)) = [].
Proof.
  intros Hrun Hh Hdata Hopen.
  assert (Hmain : main repr w a = ((main_banner a ++ t)%list, Raise e)).
  { rewrite main_unfold, Hrun. unfold report. rewrite Hh. run.
    rewrite Hdata. run. rewrite Hopen. unfold trace, outcome. cbn [fst snd].
    now rewrite !app_nil_r. }
  split; [exact Hmain|]. rewrite Hmain. unfold trace. cbn [fst].
  rewrite artifacts_app, artifacts_main_banner.
  exact (get_ec2_details_writes_nothing _ _ _ _ _ Hrun).
Qed.

(** The theorem at a sample environment without the [output] directory. *)
Lemma unwritable_output_raises_witness :
  exists t,
    main Sample.no_repr Sample.no_directory_world Sample.json_args
    = ((main_banner Sample.json_args ++ t)%list,
       Raise (OSError "No such file or directory: 'output/web-01_details.json'")) /\
    artifacts (trace (main Sample.no_repr Sample.no_directory_world Sample.json_args)) = [].
Proof.
  eexists.
  eapply (unwritable_output_raises Sample.no_repr Sample.no_directory_world
            Sample.json_args).
  - vm_compute. reflexivity.
  - reflexivity.
  - vm_compute. reflexivity.
  - reflexivity.
Defined.

Lemma summary_from_lines (repr : pyval -> string)
      (instances : list pyval) (fields : list (pyval * pyval)) :
  Forall2 has_summary_fields instances fields ->
  forall i, summary_from repr i instances = (summary_lines repr i fields, Ok tt).
Proof.
  induction 1 as [|x f l fs [Hid (state & Hst & Hname)] _ IH]; intros i; [reflexivity|].
  cbn [summary_from summary_lines]. run.
  rewrite Hid, Hst, Hname, IH. reflexivity.
Qed.

(** In structured mode, when instances were found, the file can be opened
    and every instance has an identifier and a state name, [main] writes
    the output object once, then reports the path and the number of
    instances and closes with one line per instance, in order and numbered
    from 1, and returns. *)
Theorem structured_mode_run
        (repr : pyval -> string) (w : env) (a : args) (t : list event)
        (first : pyval) (rest : list pyval) (data : pyval)
        (fields : list (pyval * pyval)) :
  get_ec2_details w (server_name a) (region a) = (t, Ok (Some (first :: rest))) ->
  human a = false ->
  output_data a (first :: rest) = Ok data ->
  open_w w (output_path a) = Ok tt ->
  Forall2 has_summary_fields (first :: rest) fields ->
  main repr w a
  = ((main_banner a ++ t
        ++ [EvWriteJson (output_path a) data;
            EvPrint ("EC2 details written to: " ++ output_path a);
            EvPrint ("Found " ++ str_of_nat (List.length (first :: rest))
                              ++ " instance(s)")]
        ++ summary_lines repr 1 fields)%list,
     Ok tt).
Proof.
  intros Hrun Hh Hdata Hopen Hfields.
  rewrite main_unfold, Hrun. unfold report. rewrite Hh. run.
  rewrite Hdata. run. rewrite Hopen. run.
  rewrite (summary_from_lines repr _ _ Hfields 1).
  unfold trace, outcome. cbn [fst snd]. reflexivity.
Qed.

(** The theorem at the sample service with two instances. *)
Lemma structured_mode_run_witness :
  exists t first rest data,
    get_ec2_details (Sample.world_of Sample.shared_client) "web-01" None
    = (t, Ok (Some (first :: rest))) /\
    main Sample.no_repr (Sample.world_of Sample.shared_client) Sample.json_args
    = ((main_banner Sample.json_args ++ t
          ++ [EvWriteJson (output_path Sample.json_args) data;
              EvPrint ("EC2 details written to: " ++ output_path Sample.json_args);
              EvPrint ("Found " ++ str_of_nat (List.length (first :: rest))
                                ++ " instance(s)")]
          ++ summary_lines Sample.no_repr 1
               [(PStr "i-1", PStr "running"); (PStr "i-2", PStr "running")])%list,
       Ok tt).
Proof.
  eexists. eexists. eexists. eexists.
  split; [vm_compute; reflexivity|].
  eapply (structured_mode_run Sample.no_repr (Sample.world_of Sample.shared_client)
            Sample.json_args).
  - vm_compute. reflexivity.
  - reflexivity.
  - vm_compute. reflexivity.
  - reflexivity.
  - repeat constructor; eexists; split; reflexivity.
Defined.

(** ** The sections of the textual report *)

Lemma format_instance_block (repr : pyval -> string) (total i : nat) (instance : pyval) :
  outcome (format_instance repr total i instance) = Ok tt ->
  trace (format_instance repr total i instance) = instance_block repr total i instance.
Proof.
  unfold format_instance, instance_block. intros H.
  apply bind_ok in H. destruct H as ([] & _ & H & ->).
  apply bind_ok in H. destruct H as ([] & _ & H & ->).
  apply bind_ok in H. destruct H as ([] & _ & H & ->).
  apply bind_ok in H. destruct H as ([] & _ & H & ->).
  apply bind_ok in H. destruct H as ([] & _ & H & ->).
  reflexivity.
Qed.

(** A report that completes consists of one block per instance, in the
    order of the list, and each block of its six sections in the fixed
    order: basic information, network, security groups, tags, storage,
    placement. *)
Theorem report_is_blocks_in_order (repr : pyval -> string) (instances : list pyval) :
  outcome (format_ec2_details repr instances) = Ok tt ->
  trace (format_ec2_details repr instances)
  = instance_blocks repr (List.length instances) 1 instances.
Proof.
  unfold format_ec2_details. generalize (List.length instances) as total.
  generalize 1 as i. induction instances as [|x r IH]; intros i total H; [reflexivity|].
  cbn [format_from instance_blocks] in *.
  apply bind_ok in H. destruct H as ([] & Hx & Hr & ->).
  now rewrite (format_instance_block _ _ _ _ Hx), (IH _ _ Hr).
Qed.

(** The theorem at the two sample instances. *)
Lemma report_is_blocks_in_order_witness :
  trace (format_ec2_details Sample.no_repr Sample.shared_instances)
  = (instance_block Sample.no_repr 2 1 (nth 0 Sample.shared_instances PNone)
       ++ instance_block Sample.no_repr 2 2 (nth 1 Sample.shared_instances PNone)
       ++ [])%list.
Proof.
  apply (report_is_blocks_in_order Sample.no_repr Sample.shared_instances).
  vm_compute. reflexivity.
Defined.

(** The opening lines of an instance's block: the numbered header when
    the report has several instances and none when it has one, then the
    five basic fields and the platform, which is the record's own when it
    has one. *)
Theorem basic_block_lines
        (repr : pyval -> string) (total i : nat) (instance : pyval)
        (instance_id instance_type state name launch_time architecture platform : pyval) :
  subscript instance "InstanceId" = Ok instance_id ->
  subscript instance "InstanceType" = Ok instance_type ->
  subscript instance "State" = Ok state ->
  subscript state "Name" = Ok name ->
  subscript instance "LaunchTime" = Ok launch_time ->
  subscript instance "Architecture" = Ok architecture ->
  py_get instance "Platform" (PStr "Linux/Unix") = Ok platform ->
  format_basic repr total i instance
  = (((if Nat.ltb 1 total then
         [EvPrint (nl ++ repeat_str "=" 50);
          EvPrint ("INSTANCE " ++ str_of_nat i ++ " of " ++ str_of_nat total);
          EvPrint (repeat_str "=" 50)]
       else [])
        ++ [EvPrint ("Instance ID: " ++ py_str repr instance_id);
            EvPrint ("Instance Type: " ++ py_str repr instance_type);
            EvPrint ("State: " ++ py_str repr name);
            EvPrint ("Launch Time: " ++ py_str repr launch_time);
            EvPrint ("Architecture: " ++ py_str repr architecture);
            EvPrint ("Platform: " ++ py_str repr platform)])%list,
     Ok tt).
Proof.
  intros H1 H2 H3 H4 H5 H6 H7. unfold format_basic.
  destruct (Nat.ltb 1 total); run; rewrite H1; run; rewrite H2; run; rewrite H3; run;
    rewrite H4; run; rewrite H5; run; rewrite H6; run; rewrite H7; reflexivity.
Qed.

(** The theorem at a sample Windows instance, second of three. *)
Lemma basic_block_lines_witness :
  format_basic Sample.no_repr 3 2 Sample.windows
  = ([EvPrint (nl ++ repeat_str "=" 50);
      EvPrint ("INSTANCE " ++ str_of_nat 2 ++ " of " ++ str_of_nat 3);
      EvPrint (repeat_str "=" 50);
      EvPrint ("Instance ID: " ++ "i-5");
      EvPrint ("Instance Type: " ++ "t3.micro");
      EvPrint ("State: " ++ "running");
      EvPrint ("Launch Time: " ++ "2024-01-01 12:00:00+00:00");
      EvPrint ("Architecture: " ++ "x86_64");
      EvPrint ("Platform: " ++ "windows")],
     Ok tt).
Proof.
  apply (basic_block_lines Sample.no_repr 3 2 Sample.windows
           (PStr "i-5") (PStr "t3.micro") (PDict [("Name", PStr "running")])
           (PStr "running") Sample.launch (PStr "x86_64") (PStr "windows"));
    reflexivity.
Defined.

Lemma py_get_truthy (instance : pyval) (k : string) (v : pyval) :
  py_get instance k PNone = Ok v ->
  truthy v = true ->
  subscript instance k = Ok v.
Proof.
  destruct instance as [| | | | | |d]; try discriminate.
  unfold py_get, subscript. destruct (Dict.get d k); intros H Ht.
  - exact H.
  - injection H as <-. discriminate Ht.
Qed.

(** The network section: VPC, subnet and private address always; the
    public address and the public DNS name only when the record has them
    and they are not empty. *)
Theorem network_block_lines
        (repr : pyval -> string) (instance : pyval)
        (vpc_id subnet_id private_ip private_dns public_ip public_dns : pyval) :
  subscript instance "VpcId" = Ok vpc_id ->
  subscript instance "SubnetId" = Ok subnet_id ->
  subscript instance "PrivateIpAddress" = Ok private_ip ->
  subscript instance "PrivateDnsName" = Ok private_dns ->
  py_get instance "PublicIpAddress" PNone = Ok public_ip ->
  py_get instance "PublicDnsName" PNone = Ok public_dns ->
  format_network repr instance
  = (([EvPrint (nl ++ "Network Details:");
       EvPrint ("  VPC ID: " ++ py_str repr vpc_id);
       EvPrint ("  Subnet ID: " ++ py_str repr subnet_id);
       EvPrint ("  Private IP: " ++ py_str repr private_ip)]
        ++ (if truthy public_ip
            then [EvPrint ("  Public IP: " ++ py_str repr public_ip)] else [])
        ++ [EvPrint ("  Private DNS: " ++ py_str repr private_dns)]
        ++ (if truthy public_dns
            then [EvPrint ("  Public DNS: " ++ py_str repr public_dns)] else []))%list,
     Ok tt).
Proof.
  intros H1 H2 H3 H4 H5 H6. unfold format_network. run.
  rewrite H1. run. rewrite H2. run. rewrite H3. run. rewrite H5. run.
  destruct (truthy public_ip) eqn:Tip; run.
  - rewrite (py_get_truthy _ _ _ H5 Tip). run. rewrite H4. run. rewrite H6. run.
    destruct (truthy public_dns) eqn:Tdns; run.
    + rewrite (py_get_truthy _ _ _ H6 Tdns). reflexivity.
    + reflexivity.
  - rewrite H4. run. rewrite H6. run.
    destruct (truthy public_dns) eqn:Tdns; run.
    + rewrite (py_get_truthy _ _ _ H6 Tdns). reflexivity.
    + reflexivity.
Qed.

(** The theorem at a sample instance with a public address and an empty
    public DNS name. *)
Lemma network_block_lines_witness :
  format_network Sample.no_repr Sample.windows
  = (([EvPrint (nl ++ "Network Details:");
       EvPrint ("  VPC ID: " ++ "vpc-1");
       EvPrint ("  Subnet ID: " ++ "subnet-1");
       EvPrint ("  Private IP: " ++ "10.0.0.1")]
        ++ [EvPrint ("  Public IP: " ++ "203.0.113.7")]
        ++ [EvPrint ("  Private DNS: " ++ "ip-10-0-0-1.internal")]
        ++ [])%list,
     Ok tt).
Proof.
  apply (network_block_lines Sample.no_repr Sample.windows
           (PStr "vpc-1") (PStr "subnet-1") (PStr "10.0.0.1")
           (PStr "ip-10-0-0-1.internal") (PStr "203.0.113.7") (PStr ""));
    reflexivity.
Defined.

Lemma for_each_lines {A} (body : A -> M unit) (l : list A) (lines : list event) :
  Forall2 (fun x line => body x = ([line], Ok tt)) l lines ->
  for_each l body = (lines, Ok tt).
Proof.
  induction 1 as [|x line r lines' Hx _ IH]; [reflexivity|].
  cbn [for_each]. rewrite Hx, IH. reflexivity.
Qed.

Lemma subscript_contains (instance : pyval) (k : string) (v : pyval) :
  subscript instance k = Ok v -> contains k instance = Ok true.
Proof.
  destruct instance as [| | | | | |d]; try discriminate.
  unfold subscript, contains. rewrite mem_get.
  destruct (Dict.get d k); [reflexivity|discriminate].
Qed.

(** The security groups section has one line per group, in the order of
    the record, each with the group's name and identifier. *)
Theorem security_group_lines
        (repr : pyval -> string) (instance : pyval)
        (groups : list pyval) (fields : list (pyval * pyval)) :
  subscript instance "SecurityGroups" = Ok (PList groups) ->
  Forall2 (has_fields "GroupName" "GroupId") groups fields ->
  format_security_groups repr instance
  = (EvPrint (nl ++ "Security Groups:") :: map (group_line repr) fields, Ok tt).
Proof.
  intros Hg Hf. unfold format_security_groups. run. rewrite Hg. run.
  cbn [py_iter].
  rewrite (for_each_lines _ groups (map (group_line repr) fields)); [reflexivity|].
  clear Hg. induction Hf as [|sg f l fs [Hn Hi] _ IH]; cbn [map]; [constructor|].
  constructor; [|exact IH].
  run. rewrite Hn. run. rewrite Hi. reflexivity.
Qed.

(** The theorem at a sample instance with two groups. *)
Lemma security_group_lines_witness :
  format_security_groups Sample.no_repr Sample.two_groups
  = (EvPrint (nl ++ "Security Groups:")
       :: map (group_line Sample.no_repr)
              [(PStr "web", PStr "sg-1"); (PStr "ssh", PStr "sg-2")],
     Ok tt).
Proof.
  apply (security_group_lines Sample.no_repr Sample.two_groups
           [PDict [("GroupName", PStr "web"); ("GroupId", PStr "sg-1")];
            PDict [("GroupName", PStr "ssh"); ("GroupId", PStr "sg-2")]]).
  - reflexivity.
  - repeat constructor.
Defined.

(** When the record has a [Tags] field, the tags section has one line per
    tag, in the order of the record, and no other line. *)
Theorem tag_lines
        (repr : pyval -> string) (instance : pyval)
        (tags : list pyval) (fields : list (pyval * pyval)) :
  subscript instance "Tags" = Ok (PList tags) ->
  Forall2 (has_fields "Key" "Value") tags fields ->
  format_tags repr instance
  = (EvPrint (nl ++ "Tags:") :: map (tag_line repr) fields, Ok tt).
Proof.
  intros Ht Hf. unfold format_tags. run.
  rewrite (subscript_contains _ _ _ Ht). run. rewrite Ht. run. cbn [py_iter].
  rewrite (for_each_lines _ tags (map (tag_line repr) fields)); [reflexivity|].
  clear Ht. induction Hf as [|tag f l fs [Hk Hv] _ IH]; cbn [map]; [constructor|].
  constructor; [|exact IH].
  run. rewrite Hk. run. rewrite Hv. reflexivity.
Qed.

(** The theorem at a sample instance with two tags. *)
Lemma tag_lines_witness :
  format_tags Sample.no_repr Sample.two_tags
  = (EvPrint (nl ++ "Tags:")
       :: map (tag_line Sample.no_repr)
              [(PStr "Name", PStr "web-01"); (PStr "env", PStr "prod")],
     Ok tt).
Proof.
  apply (tag_lines Sample.no_repr Sample.two_tags
           [PDict [("Key", PStr "Name"); ("Value", PStr "web-01")];
            PDict [("Key", PStr "env"); ("Value", PStr "prod")]]).
  - reflexivity.
  - repeat constructor.
Defined.

(** The last section: the availability zone always, the key pair only
    when the record has one and it is not empty. *)
Theorem placement_lines
        (repr : pyval -> string) (instance placement zone key_name : pyval) :
  subscript instance "Placement" = Ok placement ->
  subscript placement "AvailabilityZone" = Ok zone ->
  py_get instance "KeyName" PNone = Ok key_name ->
  format_placement repr instance
  = ((EvPrint (nl ++ "Availability Zone: " ++ py_str repr zone)
        :: (if truthy key_name
            then [EvPrint ("Key Pair: " ++ py_str repr key_name)] else []))%list,
     Ok tt).
Proof.
  intros Hp Hz Hk. unfold format_placement. run.
  rewrite Hp. run. rewrite Hz. run. rewrite Hk. run.
  destruct (truthy key_name) eqn:T; run.
  - rewrite (py_get_truthy _ _ _ Hk T). reflexivity.
  - reflexivity.
Qed.

(** The theorem at a sample instance without a key pair. *)
Lemma placement_lines_witness :
  format_placement Sample.no_repr (Sample.instance "i-1" [])
  = ([EvPrint (nl ++ "Availability Zone: " ++ "ap-southeast-2a")], Ok tt).
Proof.
  apply (placement_lines Sample.no_repr (Sample.instance "i-1" [])
           (PDict [("AvailabilityZone", PStr "ap-southeast-2a")])
           (PStr "ap-southeast-2a") PNone);
    reflexivity.
Defined.

(** A record without [VpcId] cannot be reported: after its basic
    information and the heading of the network section the report ends
    with a [KeyError], and so does [main] in textual mode. *)
Theorem missing_vpc_aborts_report
        (repr : pyval -> string) (w : env) (a : args) (t : list event)
        (instance : pyval) :
  get_ec2_details w (server_name a) (region a) = (t, Ok (Some [instance])) ->
  human a = true ->
  outcome (format_basic repr 1 1 instance) = Ok tt ->
  contains "VpcId" instance = Ok false ->
  main repr w a
  = ((main_banner a ++ t ++ trace (format_basic repr 1 1 instance)
        ++ [EvPrint (nl ++ "Network Details:")])%list,
     Raise (KeyError "VpcId")).
Proof.
  intros Hrun Hh Hb Hv.
  assert (Hvpc : subscript instance "VpcId" = Raise (KeyError "VpcId")).
  { destruct instance as [| | | | | |d]; try (cbv in Hb; discriminate Hb).
    simpl in Hv. injection Hv as Hv. rewrite mem_get in Hv.
    unfold subscript. destruct (Dict.get d "VpcId"); [discriminate|reflexivity]. }
  rewrite main_unfold, Hrun. unfold report. rewrite Hh. run.
  unfold format_ec2_details. cbn [List.length format_from].
  unfold format_instance, format_network.
  destruct (format_basic repr 1 1 instance) as [tb rb].
  unfold outcome in Hb. cbn [snd] in Hb. subst rb.
  run. rewrite Hvpc. unfold trace, outcome. cbn [fst snd].
  now rewrite !app_nil_r.
Qed.

(** The theorem at a sample instance that is shutting down and has lost
    its network fields. *)
Lemma missing_vpc_aborts_report_witness :
  exists t,
    main Sample.no_repr (Sample.world_of Sample.shutting_down_client) Sample.human_args
    = ((main_banner Sample.human_args ++ t
          ++ trace (format_basic Sample.no_repr 1 1 Sample.shutting_down_merged)
          ++ [EvPrint (nl ++ "Network Details:")])%list,
       Raise (KeyError "VpcId")).
Proof.
  eexists.
  apply (missing_vpc_aborts_report Sample.no_repr
           (Sample.world_of Sample.shutting_down_client) Sample.human_args).
  - vm_compute. reflexivity.
  - reflexivity.
  - vm_compute. reflexivity.
  - reflexivity.
Defined.

(** ** The storage section after the merge *)

Lemma refers_parts (vid : string) (bdm : pyval) :
  refers vid bdm = true ->
  contains "Ebs" bdm = Ok true /\
  exists ebs, subscript bdm "Ebs" = Ok ebs /\ subscript ebs "VolumeId" = Ok (PStr vid).
Proof.
  intros H. apply refers_true in H. destruct H as [Hc Hv]. split; [exact Hc|].
  unfold ebs_volume_id in Hv.
  destruct (subscript bdm "Ebs") as [ebs|]; [|discriminate Hv].
  exists ebs. split; [reflexivity|exact Hv].
Qed.

(** When every attachment of a record is instance-local, its storage
    section has one line [Instance store volume] per attachment, in order,
    whatever the record's [VolumeDetails] holds. *)
Theorem local_storage_section
        (repr : pyval -> string) (instance : pyval)
        (bdms devices : list pyval) :
  block_device_mappings instance = Ok bdms ->
  Forall2 (fun bdm device => contains "Ebs" bdm = Ok false /\
                             subscript bdm "DeviceName" = Ok device)
          bdms devices ->
  format_storage repr instance
  = (EvPrint (nl ++ "Storage:")
       :: map (fun device =>
                 EvPrint ("  " ++ py_str repr device ++ ": Instance store volume"))
              devices,
     Ok tt).
Proof.
  intros Hb Hl. unfold format_storage. unfold block_device_mappings in Hb.
  destruct (py_get instance "BlockDeviceMappings" (PList [])) as [bdms_v|];
    [|discriminate Hb].
  cbn [res_bind] in Hb. run. rewrite Hb.
  rewrite (for_each_lines _ bdms
             (map (fun device =>
                     EvPrint ("  " ++ py_str repr device ++ ": Instance store volume"))
                  devices)); [reflexivity|].
  clear Hb. induction Hl as [|bdm device l ds [Hc Hd] _ IH]; cbn [map]; [constructor|].
  constructor; [|exact IH].
  unfold format_bdm. run. rewrite Hc. run. rewrite Hd. reflexivity.
Qed.

(** The theorem at the sample instance with one instance-local
    attachment. *)
Lemma local_storage_section_witness :
  format_storage Sample.no_repr Sample.local_only
  = (EvPrint (nl ++ "Storage:")
       :: map (fun device =>
                 EvPrint ("  " ++ py_str Sample.no_repr device ++ ": Instance store volume"))
              [PStr "/dev/sdb"],
     Ok tt).
Proof.
  apply (local_storage_section Sample.no_repr Sample.local_only
           [Sample.ephemeral_mapping "/dev/sdb"]).
  - reflexivity.
  - repeat constructor.
Defined.

(** After the merge, a remote-backed attachment whose volume is not in the
    fetched mapping gets the single line [(details unavailable)]. *)
Theorem unresolved_volume_line
        (repr : pyval -> string) (vd : dict) (instance instance' bdm device : pyval)
        (vid : string) :
  add_volume_details vd instance = Ok instance' ->
  refers vid bdm = true ->
  subscript bdm "DeviceName" = Ok device ->
  Dict.get vd vid = None ->
  format_bdm repr instance' bdm
  = ([EvPrint ("  " ++ py_str repr device ++ ": " ++ vid ++ " (details unavailable)")],
     Ok tt).
Proof.
  intros Hm Hr Hd Hv. apply add_volume_details_spec in Hm.
  destruct Hm as (d & bdms & details & -> & _ & -> & Honly & _).
  destruct (refers_parts _ _ Hr) as (Hc & ebs & He & Hid).
  assert (Hnone : Dict.get details vid = None).
  { destruct (Dict.get details vid) as [r|] eqn:E; [|reflexivity].
    destruct (Honly _ _ E) as [Hsome _]. congruence. }
  unfold format_bdm. run. rewrite Hc. run. rewrite Hd. run. rewrite He. run.
  rewrite Hid. run. unfold py_get. rewrite get_set_eq. run.
  unfold get_by_value. rewrite Hnone. reflexivity.
Qed.

(** The theorem at the sample instance merged with an empty mapping. *)
Lemma unresolved_volume_line_witness :
  exists instance',
    add_volume_details [] (Sample.instance "i-1" [Sample.ebs_mapping "/dev/xvda" "vol-A"])
    = Ok instance' /\
    format_bdm Sample.no_repr instance' (Sample.ebs_mapping "/dev/xvda" "vol-A")
    = ([EvPrint ("  " ++ "/dev/xvda" ++ ": " ++ "vol-A" ++ " (details unavailable)")],
       Ok tt).
Proof.
  eexists. split; [vm_compute; reflexivity|].
  apply (unresolved_volume_line Sample.no_repr []
           (Sample.instance "i-1" [Sample.ebs_mapping "/dev/xvda" "vol-A"]) _
           (Sample.ebs_mapping "/dev/xvda" "vol-A") (PStr "/dev/xvda") "vol-A");
    vm_compute; reflexivity.
Defined.

(** After the merge, a remote-backed attachment whose volume was fetched
    gets the device line and the volume's size, type, state and encryption
    flag, then the IOPS and the throughput, each only when the volume has
    it. *)
Theorem resolved_volume_lines
        (repr : pyval -> string) (vd : dict) (instance instance' : pyval)
        (bdms : list pyval) (bdm device : pyval) (vid : string)
        (volume record : pyval) :
  add_volume_details vd instance = Ok instance' ->
  block_device_mappings instance = Ok bdms ->
  In bdm bdms ->
  refers vid bdm = true ->
  subscript bdm "DeviceName" = Ok device ->
  Dict.get vd vid = Some record ->
  volume_entry volume = Ok (vid, record) ->
  exists size volume_type state encrypted iops throughput,
    subscript volume "Size" = Ok size /\
    subscript volume "VolumeType" = Ok volume_type /\
    subscript volume "State" = Ok state /\
    subscript volume "Encrypted" = Ok encrypted /\
    py_get volume "Iops" (PStr "N/A") = Ok iops /\
    py_get volume "Throughput" (PStr "N/A") = Ok throughput /\
    format_bdm repr instance' bdm
    = (([EvPrint ("  " ++ py_str repr device ++ ": " ++ vid);
         EvPrint ("    Size: " ++ py_str repr size ++ " GB");
         EvPrint ("    Type: " ++ py_str repr volume_type);
         EvPrint ("    State: " ++ py_str repr state);
         EvPrint ("    Encrypted: " ++ py_str repr encrypted)]
          ++ (if is_str "N/A" iops then []
              else [EvPrint ("    IOPS: " ++ py_str repr iops)])
          ++ (if is_str "N/A" throughput then []
              else [EvPrint ("    Throughput: " ++ py_str repr throughput ++ " MB/s")]))%list,
       Ok tt).
Proof.
  intros Hm Hb Hin Hr Hd Hv He. apply add_volume_details_spec in Hm.
  destruct Hm as (d & bdms' & details & -> & Hb' & -> & _ & Hall).
  rewrite Hb in Hb'. injection Hb' as <-.
  pose proof (Hall _ _ Hin Hr) as Hdet. rewrite Hv in Hdet.
  destruct (refers_parts _ _ Hr) as (Hc & ebs & Hebs & Hid).
  unfold volume_entry in He.
  destruct (subscript volume "Size") as [size|]; cbn [res_bind] in He; [|discriminate].
  destruct (subscript volume "VolumeType") as [vt|]; cbn [res_bind] in He; [|discriminate].
  destruct (subscript volume "State") as [st|]; cbn [res_bind] in He; [|discriminate].
  destruct (subscript volume "Encrypted") as [enc|]; cbn [res_bind] in He; [|discriminate].
  destruct (py_get volume "Iops" (PStr "N/A")) as [iops|];
    cbn [res_bind] in He; [|discriminate].
  destruct (py_get volume "Throughput" (PStr "N/A")) as [thr|];
    cbn [res_bind] in He; [|discriminate].
  destruct (py_get volume "SnapshotId" (PStr "N/A")) as [snap|];
    cbn [res_bind] in He; [|discriminate].
  destruct (subscript volume "AvailabilityZone") as [az|];
    cbn [res_bind] in He; [|discriminate].
  destruct (subscript volume "CreateTime") as [ct|]; cbn [res_bind] in He; [|discriminate].
  destruct (subscript volume "VolumeId") as [id|]; cbn [res_bind] in He; [|discriminate].
  destruct id; simpl in He; try discriminate.
  injection He as -> <-.
  exists size, vt, st, enc, iops, thr.
  repeat (split; [reflexivity|]).
  unfold format_bdm. run. rewrite Hc. run. rewrite Hd. run. rewrite Hebs. run.
  rewrite Hid. run. unfold py_get at 1. rewrite get_set_eq. run.
  unfold get_by_value. rewrite Hdet. run. simpl truthy. cbv iota.
  simpl py_get. run.
  destruct (is_str "N/A" iops); destruct (is_str "N/A" thr); reflexivity.
Qed.

(** The theorem at the sample instance merged with the sample volume,
    which has IOPS and no throughput. *)
Lemma resolved_volume_lines_witness :
  add_volume_details Sample.volume_map Sample.attached = Ok Sample.attached_merged /\
  Dict.get Sample.volume_map "vol-A" = Some Sample.volume_record /\
  format_bdm Sample.no_repr Sample.attached_merged (Sample.ebs_mapping "/dev/xvda" "vol-A")
  = ([EvPrint "  /dev/xvda: vol-A";
      EvPrint "    Size: 8 GB";
      EvPrint "    Type: gp3";
      EvPrint "    State: in-use";
      EvPrint "    Encrypted: True";
      EvPrint "    IOPS: 3000"],
     Ok tt).
Proof.
  split; [reflexivity|]. split; [reflexivity|].
  destruct (resolved_volume_lines Sample.no_repr Sample.volume_map
              Sample.attached Sample.attached_merged
              [Sample.ebs_mapping "/dev/xvda" "vol-A"]
              (Sample.ebs_mapping "/dev/xvda" "vol-A") (PStr "/dev/xvda") "vol-A"
              (Sample.volume "vol-A") Sample.volume_record
              eq_refl eq_refl (or_introl eq_refl) eq_refl eq_refl eq_refl eq_refl)
    as (size & vt & st & enc & iops & thr & H1 & H2 & H3 & H4 & H5 & H6 & Hf).
  vm_compute in H1, H2, H3, H4, H5, H6.
  injection H1 as <-. injection H2 as <-. injection H3 as <-.
  injection H4 as <-. injection H5 as <-. injection H6 as <-.
  exact Hf.
Defined.

(** ** The default output path and the timestamp *)

Lemma clean_name_get (name : string) :
  forall n, String.get n (replace_char "\" "_" (replace_char "/" "_" name))
            = option_map clean_char (String.get n name).
Proof.
  induction name as [|c r IH]; intros n; [reflexivity|].
  cbn [replace_char]. destruct n as [|n]; cbn [String.get option_map].
  - unfold clean_char. destruct (Ascii.eqb c "/") eqn:E; [reflexivity|].
    reflexivity.
  - apply IH.
Qed.

Lemma clean_name_length (name : string) :
  String.length (replace_char "\" "_" (replace_char "/" "_" name)) = String.length name.
Proof. induction name as [|c r IH]; [reflexivity|]. cbn. now rewrite IH. Qed.

Lemma clean_name_has_no (name : string) :
  has_char "/" (replace_char "\" "_" (replace_char "/" "_" name)) = false /\
  has_char "\" (replace_char "\" "_" (replace_char "/" "_" name)) = false.
Proof.
  induction name as [|c r [IH1 IH2]]; [split; reflexivity|].
  cbn [replace_char has_char]. rewrite IH1, IH2.
  destruct (Ascii.eqb c "/") eqn:E1.
  - split; reflexivity.
  - destruct (Ascii.eqb c "\") eqn:E2.
    + split; reflexivity.
    + rewrite E1, E2. split; reflexivity.
Qed.

(** The default output path is [output/<name>_details.json] with every
    slash and backslash of the name replaced by an underscore and every
    other character kept: the name adds no directory level to the path. *)
Theorem default_output_is_flat (name : string) :
  exists clean,
    default_output name = "output/" ++ clean ++ "_details.json" /\
    String.length clean = String.length name /\
    has_char "/" clean = false /\
    has_char "\" clean = false /\
    forall n, String.get n clean = option_map clean_char (String.get n name).
Proof.
  exists (replace_char "\" "_" (replace_char "/" "_" name)).
  split; [reflexivity|]. split; [apply clean_name_length|].
  destruct (clean_name_has_no name) as [H1 H2].
  split; [exact H1|]. split; [exact H2|]. apply clean_name_get.
Qed.

Lemma all_printable_app (s1 s2 : string) :
  all_printable (s1 ++ s2) = (all_printable s1 && all_printable s2)%bool.
Proof.
  induction s1 as [|c r IH]; [reflexivity|].
  cbn [append all_printable]. rewrite IH. now rewrite andb_assoc.
Qed.

Lemma escape_char_printable (c : ascii) : all_printable (Json.escape_char c) = true.
Proof.
  destruct c as [[|] [|] [|] [|] [|] [|] [|] [|]]; vm_compute; reflexivity.
Qed.

Lemma escape_printable (s : string) : all_printable (Json.escape s) = true.
Proof.
  induction s as [|c r IH]; [reflexivity|].
  cbn [Json.escape]. now rewrite all_printable_app, escape_char_printable, IH.
Qed.

(** The [timestamp] of the output object, for a launch time that is a
    datetime, is its text between two double quotes with every character
    outside space..~, every double quote and every backslash escaped: it
    consists of printable ASCII characters only. *)
Theorem timestamp_is_printable_ascii
        (a : args) (first : pyval) (rest : list pyval) (text : string) :
  subscript first "LaunchTime" = Ok (PDatetime text) ->
  exists data,
    output_data a (first :: rest) = Ok data /\
    subscript data "timestamp" = Ok (PStr (dquote ++ Json.escape text ++ dquote)) /\
    all_printable (dquote ++ Json.escape text ++ dquote) = true.
Proof.
  intros H. unfold output_data. rewrite H. cbn [res_bind].
  eexists. split; [reflexivity|]. split; [reflexivity|].
  now rewrite !all_printable_app, escape_printable.
Qed.

(** The theorem at a sample launch time with a quote and a tab in its
    text. *)
Lemma timestamp_is_printable_ascii_witness :
  exists data,
    output_data Sample.json_args [Sample.odd_launch] = Ok data /\
    subscript data "timestamp"
    = Ok (PStr (dquote ++ Json.escape Sample.odd_text ++ dquote)) /\
    all_printable (dquote ++ Json.escape Sample.odd_text ++ dquote) = true.
Proof.
  apply (timestamp_is_printable_ascii Sample.json_args Sample.odd_launch []
           Sample.odd_text).
  reflexivity.
Defined.

(** ** The order of the volume query *)

Lemma instance_ebs_ids_merged (vd : dict) (instance instance' : pyval) :
  add_volume_details vd instance = Ok instance' ->
  instance_ebs_ids instance' = instance_ebs_ids instance.
Proof.
  intros H. apply add_volume_details_spec in H.
  destruct H as (d & bdms & details & -> & _ & -> & _).
  unfold instance_ebs_ids. now rewrite block_device_mappings_set.
Qed.

(** A run that returns instances sent its volume query, if any attachment
    is remote-backed, with the identifiers listed attachment by
    attachment, in the order of the returned instances and of each
    instance's attachments; with no remote-backed attachment it sent
    none. *)
Theorem volume_query_follows_attachments
        (w : env) (name : string) (region : option string)
        (t : list event) (out : list pyval) :
  get_ec2_details w name region = (t, Ok (Some out)) ->
  volume_fetches t
  = match flat_map instance_ebs_ids out with
    | [] => []
    | ids => [ids]
    end.
Proof.
  intros H. apply get_ec2_details_inv in H.
  destruct H as (ec2 & response & instances & ids & tv & vd
                 & _ & _ & _ & _ & Hi & Hv & Hm & ->).
  apply collect_volume_ids_spec in Hi. destruct Hi as [Hids _].
  assert (Hout : flat_map instance_ebs_ids out = ids).
  { rewrite Hids. apply merge_Forall2 in Hm. clear Hids Hv.
    induction Hm as [|x y l l' Hxy _ IH]; [reflexivity|].
    cbn [flat_map]. now rewrite IH, (instance_ebs_ids_merged _ _ _ Hxy). }
  rewrite Hout.
  destruct (get_volume_details_returns ec2 ids) as (tv' & vd' & Hv' & Hfetch).
  rewrite Hv in Hv'. injection Hv' as <- <-.
  transitivity (volume_fetches ([EvDescribeInstances (query_filters name)]
                                  ++ found_banner name (List.length instances) ++ tv));
    [reflexivity|].
  rewrite !volume_fetches_app, volume_fetches_banner, Hfetch.
  now destruct ids.
Qed.

(** The theorem at the sample run with two instances on [vol-A]. *)
Lemma volume_query_follows_attachments_witness :
  exists t out,
    get_ec2_details (Sample.world_of Sample.shared_client) "web-01" None
    = (t, Ok (Some out)) /\
    volume_fetches t
    = match flat_map instance_ebs_ids out with
      | [] => []
      | ids => [ids]
      end.
Proof.
  eexists. eexists. split; [vm_compute; reflexivity|].
  apply (volume_query_follows_attachments
           (Sample.world_of Sample.shared_client) "web-01" None).
  vm_compute. reflexivity.
Defined.
